(** * Urban mobility explorer: the two dashboard scripts, embedded and verified

    The repository holds two browser scripts.  The first (an inline page
    script) keeps a paginated, filterable trip table, two hand-drawn bar
    charts and four statistic tiles; it is embedded in [Module Explorer].
    The second, [frontend/script.js], drives a Chart.js dashboard through a
    shared [fetchData] helper; it is embedded in [Module Dashboard].

    Conventions of the embedding:
    - JavaScript numbers are exact: integers are [Z], measurements are [Q].
      IEEE rounding and the loss of integer precision above 2^53 are not
      modelled.  Where the scripts compute with a number of the backend (the
      bar heights of the page script), the number is a [JsNumber]: a JSON
      numeral too large for a double, such as [1e400], is parsed to
      [Infinity], and arithmetic on it yields [NaN].
    - JavaScript strings are [string]; a byte above 127 stands for a
      non-ASCII code unit (never a [\w] character for a regular expression
      without the unicode flag).
    - Text produced by the runtime's formatting routines ([toLocaleString],
      [toFixed], [Date.prototype.toLocaleString]) is kept symbolic, see
      [Piece].
    - Payloads received from the backend are typed after the shapes the
      scripts read: a body is an object (or an array) of the expected kind,
      and a field that is present holds a value of the expected type.  A
      field on which a script calls a method ([toFixed], [toLocaleString],
      [replace], [map], [length]) is optional, which keeps in the model the
      [TypeError] that a payload without it raises.
    - Markup assigned to [innerHTML] is described by the template and the
      values interpolated into it; how the browser parses it (a value that
      holds markup of its own is parsed as markup) is not modelled.
    - An [async] function is cut at its suspension points: the part that runs
      up to the [await] is one function, the part that runs when the awaited
      promise settles is another, and the event loop is a step function over
      an explicit state. *)

From Stdlib Require Import List String Ascii Bool ZArith QArith Qminmax Lia.
From Stdlib Require Import DecimalString.
Import ListNotations.

Local Open Scope string_scope.
Local Open Scope Z_scope.

(** ** Runtime values shared by the two scripts *)

(** A number of JavaScript, as far as arithmetic can tell one from another:
    a finite value, one of the two infinities, or [NaN]. *)
Inductive JsNumber : Type :=
| Finite (q : Q)
| PosInfinity
| NegInfinity
| NaN.

Coercion Finite : Q >-> JsNumber.

(** One interpolated fragment of a piece of text written to the page. *)
Inductive Piece : Type :=
| Lit (s : string)                 (* literal characters *)
| Int (n : Z)                      (* String(n), n an integer *)
| Locale (x : JsNumber)            (* x.toLocaleString() *)
| Fixed (digits : nat) (q : Q)     (* q.toFixed(digits) *)
| Span (class body : string)       (* <span class=...>body</span> *)
| DateTime (options : bool) (s : string).
                                   (* new Date(s).toLocaleString(...),
                                      [options] tells whether the en-US
                                      short format of formatDateTime is asked *)

Definition Text : Type := list Piece.

(** The outcome of [fetch(url)] followed by [response.json()]: either one of
    the two promises rejects (network failure, body that is not JSON), or a
    parsed payload is obtained. *)
Inductive Fetched (A : Type) : Type :=
| Rejected
| Resolved (data : A).
Arguments Rejected {A}.
Arguments Resolved {A} data.

(** A JavaScript object whose values are strings, with its keys in insertion
    order.  [obj_set] is the assignment [o[k] = v]: an existing key keeps its
    place, a new key goes last. *)
Definition JsObject : Type := list (string * string).

Fixpoint obj_set (k v : string) (o : JsObject) : JsObject :=
  match o with
  | [] => [(k, v)]
  | (k', v') :: o' =>
      if String.eqb k k' then (k, v) :: o' else (k', v') :: obj_set k v o'
  end.

Fixpoint obj_get (k : string) (o : JsObject) : option string :=
  match o with
  | [] => None
  | (k', v') :: o' => if String.eqb k k' then Some v' else obj_get k o'
  end.

(** Object spread [{...o, ...extra}]: the properties of [extra] are assigned
    in order on top of [o]. *)
Definition obj_spread (o extra : JsObject) : JsObject :=
  fold_left (fun acc kv => obj_set (fst kv) (snd kv) acc) extra o.

(** [String(n)] for an integer [n]. *)
Definition string_of_Z (n : Z) : string :=
  NilZero.string_of_int (Z.to_int n).

(** Truthiness of a string: only the empty string is falsy. *)
Definition truthy (s : string) : bool :=
  match s with EmptyString => false | String _ _ => true end.

(** Arithmetic instrumented for division: JavaScript would answer
    [Infinity] or [NaN] for a zero divisor; the embedding reports it, so
    that the absence of such a division can be stated. *)
Inductive Arith (A : Type) : Type :=
| Value (a : A)
| DivisionByZero.
Arguments Value {A} a.
Arguments DivisionByZero {A}.

Definition arith_bind {A B} (m : Arith A) (f : A -> Arith B) : Arith B :=
  match m with
  | Value a => f a
  | DivisionByZero => DivisionByZero
  end.

(** [ToNumber] of a property that may be missing: [undefined] becomes
    [NaN]. *)
Definition to_number (v : option JsNumber) : JsNumber :=
  match v with
  | Some x => x
  | None => NaN
  end.

(** [Math.max(x, y)]. *)
Definition js_max (x y : JsNumber) : JsNumber :=
  match x, y with
  | NaN, _ | _, NaN => NaN
  | PosInfinity, _ | _, PosInfinity => PosInfinity
  | NegInfinity, z | z, NegInfinity => z
  | Finite a, Finite b => Finite (Qmax a b)
  end.

(** [x > 0]. *)
Definition js_positive (x : JsNumber) : bool :=
  match x with
  | Finite q => match (q ?= 0)%Q with Gt => true | _ => false end
  | PosInfinity => true
  | NegInfinity | NaN => false
  end.

(** [a / b] for a divisor other than zero. *)
Definition js_quotient (a b : JsNumber) : JsNumber :=
  match a, b with
  | NaN, _ | _, NaN => NaN
  | Finite x, Finite y => Finite (x / y)
  | Finite _, _ => Finite 0
  | PosInfinity, Finite y =>
      match (y ?= 0)%Q with Lt => NegInfinity | _ => PosInfinity end
  | NegInfinity, Finite y =>
      match (y ?= 0)%Q with Lt => PosInfinity | _ => NegInfinity end
  | _, _ => NaN
  end.

Definition js_div (a b : JsNumber) : Arith JsNumber :=
  match b with
  | Finite q => if Qeq_bool q 0 then DivisionByZero
                else Value (js_quotient a b)
  | _ => Value (js_quotient a b)
  end.

(** [a * k] for a finite factor [k]. *)
Definition js_scale (a : JsNumber) (k : Q) : JsNumber :=
  match a with
  | Finite x => Finite (x * k)
  | PosInfinity =>
      match (k ?= 0)%Q with
      | Gt => PosInfinity | Lt => NegInfinity | Eq => NaN
      end
  | NegInfinity =>
      match (k ?= 0)%Q with
      | Gt => NegInfinity | Lt => PosInfinity | Eq => NaN
      end
  | NaN => NaN
  end.

(** What a call raises. *)
Inductive Exception : Type :=
| TypeError                        (* a method called on [undefined] *)
| RangeError.                      (* too many arguments for one call *)

(** A call that returns a value or raises. *)
Inductive Outcome (A : Type) : Type :=
| Done (a : A)
| Raises (e : Exception).
Arguments Done {A} a.
Arguments Raises {A} e.

(** ** The page script with the paginated trip table *)

Module Explorer.

(** *** formatLabel *)

Definition in_range (lo hi : nat) (c : ascii) : bool :=
  (lo <=? nat_of_ascii c)%nat && (nat_of_ascii c <=? hi)%nat.

(** The class [\w]: ASCII letters, digits and the underscore. *)
Definition is_word (c : ascii) : bool :=
  in_range 65 90 c || in_range 97 122 c || in_range 48 57 c
  || Ascii.eqb c "_"%char.

(** [toUpperCase] on one code unit of the ASCII range. *)
Definition toUpperCase (c : ascii) : ascii :=
  if in_range 97 122 c then ascii_of_nat (nat_of_ascii c - 32) else c.

(** [s.replace(/_/g, ' ')]. *)
Fixpoint replace_underscores (s : string) : string :=
  match s with
  | EmptyString => EmptyString
  | String c s' =>
      String (if Ascii.eqb c "_"%char then " "%char else c)
             (replace_underscores s')
  end.

(** [s.replace(/\b\w/g, l => l.toUpperCase())].  The pattern matches a word
    character that stands at a word boundary, that is, one whose predecessor
    in the subject string is not a word character (or is missing);
    [prev_word] tells whether the predecessor is a word character. *)
Fixpoint capitalize_words (prev_word : bool) (s : string) : string :=
  match s with
  | EmptyString => EmptyString
  | String c s' =>
      String (if is_word c && negb prev_word then toUpperCase c else c)
             (capitalize_words (is_word c) s')
  end.

Definition formatLabel (label : string) : string :=
  capitalize_words false (replace_underscores label).

(** *** createBarChart *)

(** One row of a categorical series, read through [labelKey] and
    [valueKey]; a property is [None] when the row lacks it. *)
Record BarItem : Type := mkBarItem {
  item_label : option string;
  item_value : option JsNumber
}.

(** One [div.bar] appended to the chart container.  The height is the
    number interpolated into [style.height] ([NaN] gives the text [NaN%]);
    it is [DivisionByZero] when the computation that produced it divided by
    zero. *)
Record Bar : Type := mkBar {
  bar_height : Arith JsNumber;  (* style.height, in percent *)
  bar_label : string;           (* textContent of div.bar-label *)
  bar_value : Text              (* textContent of div.bar-value *)
}.

(** What a chart container shows. *)
Inductive ChartContainer : Type :=
| ChartBlank                     (* as shipped in the page *)
| ChartLoading                   (* the "Loading" placeholder *)
| ChartNoData                    (* "No data available" *)
| ChartFailed                    (* "Failed to load" *)
| ChartBars (bars : list Bar).

(** [Math.max(...xs)]: the arguments are converted to numbers and the
    largest is returned, [-Infinity] when there is none. *)
Definition Math_max (xs : list JsNumber) : JsNumber :=
  fold_left js_max xs NegInfinity.

(** [maxValue > 0 ? (item[valueKey] / maxValue) * 100 : 0]. *)
Definition heightPercent (maxValue : JsNumber) (item : BarItem)
  : Arith JsNumber :=
  if js_positive maxValue
  then arith_bind (js_div (to_number (item_value item)) maxValue)
                  (fun r => Value (js_scale r 100))
  else Value (Finite 0).

(** The body of [data.forEach(item => ...)]: the bar it appends.  The
    height is computed first; [formatLabel] then raises on a row without
    label ([label.replace]), and [toLocaleString] on a row without value. *)
Definition renderBar (maxValue : JsNumber) (item : BarItem) : Outcome Bar :=
  let height := arith_bind (heightPercent maxValue item)
                           (fun h => Value (js_max h (Finite 1))) in
  match item_label item, item_value item with
  | Some label, Some value =>
      Done {| bar_height := height;
              bar_label := formatLabel label;
              bar_value := [Locale value] |}
  | _, _ => Raises TypeError
  end.

(** [data.forEach(item => ...)]: the bars appended, up to the first row on
    which the body raises. *)
Fixpoint renderBars (maxValue : JsNumber) (data : list BarItem)
  : Outcome (list Bar) :=
  match data with
  | [] => Done []
  | item :: rest =>
      match renderBar maxValue item with
      | Raises e => Raises e
      | Done bar =>
          match renderBars maxValue rest with
          | Raises e => Raises e
          | Done bars => Done (bar :: bars)
          end
      end
  end.

(** [createBarChart(containerId, data, labelKey, valueKey)]: the new content
    of the container, or the exception that the call raises (each of its two
    callers then overwrites the container in its [catch] block).  [None] is
    an absent ([undefined] or [null]) series.  [max_arguments] is the
    largest number of arguments that the engine accepts in one call:
    spreading a longer array into [Math.max] raises a [RangeError]. *)
Definition createBarChart (max_arguments : Z)
  (data : option (list BarItem)) : Outcome ChartContainer :=
  match data with
  | None | Some [] => Done ChartNoData
  | Some data =>
      let values := map (fun d => to_number (item_value d)) data in
      if max_arguments <? Z.of_nat (List.length values) then Raises RangeError
      else
        match renderBars (Math_max values) data with
        | Raises e => Raises e
        | Done bars => Done (ChartBars bars)
        end
  end.

(** *** Payloads of the backend *)

(** [GET /api/stats].  A field is [None] when the payload lacks it, in which
    case formatting it raises a [TypeError]. *)
Record StatsSummary : Type := mkStats {
  total_trips : option Q;
  avg_duration_minutes : option Q;
  avg_distance_miles : option Q;
  avg_speed_mph : option Q
}.

(** One element of the array answered by [GET /api/trips]; the numbers that
    the table formats with [toFixed] are optional, as above. *)
Record TripRow : Type := mkTrip {
  trip_id : Z;                           (* id *)
  pickup_datetime : string;
  trip_duration_minutes : option Q;
  trip_distance_miles : option Q;
  trip_avg_speed_mph : option Q;         (* avg_speed_mph *)
  passenger_count : Z;
  time_of_day : option string;
  speed_category : option string
}.

(** *** The page *)

(** The values interpolated into one instance of the row template
    [<tr><td>...</td>...</tr>] of the trip table. *)
Record RowMarkup : Type := mkRow {
  cell_id : Text;
  cell_pickup : Text;
  cell_duration : Text;
  cell_distance : Text;
  cell_speed : Text;
  cell_passengers : Text;
  badge_time : string * string;    (* class suffix, label *)
  badge_speed : string * string
}.

Inductive TableContent : Type :=
| TableBlank                       (* as shipped in the page *)
| TableLoading                     (* "Loading trips data" *)
| TableNoTrips                     (* "No trips found" *)
| TableError                       (* "Failed to load trips data" *)
| TableMarkup (rows : list RowMarkup).
                                   (* a [<table>] whose [innerHTML] is the
                                      header followed by these instances of
                                      the row template, joined *)

Record Tiles : Type := mkTiles {
  totalTrips : Text;
  avgDuration : Text;
  avgDistance : Text;
  avgSpeed : Text
}.

Record Pager : Type := mkPager {
  tableContainer : TableContent;
  pageLabel : Text;                (* textContent of #currentPage *)
  prevBtn_disabled : bool;
  nextBtn_disabled : bool
}.

Record FilterForm : Type := mkForm {
  timeOfDay : string;              (* value of each filter control *)
  speedCategory : string;
  minDistance : string;
  maxDistance : string;
  applyBtn_disabled : bool;
  applyBtn_text : string
}.

(** The page, and with it the one limit of the engine that the script can
    meet: the number of arguments it accepts in one call. *)
Record Dom : Type := mkDom {
  tiles : Tiles;
  timeChart : ChartContainer;
  speedChart : ChartContainer;
  pager : Pager;
  form : FilterForm;
  banners : list string;           (* banners of showError, oldest first *)
  max_arguments : Z                (* of the engine that runs the page *)
}.

(** *** The script's state *)

Record Request : Type := mkRequest {
  req_url : string;
  req_params : list (string * string)   (* entries of URLSearchParams *)
}.

(** Who is waiting for the promise of a [loadTrips] call. *)
Inductive Caller : Type :=
| Detached                         (* the promise is dropped *)
| AwaitedByApply.                  (* applyFilters awaits it *)

(** A suspended [async] function, waiting for its fetch to settle. *)
Inductive Pending : Type :=
| PStatistics
| PTimeChart
| PSpeedChart
| PTrips (caller : Caller).

Record State : Type := mkState {
  currentPage : Z;
  currentFilters : JsObject;
  isLoading : bool;
  dom : Dom;
  console : list string;           (* console.error messages, oldest first *)
  requests : list Request;         (* every fetch issued, oldest first *)
  inflight : list Pending;         (* suspended calls *)
  chartsOutstanding : nat          (* promises Promise.all still waits for *)
}.

Definition API_BASE_URL : string := "http://localhost:8000".
Definition itemsPerPage : Z := 50.

(** Field updates. *)
Definition with_currentPage (n : Z) (s : State) : State :=
  mkState n (currentFilters s) (isLoading s) (dom s) (console s)
          (requests s) (inflight s) (chartsOutstanding s).
Definition with_currentFilters (f : JsObject) (s : State) : State :=
  mkState (currentPage s) f (isLoading s) (dom s) (console s)
          (requests s) (inflight s) (chartsOutstanding s).
Definition with_isLoading (b : bool) (s : State) : State :=
  mkState (currentPage s) (currentFilters s) b (dom s) (console s)
          (requests s) (inflight s) (chartsOutstanding s).
Definition with_dom (d : Dom) (s : State) : State :=
  mkState (currentPage s) (currentFilters s) (isLoading s) d (console s)
          (requests s) (inflight s) (chartsOutstanding s).
Definition with_inflight (l : list Pending) (s : State) : State :=
  mkState (currentPage s) (currentFilters s) (isLoading s) (dom s) (console s)
          (requests s) l (chartsOutstanding s).
Definition with_chartsOutstanding (n : nat) (s : State) : State :=
  mkState (currentPage s) (currentFilters s) (isLoading s) (dom s) (console s)
          (requests s) (inflight s) n.

Definition console_error (msg : string) (s : State) : State :=
  mkState (currentPage s) (currentFilters s) (isLoading s) (dom s)
          (console s ++ [msg]) (requests s) (inflight s) (chartsOutstanding s).

(** [await fetch(url)]: the request leaves and the caller is suspended. *)
Definition fetch (r : Request) (k : Pending) (s : State) : State :=
  mkState (currentPage s) (currentFilters s) (isLoading s) (dom s) (console s)
          (requests s ++ [r]) (inflight s ++ [k]) (chartsOutstanding s).

Definition with_tiles (t : Tiles) (d : Dom) : Dom :=
  mkDom t (timeChart d) (speedChart d) (pager d) (form d) (banners d)
        (max_arguments d).
Definition with_timeChart (c : ChartContainer) (d : Dom) : Dom :=
  mkDom (tiles d) c (speedChart d) (pager d) (form d) (banners d)
        (max_arguments d).
Definition with_speedChart (c : ChartContainer) (d : Dom) : Dom :=
  mkDom (tiles d) (timeChart d) c (pager d) (form d) (banners d)
        (max_arguments d).
Definition with_pager (p : Pager) (d : Dom) : Dom :=
  mkDom (tiles d) (timeChart d) (speedChart d) p (form d) (banners d)
        (max_arguments d).
Definition with_form (f : FilterForm) (d : Dom) : Dom :=
  mkDom (tiles d) (timeChart d) (speedChart d) (pager d) f (banners d)
        (max_arguments d).
Definition with_banners (b : list string) (d : Dom) : Dom :=
  mkDom (tiles d) (timeChart d) (speedChart d) (pager d) (form d) b
        (max_arguments d).

Definition with_tableContainer (c : TableContent) (p : Pager) : Pager :=
  mkPager c (pageLabel p) (prevBtn_disabled p) (nextBtn_disabled p).
Definition with_pageLabel (t : Text) (p : Pager) : Pager :=
  mkPager (tableContainer p) t (prevBtn_disabled p) (nextBtn_disabled p).
Definition with_prevBtn (b : bool) (p : Pager) : Pager :=
  mkPager (tableContainer p) (pageLabel p) b (nextBtn_disabled p).
Definition with_nextBtn (b : bool) (p : Pager) : Pager :=
  mkPager (tableContainer p) (pageLabel p) (prevBtn_disabled p) b.

Definition with_applyBtn (disabled : bool) (text : string) (f : FilterForm)
  : FilterForm :=
  mkForm (timeOfDay f) (speedCategory f) (minDistance f) (maxDistance f)
         disabled text.
Definition clear_controls (f : FilterForm) : FilterForm :=
  mkForm EmptyString EmptyString EmptyString EmptyString
         (applyBtn_disabled f) (applyBtn_text f).

Definition on_pager (f : Pager -> Pager) (s : State) : State :=
  with_dom (with_pager (f (pager (dom s))) (dom s)) s.
Definition on_form (f : FilterForm -> FilterForm) (s : State) : State :=
  with_dom (with_form (f (form (dom s))) (dom s)) s.
Definition on_tiles (f : Tiles -> Tiles) (s : State) : State :=
  with_dom (with_tiles (f (tiles (dom s))) (dom s)) s.

(** The script as evaluated, before any event, on a page [page]. *)
Definition initial (page : Dom) : State :=
  {| currentPage := 1;
     currentFilters := [];
     isLoading := false;
     dom := page;
     console := [];
     requests := [];
     inflight := [];
     chartsOutstanding := 0 |}.

(** *** showError

    The banner is removed by a timer five seconds later; real time is not
    modelled and [banners] records every banner shown. *)

Definition showError (message : string) (s : State) : State :=
  with_dom (with_banners (banners (dom s) ++ [message]) (dom s)) s.

(** *** loadStatistics *)

Definition loadStatistics (s : State) : State :=
  fetch (mkRequest (API_BASE_URL ++ "/api/stats") []) PStatistics s.

Definition with_totalTrips (t : Text) (x : Tiles) : Tiles :=
  mkTiles t (avgDuration x) (avgDistance x) (avgSpeed x).
Definition with_avgDuration (t : Text) (x : Tiles) : Tiles :=
  mkTiles (totalTrips x) t (avgDistance x) (avgSpeed x).
Definition with_avgDistance (t : Text) (x : Tiles) : Tiles :=
  mkTiles (totalTrips x) (avgDuration x) t (avgSpeed x).
Definition with_avgSpeed (t : Text) (x : Tiles) : Tiles :=
  mkTiles (totalTrips x) (avgDuration x) (avgDistance x) t.

(** The [catch] block of loadStatistics. *)
Definition statisticsFailed (s : State) : State :=
  showError "Failed to load statistics"
            (console_error "Error loading statistics:" s).

(** loadStatistics after its [await]s: the four tiles are written in turn,
    and the first missing field raises into the [catch] block. *)
Definition loadStatistics_resume (r : Fetched StatsSummary) (s : State)
  : State :=
  match r with
  | Rejected => statisticsFailed s
  | Resolved data =>
  match total_trips data with
  | None => statisticsFailed s
  | Some n =>
  let s := on_tiles (with_totalTrips [Locale n]) s in
  match avg_duration_minutes data with
  | None => statisticsFailed s
  | Some m =>
  let s := on_tiles (with_avgDuration [Fixed 2 m; Span "stat-unit" "min"]) s in
  match avg_distance_miles data with
  | None => statisticsFailed s
  | Some d =>
  let s := on_tiles (with_avgDistance [Fixed 2 d; Span "stat-unit" "mi"]) s in
  match avg_speed_mph data with
  | None => statisticsFailed s
  | Some v =>
  on_tiles (with_avgSpeed [Fixed 2 v; Span "stat-unit" "mph"]) s
  end end end end end.

(** *** loadCharts, loadTimeChart, loadSpeedChart *)

Definition loadTimeChart (s : State) : State :=
  fetch (mkRequest (API_BASE_URL ++ "/api/patterns/time") []) PTimeChart
        (with_dom (with_timeChart ChartLoading (dom s)) s).

Definition loadSpeedChart (s : State) : State :=
  fetch (mkRequest (API_BASE_URL ++ "/api/patterns/speed") []) PSpeedChart
        (with_dom (with_speedChart ChartLoading (dom s)) s).

(** loadCharts up to its [await Promise.all([...])]: both chart loaders run
    up to their own fetch. *)
Definition loadCharts (s : State) : State :=
  if isLoading s then s
  else with_chartsOutstanding 2
         (loadSpeedChart (loadTimeChart (with_isLoading true s))).

(** One of the two promises given to [Promise.all] is fulfilled (neither can
    reject, each loader catches its own errors); when the last one is,
    loadCharts resumes, finds nothing left in its [try] and runs
    [finally]. *)
Definition chartSettled (s : State) : State :=
  match chartsOutstanding s with
  | O => s
  | S O => with_isLoading false (with_chartsOutstanding 0 s)
  | S n => with_chartsOutstanding n s
  end.

(** What a chart loader leaves in its container after its [await]s: what
    createBarChart drew, or the message of the [catch] block when the fetch
    failed or createBarChart raised. *)
Definition chartContent (max_arguments : Z)
  (r : Fetched (option (list BarItem))) : ChartContainer :=
  match r with
  | Rejected => ChartFailed
  | Resolved series =>
      match createBarChart max_arguments series with
      | Done c => c
      | Raises _ => ChartFailed
      end
  end.

(** The payload is the series read from the response, [data.by_time_of_day]
    or [data.speed_distribution]; [None] when the field is absent. *)
Definition loadTimeChart_resume (r : Fetched (option (list BarItem)))
  (s : State) : State :=
  chartSettled
    (with_dom
       (with_timeChart (chartContent (max_arguments (dom s)) r) (dom s)) s).

Definition loadSpeedChart_resume (r : Fetched (option (list BarItem)))
  (s : State) : State :=
  chartSettled
    (with_dom
       (with_speedChart (chartContent (max_arguments (dom s)) r) (dom s)) s).

(** *** loadTrips *)

(** [(currentPage - 1) * itemsPerPage]. *)
Definition offset (s : State) : Z := (currentPage s - 1) * itemsPerPage.

(** [new URLSearchParams({limit: itemsPerPage, offset: offset,
    ...currentFilters})]; the numbers are shown as URLSearchParams
    stringifies them. *)
Definition params (s : State) : list (string * string) :=
  obj_spread [("limit", string_of_Z itemsPerPage);
              ("offset", string_of_Z (offset s))]
             (currentFilters s).

Definition tripsRequest (s : State) : Request :=
  mkRequest (API_BASE_URL ++ "/api/trips") (params s).

(** What runs when the promise of a loadTrips call is fulfilled: for
    applyFilters, its [finally] block. *)
Definition afterLoadTrips (c : Caller) (s : State) : State :=
  match c with
  | Detached => s
  | AwaitedByApply => on_form (with_applyBtn false "Apply Filters") s
  end.

(** loadTrips up to [await fetch(...)]. *)
Definition loadTrips (c : Caller) (s : State) : State :=
  if isLoading s then afterLoadTrips c s
  else
    let s := with_isLoading true s in
    let s := on_pager (with_tableContainer TableLoading) s in
    let s := on_pager (with_prevBtn true) s in
    let s := on_pager (with_nextBtn true) s in
    fetch (tripsRequest s) (PTrips c) s.

(** [value || fallback] for an optional string. *)
Definition or_else (o : option string) (fallback : string) : string :=
  match o with
  | Some v => if truthy v then v else fallback
  | None => fallback
  end.

(** One instance of the row template; [None] when [toFixed] is called on a
    missing number. *)
Definition renderRow (trip : TripRow) : option RowMarkup :=
  match trip_duration_minutes trip, trip_distance_miles trip,
        trip_avg_speed_mph trip with
  | Some duration, Some distance, Some speed =>
      Some {| cell_id := [Int (trip_id trip)];
              cell_pickup := [DateTime true (pickup_datetime trip)];
              cell_duration := [Fixed 2 duration; Lit " min"];
              cell_distance := [Fixed 2 distance; Lit " mi"];
              cell_speed := [Fixed 2 speed; Lit " mph"];
              cell_passengers := [Int (passenger_count trip)];
              badge_time :=
                (or_else (time_of_day trip) "unknown",
                 formatLabel (or_else (time_of_day trip) "Unknown"));
              badge_speed :=
                (or_else (speed_category trip) "unknown",
                 formatLabel (or_else (speed_category trip) "Unknown")) |}
  | _, _, _ => None
  end.

Fixpoint renderRows (trips : list TripRow) : option (list RowMarkup) :=
  match trips with
  | [] => Some []
  | trip :: rest =>
      match renderRow trip with
      | None => None
      | Some row =>
          match renderRows rest with
          | None => None
          | Some rows => Some (row :: rows)
          end
      end
  end.

(** The [catch] block of loadTrips. *)
Definition tripsFailed (s : State) : State :=
  let s := console_error "Error loading trips:" s in
  let s := on_pager (with_tableContainer TableError) s in
  let s := on_pager (with_prevBtn false) s in
  on_pager (with_nextBtn false) s.

(** The [try] block of loadTrips after its [await]s. *)
Definition showTrips (r : Fetched (list TripRow)) (s : State) : State :=
  match r with
  | Rejected => tripsFailed s
  | Resolved trips =>
      if Z.of_nat (List.length trips) =? 0 then
        let s := on_pager (with_tableContainer TableNoTrips) s in
        let s := on_pager (with_prevBtn (currentPage s <=? 1)) s in
        on_pager (with_nextBtn true) s
      else
        match renderRows trips with
        | None => tripsFailed s
        | Some rows =>
            let s := on_pager (with_tableContainer (TableMarkup rows)) s in
            let s := on_pager (with_pageLabel [Int (currentPage s)]) s in
            let s := on_pager (with_prevBtn (currentPage s <=? 1)) s in
            on_pager
              (with_nextBtn (Z.of_nat (List.length trips) <? itemsPerPage)) s
        end
  end.

(** loadTrips from its suspension to its end: [try]/[catch], then [finally],
    then whoever awaited the call. *)
Definition loadTrips_resume (c : Caller) (r : Fetched (list TripRow))
  (s : State) : State :=
  afterLoadTrips c (with_isLoading false (showTrips r s)).

(** *** applyFilters, resetFilters, nextPage, previousPage *)

(** [if (value) currentFilters[key] = value]. *)
Definition set_if_truthy (key value : string) (o : JsObject) : JsObject :=
  if truthy value then obj_set key value o else o.

Definition readFilters (f : FilterForm) : JsObject :=
  set_if_truthy "max_distance" (maxDistance f)
    (set_if_truthy "min_distance" (minDistance f)
      (set_if_truthy "speed_category" (speedCategory f)
        (set_if_truthy "time_of_day" (timeOfDay f) []))).

Definition applyFilters (s : State) : State :=
  if isLoading s then s
  else
    let s := on_form (with_applyBtn true "Applying...") s in
    let s := with_currentFilters (readFilters (form (dom s))) s in
    let s := with_currentPage 1 s in
    loadTrips AwaitedByApply s.

Definition resetFilters (s : State) : State :=
  let s := on_form clear_controls s in
  let s := with_currentFilters [] s in
  let s := with_currentPage 1 s in
  loadTrips Detached s.

Definition nextPage (s : State) : State :=
  if negb (isLoading s) then
    loadTrips Detached (with_currentPage (currentPage s + 1) s)
  else s.

Definition previousPage (s : State) : State :=
  if (1 <? currentPage s) && negb (isLoading s) then
    loadTrips Detached (with_currentPage (currentPage s - 1) s)
  else s.

(** *** The event loop *)

(** The [DOMContentLoaded] listener. *)
Definition DOMContentLoaded (s : State) : State :=
  loadTrips Detached (loadCharts (loadStatistics s)).

Inductive FilterControl : Type :=
| CtlTimeOfDay | CtlSpeedCategory | CtlMinDistance | CtlMaxDistance.

Definition edit (c : FilterControl) (v : string) (f : FilterForm)
  : FilterForm :=
  match c with
  | CtlTimeOfDay =>
      mkForm v (speedCategory f) (minDistance f) (maxDistance f)
             (applyBtn_disabled f) (applyBtn_text f)
  | CtlSpeedCategory =>
      mkForm (timeOfDay f) v (minDistance f) (maxDistance f)
             (applyBtn_disabled f) (applyBtn_text f)
  | CtlMinDistance =>
      mkForm (timeOfDay f) (speedCategory f) v (maxDistance f)
             (applyBtn_disabled f) (applyBtn_text f)
  | CtlMaxDistance =>
      mkForm (timeOfDay f) (speedCategory f) (minDistance f) v
             (applyBtn_disabled f) (applyBtn_text f)
  end.

Inductive Response : Type :=
| StatsResponse (r : Fetched StatsSummary)
| PatternResponse (r : Fetched (option (list BarItem)))
| TripsResponse (r : Fetched (list TripRow)).

(** What can happen to the page: the user edits a filter control or triggers
    one of the four actions, or the fetch of a suspended call settles. *)
Inductive Event : Type :=
| Edits (c : FilterControl) (v : string)
| CallsApplyFilters
| CallsResetFilters
| CallsNextPage
| CallsPreviousPage
| Settles (k : Pending) (r : Response).

Definition caller_eqb (a b : Caller) : bool :=
  match a, b with
  | Detached, Detached | AwaitedByApply, AwaitedByApply => true
  | _, _ => false
  end.

Definition pending_eqb (a b : Pending) : bool :=
  match a, b with
  | PStatistics, PStatistics => true
  | PTimeChart, PTimeChart => true
  | PSpeedChart, PSpeedChart => true
  | PTrips c, PTrips c' => caller_eqb c c'
  | _, _ => false
  end.

(** Takes one suspended call [k] out of the list, if there is one.  Calls
    suspended at the same place with the same caller run the same code, so
    which of them is taken does not matter. *)
Fixpoint take (k : Pending) (l : list Pending) : option (list Pending) :=
  match l with
  | [] => None
  | k' :: l' =>
      if pending_eqb k k' then Some l'
      else match take k l' with
           | None => None
           | Some l'' => Some (k' :: l'')
           end
  end.

(** The continuation of a suspended call on the response it waited for;
    [None] when the response is not one for that call. *)
Definition resume (k : Pending) (r : Response) (s : State) : option State :=
  match k, r with
  | PStatistics, StatsResponse r => Some (loadStatistics_resume r s)
  | PTimeChart, PatternResponse r => Some (loadTimeChart_resume r s)
  | PSpeedChart, PatternResponse r => Some (loadSpeedChart_resume r s)
  | PTrips c, TripsResponse r => Some (loadTrips_resume c r s)
  | _, _ => None
  end.

(** One turn of the event loop; [None] when the event cannot happen. *)
Definition step (e : Event) (s : State) : option State :=
  match e with
  | Edits c v => Some (on_form (edit c v) s)
  | CallsApplyFilters => Some (applyFilters s)
  | CallsResetFilters => Some (resetFilters s)
  | CallsNextPage => Some (nextPage s)
  | CallsPreviousPage => Some (previousPage s)
  | Settles k r =>
      match take k (inflight s) with
      | None => None
      | Some rest => resume k r (with_inflight rest s)
      end
  end.

Fixpoint run (es : list Event) (s : State) : option State :=
  match es with
  | [] => Some s
  | e :: es' =>
      match step e s with
      | None => None
      | Some s' => run es' s'
      end
  end.

(** The states the page can be in: those reached from the page load by any
    sequence of events. *)
Inductive reachable : State -> Prop :=
| reach_load (page : Dom) : reachable (DOMContentLoaded (initial page))
| reach_step (s s' : State) (e : Event) :
    reachable s -> step e s = Some s' -> reachable s'.

(** *** Vocabulary of the statements *)

(** No underscore is left in [s]. *)
Fixpoint underscore_free (s : string) : Prop :=
  match s with
  | EmptyString => True
  | String c s' => Ascii.eqb c "_"%char = false /\ underscore_free s'
  end.

(** The row carries a label and a finite number. *)
Definition finite_row (item : BarItem) : bool :=
  match item_label item, item_value item with
  | Some _, Some (Finite _) => true
  | _, _ => false
  end.

(** The finite number that a row carries. *)
Definition value_of (item : BarItem) : Q :=
  match item_value item with
  | Some (Finite v) => v
  | _ => 0
  end.

(** The number is at most the finite bound [m]: it is finite and at most
    [m], or it is [-Infinity]. *)
Definition below (m : Q) (x : JsNumber) : Prop :=
  match x with
  | Finite v => (v <= m)%Q
  | NegInfinity => True
  | PosInfinity | NaN => False
  end.

(** No row carries [Infinity]. *)
Definition no_infinity (data : list BarItem) : Prop :=
  forall item, In item data -> item_value item <> Some PosInfinity.

(** [item] carries the largest value of a series of finite rows. *)
Definition is_maximum (item : BarItem) (data : list BarItem) : Prop :=
  In item data /\
  forall other, In other data -> (value_of other <= value_of item)%Q.

(** The bars a container shows. *)
Definition bars_of (c : ChartContainer) : list Bar :=
  match c with
  | ChartBars bars => bars
  | _ => []
  end.

(** The bars that a call of createBarChart has drawn: none when it
    raised. *)
Definition bars_drawn (o : Outcome ChartContainer) : list Bar :=
  match o with
  | Done c => bars_of c
  | Raises _ => []
  end.

(** The height of [bar] is a finite number, and it satisfies [p]. *)
Definition height_is (p : Q -> Prop) (bar : Bar) : Prop :=
  exists h : Q, bar_height bar = Value (Finite h) /\ p h.

(** Every bar drawn for a row that carries the largest value of [data] is
    100% high. *)
Definition tallest_bars_full (max_arguments : Z) (data : list BarItem)
  : Prop :=
  forall i item bar,
    nth_error data i = Some item ->
    nth_error (bars_drawn (createBarChart max_arguments (Some data))) i
      = Some bar ->
    is_maximum item data ->
    height_is (fun h => h == 100)%Q bar.

(** The requests of loadTrips carry an offset that is not negative. *)
Definition offset_not_negative (r : Request) : Prop :=
  req_url r = API_BASE_URL ++ "/api/trips" ->
  exists n, 0 <= n /\ obj_get "offset" (req_params r) = Some (string_of_Z n).

(** The invariant of the view state. *)
Definition view_state_ok (s : State) : Prop :=
  1 <= currentPage s /\
  (exists f, currentFilters s = readFilters f) /\
  Forall offset_not_negative (requests s).

(** The four filter controls with the query parameter each one feeds. *)
Definition filter_entries (f : FilterForm) : list (string * string) :=
  [("time_of_day", timeOfDay f); ("speed_category", speedCategory f);
   ("min_distance", minDistance f); ("max_distance", maxDistance f)].

(** The entries whose value is not empty. *)
Definition non_empty_entries (l : list (string * string))
  : list (string * string) :=
  filter (fun kv => negb (String.eqb (snd kv) EmptyString)) l.

(** The rule of the pager, for a load that returned [rows] rows: "next" is
    disabled exactly when fewer rows than a page came back, "previous"
    exactly on page 1. *)
Definition pager_rule (rows : nat) (s : State) : Prop :=
  nextBtn_disabled (pager (dom s)) = (Z.of_nat rows <? itemsPerPage) /\
  prevBtn_disabled (pager (dom s)) = (currentPage s =? 1).

(** The number of trip fetches in flight. *)
Fixpoint trips_in_flight (l : list Pending) : nat :=
  match l with
  | [] => 0
  | PTrips _ :: l' => S (trips_in_flight l')
  | _ :: l' => trips_in_flight l'
  end.

(** The loading flag covers the chart loads and the trip load, which never
    overlap. *)
Definition single_flight (s : State) : Prop :=
  (trips_in_flight (inflight s) <= 1)%nat /\
  (isLoading s = false ->
   trips_in_flight (inflight s) = 0%nat /\ chartsOutstanding s = 0%nat) /\
  (trips_in_flight (inflight s) = 1%nat -> chartsOutstanding s = 0%nat).

(** The independent loads of the page. *)
Inductive Widget : Type :=
| WStatistics | WTimeChart | WSpeedChart | WTrips.

Definition widget_of (k : Pending) : Widget :=
  match k with
  | PStatistics => WStatistics
  | PTimeChart => WTimeChart
  | PSpeedChart => WSpeedChart
  | PTrips _ => WTrips
  end.

Definition widget_eqb (a b : Widget) : bool :=
  match a, b with
  | WStatistics, WStatistics | WTimeChart, WTimeChart
  | WSpeedChart, WSpeedChart | WTrips, WTrips => true
  | _, _ => false
  end.

(** What a load renders into. *)
Inductive View : Type :=
| VTiles (t : Tiles) (errors : list string)
| VChart (c : ChartContainer)
| VPager (p : Pager).

Definition view (w : Widget) (s : State) : View :=
  match w with
  | WStatistics => VTiles (tiles (dom s)) (banners (dom s))
  | WTimeChart => VChart (timeChart (dom s))
  | WSpeedChart => VChart (speedChart (dom s))
  | WTrips => VPager (pager (dom s))
  end.


(** Two events that are the same, or that settle the same suspended call of
    a load other than [w], each with an outcome of its own. *)
Definition same_for (w : Widget) (e e' : Event) : Prop :=
  e = e' \/
  exists k r r',
    e = Settles k r /\ e' = Settles k r' /\ widget_eqb (widget_of k) w = false.


(** *** Sample inputs *)

(** A row with its label and a finite value. *)
Definition bar_item (label : string) (value : Q) : BarItem :=
  mkBarItem (Some label) (Some (Finite value)).

Definition sample_series : list BarItem :=
  [bar_item "morning" 12; bar_item "late_night" 3; bar_item "noon" 0].

(** The page as shipped, in an engine that accepts 65535 arguments. *)
Definition blank_page : Dom :=
  mkDom (mkTiles [] [] [] []) ChartBlank ChartBlank
        (mkPager TableBlank [] false false)
        (mkForm EmptyString EmptyString EmptyString EmptyString
                false "Apply Filters")
        [] 65535.

(** The page is loaded and both charts have failed to load. *)
Definition charts_settled : list Event :=
  [Settles PTimeChart (PatternResponse Rejected);
   Settles PSpeedChart (PatternResponse Rejected)].

(** One trip, as the backend reports it. *)
Definition sample_trip : TripRow :=
  mkTrip 7 "2016-03-14 17:24:55" (Some 7.5%Q) (Some 1.2%Q) (Some 9.6%Q) 1
         (Some "evening") None.

(** A trip that the backend reports without its average speed. *)
Definition trip_without_speed : TripRow :=
  mkTrip 8 "2016-03-14 17:31:02" (Some 12%Q) (Some 3.4%Q) None 2
         (Some "evening") (Some "slow").

(** The user filters on mornings, gets a full first page, and asks for the
    next page, whose load is then in flight. *)
Definition second_page_loading : list Event :=
  charts_settled ++
  [Edits CtlTimeOfDay "morning";
   CallsApplyFilters;
   Settles (PTrips AwaitedByApply)
           (TripsResponse (Resolved (repeat sample_trip 50)));
   CallsNextPage].

(** The user applies the (empty) filters and the fetch fails. *)
Definition first_page_failed : list Event :=
  charts_settled ++
  [CallsApplyFilters;
   Settles (PTrips AwaitedByApply) (TripsResponse Rejected)].

(** The page once both charts have settled: no load is in flight. *)
Definition idle_state : State :=
  Eval vm_compute in
  match run charts_settled (DOMContentLoaded (initial blank_page)) with
  | Some s => s
  | None => initial blank_page
  end.

Definition morning_series : list BarItem :=
  [bar_item "morning" 30; bar_item "evening" 60].

(** A series with a negative value and a value below every double. *)
Definition rough_series : list BarItem :=
  [bar_item "morning" 12; mkBarItem (Some "glitch") (Some NegInfinity);
   bar_item "refund" (-3)].

(** At the page load the fetch of the statistics fails and the time chart
    receives a series. *)
Definition stats_down_chart_up : list Event :=
  [Settles PStatistics (StatsResponse Rejected);
   Settles PTimeChart (PatternResponse (Resolved (Some morning_series)))].


Definition after_stats_down : State :=
  Eval vm_compute in
  match run stats_down_chart_up (DOMContentLoaded (initial blank_page)) with
  | Some s => s
  | None => initial blank_page
  end.

(** *** Vocabulary of the further properties *)

(** The number of chart fetches in flight. *)
Fixpoint charts_in_flight (l : list Pending) : nat :=
  match l with
  | [] => 0
  | PTimeChart :: l' | PSpeedChart :: l' => S (charts_in_flight l')
  | _ :: l' => charts_in_flight l'
  end.

(** The loading flag tells exactly whether a chart or trip fetch is in
    flight, and loadCharts waits for exactly the chart fetches in flight. *)
Definition flag_exact (s : State) : Prop :=
  chartsOutstanding s = charts_in_flight (inflight s) /\
  isLoading s =
    (0 <? trips_in_flight (inflight s) + charts_in_flight (inflight s))%nat.

(** The event is the settlement of a fetch, not an action of the user. *)
Definition is_settlement (e : Event) : bool :=
  match e with
  | Settles _ _ => true
  | _ => false
  end.

(** The pager while a trip load is under way. *)
Definition pager_locked (s : State) : Prop :=
  tableContainer (pager (dom s)) = TableLoading /\
  prevBtn_disabled (pager (dom s)) = true /\
  nextBtn_disabled (pager (dom s)) = true.

(** The three requests of the page load. *)
Definition page_load_requests : list Request :=
  [mkRequest "http://localhost:8000/api/stats" [];
   mkRequest "http://localhost:8000/api/patterns/time" [];
   mkRequest "http://localhost:8000/api/patterns/speed" []].

(** A request the script is meant to send: one of the three of the page
    load, or a trip query for a page, with the filters that hold a value. *)
Definition well_formed_request (r : Request) : Prop :=
  In r page_load_requests \/
  exists (n : Z) (f : FilterForm),
    0 <= n /\
    r = mkRequest "http://localhost:8000/api/trips"
          ([("limit", "50"); ("offset", string_of_Z (n * 50))]
           ++ non_empty_entries (filter_entries f)).


(** The load of the second page of the morning trips is in flight. *)
Definition page_two_loading : State :=
  Eval vm_compute in
  match run second_page_loading (DOMContentLoaded (initial blank_page)) with
  | Some s => s
  | None => initial blank_page
  end.

(** The second page of the morning trips has arrived, and the user has
    typed a largest distance without applying it. *)
Definition second_page_shown : list Event :=
  second_page_loading ++
  [Settles (PTrips Detached) (TripsResponse (Resolved [sample_trip]));
   Edits CtlMaxDistance "7.5"].

Definition page_two_shown : State :=
  Eval vm_compute in
  match run second_page_shown (DOMContentLoaded (initial blank_page)) with
  | Some s => s
  | None => initial blank_page
  end.


(** What formatLabel may do to one character: turn an underscore into a
    space, turn a letter into its capital, or leave it as it is. *)
Definition touched (c c' : ascii) : Prop :=
  c' = c \/ (c = "_"%char /\ c' = " "%char) \/ c' = toUpperCase c.

(** No lower-case letter opens a word of [s]; [prev_word] tells whether a
    word character stands before [s]. *)
Fixpoint words_capitalized (prev_word : bool) (s : string) : Prop :=
  match s with
  | EmptyString => True
  | String c s' =>
      (prev_word = false -> in_range 97 122 c = false) /\
      words_capitalized (is_word c) s'
  end.

(** The trip carries the three numbers that the table formats. *)
Definition trip_complete (trip : TripRow) : bool :=
  match trip_duration_minutes trip, trip_distance_miles trip,
        trip_avg_speed_mph trip with
  | Some _, Some _, Some _ => true
  | _, _, _ => false
  end.

(** The four tiles written from a payload that has all four fields. *)
Definition tiles_of (data : StatsSummary) : option Tiles :=
  match total_trips data, avg_duration_minutes data,
        avg_distance_miles data, avg_speed_mph data with
  | Some n, Some m, Some d, Some v =>
      Some (mkTiles [Locale n]
                    [Fixed 2 m; Span "stat-unit" "min"]
                    [Fixed 2 d; Span "stat-unit" "mi"]
                    [Fixed 2 v; Span "stat-unit" "mph"])
  | _, _, _, _ => None
  end.

(** The load of [k] shows in [s'] the payload of the response [r], if [r]
    brings one that the load can render: the four tiles hold the numbers of
    the payload, a chart container holds what createBarChart draws for the
    series, the table holds the markup of the trips and the page label the
    current page. *)
Definition renders (k : Pending) (r : Response) (s' : State) : Prop :=
  match k, r with
  | PStatistics, StatsResponse (Resolved data) =>
      forall t, tiles_of data = Some t -> tiles (dom s') = t
  | PTimeChart, PatternResponse (Resolved series) =>
      forall c,
        createBarChart (max_arguments (dom s')) series = Done c ->
        timeChart (dom s') = c
  | PSpeedChart, PatternResponse (Resolved series) =>
      forall c,
        createBarChart (max_arguments (dom s')) series = Done c ->
        speedChart (dom s') = c
  | PTrips _, TripsResponse (Resolved trips) =>
      forall rows,
        trips <> [] ->
        Forall2 (fun trip row => renderRow trip = Some row) trips rows ->
        tableContainer (pager (dom s')) = TableMarkup rows /\
        pageLabel (pager (dom s')) = [Int (currentPage s')]
  | _, _ => True
  end.

(** The number of requests sent to [url]. *)
Definition times_requested (url : string) (s : State) : nat :=
  List.length (filter (fun r => String.eqb (req_url r) url) (requests s)).

(** The number of suspended calls [k] in flight. *)
Definition count_pending (k : Pending) (l : list Pending) : nat :=
  List.length (filter (pending_eqb k) l).

(** The container shows the outcome of a settled load: the failure message,
    the "no data" placeholder or bars. *)
Definition chart_settled (c : ChartContainer) : Prop :=
  match c with
  | ChartFailed | ChartNoData | ChartBars _ => True
  | ChartBlank | ChartLoading => False
  end.

(** A chart container follows its fetch [k]: "Loading" while the fetch is in
    flight, an outcome once it has settled. *)
Definition chart_follows (k : Pending) (c : ChartContainer) (s : State)
  : Prop :=
  (count_pending k (inflight s) <= 1)%nat /\
  (count_pending k (inflight s) = 1%nat -> c = ChartLoading) /\
  (count_pending k (inflight s) = 0%nat -> chart_settled c).

End Explorer.

(** ** frontend/script.js: the Chart.js dashboard *)

Module Dashboard.

Definition API_URL : string := "http://localhost:5000/api".

(** *** Payloads of the backend *)

(** The response envelope [{ success, <payload key>: ... }].  [payload] is
    [None] when the payload key is absent, in which case reading through it
    raises a [TypeError]. *)
Record Envelope (A : Type) : Type := mkEnvelope {
  success : bool;
  payload : option A
}.
Arguments mkEnvelope {A} success payload.
Arguments success {A} e.
Arguments payload {A} e.

(** The rows of the payloads.  A number on which the script calls
    [toFixed] or [toLocaleString], or with which it computes, is [None] when
    the row lacks it; the other properties are only interpolated or handed
    to the chart. *)
Record Stats : Type := mkStats {
  total_trips : option Q;
  avg_duration_minutes : option Q;
  avg_speed_kmh : option Q;
  most_common_passenger_count : Z
}.

Record HourCount : Type := mkHourCount {
  hour_of : Z;                     (* pickup_hour *)
  hour_trips : option Q            (* trip_count *)
}.

Record DayCount : Type := mkDayCount {
  day_name : string;
  day_trips : option Q             (* trip_count *)
}.

Record HourSpeed : Type := mkHourSpeed {
  speed_hour : Z;                  (* pickup_hour *)
  avg_speed : option Q
}.

Record DurationCount : Type := mkDurationCount {
  duration_range : string;
  duration_trips : Q               (* trip_count *)
}.

Record Trip : Type := mkTrip {
  trip_id : Z;
  pickup_datetime : string;
  trip_duration : option Q;
  trip_speed_kmh : option Q;
  passenger_count : Z;
  distance_category : string
}.

(** *** The page and the script's variables *)

(** One data point handed to Chart.js: a number, [undefined], or text. *)
Inductive Datum : Type :=
| Number (q : Q)
| Undefined
| Formatted (t : Text).

Definition datum (v : option Q) : Datum :=
  match v with
  | Some q => Number q
  | None => Undefined
  end.

(** The part of a Chart.js configuration that depends on the data. *)
Record Chart : Type := mkChart {
  chart_type : string;
  chart_labels : list Text;
  chart_data : list Datum
}.

(** One of the variables [hourlyChart], [dailyChart], [speedChart],
    [durationChart], with the number of charts destroyed on its canvas. *)
Record ChartSlot : Type := mkSlot {
  live : option Chart;
  destroyed : nat
}.

Record Charts : Type := mkCharts {
  hourlyChart : ChartSlot;
  dailyChart : ChartSlot;
  speedChart : ChartSlot;
  durationChart : ChartSlot
}.

Record StatTiles : Type := mkTiles {
  total_trips_el : Text;           (* #total-trips *)
  avg_duration_el : Text;          (* #avg-duration *)
  avg_speed_el : Text;             (* #avg-speed *)
  common_passengers_el : Text      (* #common-passengers *)
}.

(** The values interpolated into the [innerHTML] of one [<tr>] appended to
    the table body. *)
Record Row : Type := mkRow {
  row_id : Text;
  row_pickup : Text;
  row_duration : Text;
  row_speed : Text;
  row_passengers : Text;
  row_category : string
}.

Record TripTable : Type := mkTable {
  trips_tbody : list Row;          (* #trips-tbody *)
  trips_count : Text               (* #trips-count *)
}.

Record Insights : Type := mkInsights {
  insight_peak_hours : Text;       (* #insight-peak-hours *)
  insight_speed : Text;            (* #insight-speed *)
  insight_weekly : Text            (* #insight-weekly *)
}.

Record FilterControls : Type := mkControls {
  hour_filter : string;            (* value of #hour-filter *)
  day_filter : string;
  category_filter : string
}.

Record Dom : Type := mkDom {
  stat_tiles : StatTiles;
  trip_table : TripTable;
  insights : Insights;
  controls : FilterControls;
  overlay_hidden : bool            (* #loading-overlay has class hidden *)
}.

(** Who consumes the promise of a loadTrips call. *)
Inductive Caller : Type :=
| FromInit                         (* a member of initDashboard's Promise.all *)
| FromHandler.                     (* a click handler chained hideLoading *)

(** A suspended [async] function, waiting inside fetchData. *)
Inductive Pending : Type :=
| PStats
| PHourly
| PDaily
| PSpeed
| PDuration
| PTrips (caller : Caller)
| PInsightHours                    (* generateInsights, first fetch *)
| PInsightSpeeds                   (* generateInsights, second fetch *)
| PInsightWeek.                    (* generateInsights, third fetch *)

Record State : Type := mkState {
  dom : Dom;
  charts : Charts;
  console : list string;           (* console.log and console.error *)
  alerts : list string;            (* alert(...) shown to the user *)
  requests : list string;          (* URL of every fetch, oldest first *)
  inflight : list Pending;
  initOutstanding : nat;           (* members Promise.all still waits for *)
  initSettled : bool               (* initDashboard's await is over *)
}.

Definition with_dom (d : Dom) (s : State) : State :=
  mkState d (charts s) (console s) (alerts s) (requests s) (inflight s)
          (initOutstanding s) (initSettled s).
Definition with_charts (c : Charts) (s : State) : State :=
  mkState (dom s) c (console s) (alerts s) (requests s) (inflight s)
          (initOutstanding s) (initSettled s).
Definition with_inflight (l : list Pending) (s : State) : State :=
  mkState (dom s) (charts s) (console s) (alerts s) (requests s) l
          (initOutstanding s) (initSettled s).
Definition with_init (n : nat) (settled : bool) (s : State) : State :=
  mkState (dom s) (charts s) (console s) (alerts s) (requests s) (inflight s)
          n settled.
Definition console_log (msg : string) (s : State) : State :=
  mkState (dom s) (charts s) (console s ++ [msg]) (alerts s) (requests s)
          (inflight s) (initOutstanding s) (initSettled s).
Definition alert (msg : string) (s : State) : State :=
  mkState (dom s) (charts s) (console s) (alerts s ++ [msg]) (requests s)
          (inflight s) (initOutstanding s) (initSettled s).

Definition with_stat_tiles (t : StatTiles) (d : Dom) : Dom :=
  mkDom t (trip_table d) (insights d) (controls d) (overlay_hidden d).
Definition with_trip_table (t : TripTable) (d : Dom) : Dom :=
  mkDom (stat_tiles d) t (insights d) (controls d) (overlay_hidden d).
Definition with_insights (i : Insights) (d : Dom) : Dom :=
  mkDom (stat_tiles d) (trip_table d) i (controls d) (overlay_hidden d).
Definition with_controls (c : FilterControls) (d : Dom) : Dom :=
  mkDom (stat_tiles d) (trip_table d) (insights d) c (overlay_hidden d).
Definition with_overlay_hidden (b : bool) (d : Dom) : Dom :=
  mkDom (stat_tiles d) (trip_table d) (insights d) (controls d) b.

Definition showLoading (s : State) : State :=
  with_dom (with_overlay_hidden false (dom s)) s.
Definition hideLoading (s : State) : State :=
  with_dom (with_overlay_hidden true (dom s)) s.

(** The script as evaluated, before any event, on a page [page]. *)
Definition initial (page : Dom) : State :=
  {| dom := page;
     charts := mkCharts (mkSlot None 0) (mkSlot None 0)
                        (mkSlot None 0) (mkSlot None 0);
     console := [];
     alerts := [];
     requests := [];
     inflight := [];
     initOutstanding := 0;
     initSettled := false |}.

(** *** fetchData *)

(** fetchData up to [await fetch(...)], on behalf of the suspended call
    [k]. *)
Definition fetchData (endpoint : string) (k : Pending) (s : State) : State :=
  mkState (dom s) (charts s) (console s) (alerts s)
          (requests s ++ [API_URL ++ endpoint]) (inflight s ++ [k])
          (initOutstanding s) (initSettled s).

(** fetchData after its [await]s: the value it returns ([None] is [null])
    and the state it leaves. *)
Definition fetchData_resume {A} (r : Fetched A) (s : State)
  : option A * State :=
  match r with
  | Resolved data => (Some data, s)
  | Rejected =>
      (None,
       alert "Error connecting to backend. Make sure the server is running!"
             (console_log "Error fetching data:" s))
  end.

(** How an [async] function leaves a turn of the event loop. *)
Inductive Completion : Type :=
| Returns                          (* its promise is fulfilled *)
| Throws                           (* its promise is rejected *)
| Awaits.                          (* it is suspended again *)

(** The test [data && data.success]: [None] when it fails, otherwise what
    the payload key of the envelope holds. *)
Definition accept {A} (data : option (Envelope A)) : option (option A) :=
  match data with
  | Some d => if success d then Some (payload d) else None
  | None => None
  end.

(** The label of an hour of the day, as the three chart and insight
    routines compute it. *)
Definition hourLabel (hour : Z) : Text :=
  if hour =? 0 then [Lit "12 AM"]
  else if hour <? 12 then [Int hour; Lit " AM"]
  else if hour =? 12 then [Lit "12 PM"]
  else [Int (hour - 12); Lit " PM"].

(** [if (chart) chart.destroy(); chart = new Chart(ctx, ...)]. *)
Definition redraw (c : Chart) (slot : ChartSlot) : ChartSlot :=
  {| live := Some c;
     destroyed := match live slot with
                  | Some _ => S (destroyed slot)
                  | None => destroyed slot
                  end |}.

Definition on_hourlyChart (f : ChartSlot -> ChartSlot) (s : State) : State :=
  with_charts (mkCharts (f (hourlyChart (charts s))) (dailyChart (charts s))
                        (speedChart (charts s)) (durationChart (charts s))) s.
Definition on_dailyChart (f : ChartSlot -> ChartSlot) (s : State) : State :=
  with_charts (mkCharts (hourlyChart (charts s)) (f (dailyChart (charts s)))
                        (speedChart (charts s)) (durationChart (charts s))) s.
Definition on_speedChart (f : ChartSlot -> ChartSlot) (s : State) : State :=
  with_charts (mkCharts (hourlyChart (charts s)) (dailyChart (charts s))
                        (f (speedChart (charts s))) (durationChart (charts s))) s.
Definition on_durationChart (f : ChartSlot -> ChartSlot) (s : State)
  : State :=
  with_charts (mkCharts (hourlyChart (charts s)) (dailyChart (charts s))
                        (speedChart (charts s)) (f (durationChart (charts s)))) s.

(** *** loadStats *)

Definition loadStats (s : State) : State := fetchData "/stats" PStats s.

Definition on_stat_tiles (f : StatTiles -> StatTiles) (s : State) : State :=
  with_dom (with_stat_tiles (f (stat_tiles (dom s))) (dom s)) s.

Definition with_total_trips_el (t : Text) (x : StatTiles) : StatTiles :=
  mkTiles t (avg_duration_el x) (avg_speed_el x) (common_passengers_el x).
Definition with_avg_duration_el (t : Text) (x : StatTiles) : StatTiles :=
  mkTiles (total_trips_el x) t (avg_speed_el x) (common_passengers_el x).
Definition with_avg_speed_el (t : Text) (x : StatTiles) : StatTiles :=
  mkTiles (total_trips_el x) (avg_duration_el x) t (common_passengers_el x).
Definition with_common_passengers_el (t : Text) (x : StatTiles)
  : StatTiles :=
  mkTiles (total_trips_el x) (avg_duration_el x) (avg_speed_el x) t.

(** loadStats after its [await]: the four tiles are written in turn, and
    the first missing number raises, the tiles before it being written. *)
Definition loadStats_resume (r : Fetched (Envelope Stats)) (s : State)
  : State * Completion :=
  let (data, s) := fetchData_resume r s in
  match accept data with
  | None => (s, Returns)
  | Some None => (s, Throws)
  | Some (Some stats) =>
  match total_trips stats with
  | None => (s, Throws)
  | Some n =>
  let s := on_stat_tiles (with_total_trips_el [Locale n]) s in
  match avg_duration_minutes stats with
  | None => (s, Throws)
  | Some m =>
  let s := on_stat_tiles (with_avg_duration_el [Fixed 1 m; Lit " min"]) s in
  match avg_speed_kmh stats with
  | None => (s, Throws)
  | Some v =>
  let s := on_stat_tiles (with_avg_speed_el [Fixed 1 v; Lit " km/h"]) s in
  (on_stat_tiles
     (with_common_passengers_el [Int (most_common_passenger_count stats)]) s,
   Returns)
  end end end end.

(** *** The four chart loaders *)

Definition loadHourlyChart (s : State) : State :=
  fetchData "/analytics/busiest-hours" PHourly s.

Definition loadHourlyChart_resume (r : Fetched (Envelope (list HourCount)))
  (s : State) : State * Completion :=
  let (data, s) := fetchData_resume r s in
  match accept data with
  | None => (s, Returns)
  | Some None => (s, Throws)
  | Some (Some hours) =>
      let labels := map (fun h => hourLabel (hour_of h)) hours in
      let counts := map (fun h => datum (hour_trips h)) hours in
      (on_hourlyChart (redraw (mkChart "bar" labels counts)) s, Returns)
  end.

Definition loadDailyChart (s : State) : State :=
  fetchData "/analytics/day-of-week" PDaily s.

Definition loadDailyChart_resume (r : Fetched (Envelope (list DayCount)))
  (s : State) : State * Completion :=
  let (data, s) := fetchData_resume r s in
  match accept data with
  | None => (s, Returns)
  | Some None => (s, Throws)
  | Some (Some stats) =>
      let labels := map (fun d => [Lit (day_name d)]) stats in
      let counts := map (fun d => datum (day_trips d)) stats in
      (on_dailyChart (redraw (mkChart "line" labels counts)) s, Returns)
  end.

Definition loadSpeedChart (s : State) : State :=
  fetchData "/analytics/speed-by-hour" PSpeed s.

(** [speeds.map((s) => s.avg_speed.toFixed(2))]; [None] when [toFixed] is
    called on a missing speed. *)
Fixpoint formatSpeeds (speeds : list HourSpeed) : option (list Datum) :=
  match speeds with
  | [] => Some []
  | h :: rest =>
      match avg_speed h with
      | None => None
      | Some v =>
          match formatSpeeds rest with
          | None => None
          | Some l => Some (Formatted [Fixed 2 v] :: l)
          end
      end
  end.

Definition loadSpeedChart_resume (r : Fetched (Envelope (list HourSpeed)))
  (s : State) : State * Completion :=
  let (data, s) := fetchData_resume r s in
  match accept data with
  | None => (s, Returns)
  | Some None => (s, Throws)
  | Some (Some speeds) =>
      let labels := map (fun h => hourLabel (speed_hour h)) speeds in
      match formatSpeeds speeds with
      | None => (s, Throws)
      | Some avgSpeeds =>
          (on_speedChart (redraw (mkChart "line" labels avgSpeeds)) s,
           Returns)
      end
  end.

Definition loadDurationChart (s : State) : State :=
  fetchData "/analytics/duration-distribution" PDuration s.

Definition loadDurationChart_resume
  (r : Fetched (Envelope (list DurationCount))) (s : State)
  : State * Completion :=
  let (data, s) := fetchData_resume r s in
  match accept data with
  | None => (s, Returns)
  | Some None => (s, Throws)
  | Some (Some distribution) =>
      let labels := map (fun d => [Lit (duration_range d)]) distribution in
      let counts := map (fun d => Number (duration_trips d)) distribution in
      (on_durationChart (redraw (mkChart "pie" labels counts)) s, Returns)
  end.

(** *** loadTrips *)

(** The [filters] argument; a property is [None] when it is undefined. *)
Record TripFilters : Type := mkFilters {
  filter_hour : option string;
  filter_day : option string;
  filter_category : option string
}.

Definition noFilters : TripFilters := mkFilters None None None.

(** [if (filters.f) queryString += `&name=${filters.f}`]. *)
Definition add_filter (name : string) (value : option string)
  (queryString : string) : string :=
  match value with
  | Some v => if truthy v then queryString ++ "&" ++ name ++ "=" ++ v
              else queryString
  | None => queryString
  end.

Definition queryString (filters : TripFilters) : string :=
  add_filter "category" (filter_category filters)
    (add_filter "day" (filter_day filters)
      (add_filter "hour" (filter_hour filters) "?limit=500")).

Definition loadTrips (c : Caller) (filters : TripFilters) (s : State)
  : State :=
  fetchData ("/trips" ++ queryString filters) (PTrips c) s.

(** The row built for one trip; [None] when [toFixed] is called on a
    missing speed.  A missing duration does not raise: [undefined / 60] is
    [NaN], and [NaN.toFixed(1)] is the text [NaN]. *)
Definition renderRow (trip : Trip) : option Row :=
  match trip_speed_kmh trip with
  | None => None
  | Some speed =>
      Some {| row_id := [Int (trip_id trip)];
              row_pickup := [DateTime false (pickup_datetime trip)];
              row_duration :=
                match trip_duration trip with
                | Some d => [Fixed 1 (d / 60)%Q]
                | None => [Lit "NaN"]
                end;
              row_speed := [Fixed 1 speed];
              row_passengers := [Int (passenger_count trip)];
              row_category := distance_category trip |}
  end.

Definition on_trip_table (f : TripTable -> TripTable) (s : State) : State :=
  with_dom (with_trip_table (f (trip_table (dom s))) (dom s)) s.

(** [tbody.appendChild(row)]. *)
Definition appendChild (row : Row) (t : TripTable) : TripTable :=
  mkTable (trips_tbody t ++ [row]) (trips_count t).

(** [trips.forEach((trip) => ...)]: the rows are appended one by one, up to
    the first trip whose row cannot be built. *)
Fixpoint appendRows (trips : list Trip) (s : State) : State * Completion :=
  match trips with
  | [] => (s, Returns)
  | trip :: rest =>
      match renderRow trip with
      | None => (s, Throws)
      | Some row => appendRows rest (on_trip_table (appendChild row) s)
      end
  end.

Definition loadTrips_resume (r : Fetched (Envelope (list Trip))) (s : State)
  : State * Completion :=
  let (data, s) := fetchData_resume r s in
  match accept data with
  | None => (s, Returns)
  | Some None =>
      (* the body is emptied, then [trips.length] raises *)
      (on_trip_table (fun t => mkTable [] (trips_count t)) s, Throws)
  | Some (Some trips) =>
      appendRows trips
        (on_trip_table
           (fun _ => mkTable [] [Int (Z.of_nat (List.length trips))]) s)
  end.

(** *** generateInsights *)

Definition on_insights (f : Insights -> Insights) (s : State) : State :=
  with_dom (with_insights (f (insights (dom s))) (dom s)) s.

Definition with_peak_hours (t : Text) (i : Insights) : Insights :=
  mkInsights t (insight_speed i) (insight_weekly i).
Definition with_speed (t : Text) (i : Insights) : Insights :=
  mkInsights (insight_peak_hours i) t (insight_weekly i).
Definition with_weekly (t : Text) (i : Insights) : Insights :=
  mkInsights (insight_peak_hours i) (insight_speed i) t.

Definition generateInsights (s : State) : State :=
  fetchData "/analytics/busiest-hours" PInsightHours s.

(** [a > b] and [a < b] on two properties that may be missing: a
    comparison with [undefined] is false. *)
Definition js_gt (a b : option Q) : bool :=
  match a, b with
  | Some x, Some y => match (x ?= y)%Q with Gt => true | _ => false end
  | _, _ => false
  end.
Definition js_lt (a b : option Q) : bool :=
  match a, b with
  | Some x, Some y => match (x ?= y)%Q with Lt => true | _ => false end
  | _, _ => false
  end.

(** The loop [for (i = 1; ...) if (xs[i].f > best.f) best = xs[i]] and its
    twin with [<], started on [xs[0]]. *)
Definition largest {A} (f : A -> option Q) (first : A) (rest : list A) : A :=
  fold_left (fun best x => if js_gt (f x) (f best) then x else best)
            rest first.
Definition smallest {A} (f : A -> option Q) (first : A) (rest : list A)
  : A :=
  fold_left (fun best x => if js_lt (f x) (f best) then x else best)
            rest first.

(** From the first [await] to the second. *)
Definition generateInsights_hours (r : Fetched (Envelope (list HourCount)))
  (s : State) : State * Completion :=
  let (hourlyData, s) := fetchData_resume r s in
  let next := fetchData "/analytics/speed-by-hour" PInsightSpeeds in
  match accept hourlyData with
  | None => (next s, Awaits)
  | Some None | Some (Some []) => (s, Throws)
  | Some (Some (topHour :: _)) =>
      match hour_trips topHour with
      | None => (s, Throws)
      | Some trip_count =>
          (next
             (on_insights
                (with_peak_hours
                   ([Lit "The busiest hour is "]
                    ++ hourLabel (hour_of topHour)
                    ++ [Lit " with "; Locale trip_count;
                        Lit " trips. This represents peak demand time in NYC, likely due to commuting patterns or nightlife activity."])%list)
                s),
           Awaits)
      end
  end.

(** From the second [await] to the third. *)
Definition generateInsights_speeds (r : Fetched (Envelope (list HourSpeed)))
  (s : State) : State * Completion :=
  let (speedData, s) := fetchData_resume r s in
  let next := fetchData "/analytics/day-of-week" PInsightWeek in
  match accept speedData with
  | None => (next s, Awaits)
  | Some None | Some (Some []) => (s, Throws)
  | Some (Some (first :: rest)) =>
      let fastest := largest avg_speed first rest in
      let slowest := smallest avg_speed first rest in
      match avg_speed fastest, avg_speed slowest with
      | Some high, Some low =>
          (next
             (on_insights
                (with_speed
                   ([Lit "Fastest trips occur at "]
                    ++ hourLabel (speed_hour fastest)
                    ++ [Lit " ("; Fixed 1 high;
                        Lit " km/h) with less traffic. Slowest at "]
                    ++ hourLabel (speed_hour slowest)
                    ++ [Lit " ("; Fixed 1 low;
                        Lit " km/h), indicating heavy congestion during rush hours."])%list)
                s),
           Awaits)
      | _, _ => (s, Throws)
      end
  end.

(** From the third [await] to the end. *)
Definition generateInsights_week (r : Fetched (Envelope (list DayCount)))
  (s : State) : State * Completion :=
  let (weekData, s) := fetchData_resume r s in
  match accept weekData with
  | None => (s, Returns)
  | Some None | Some (Some []) => (s, Throws)
  | Some (Some (first :: rest)) =>
      let busiest := largest day_trips first rest in
      let quietest := smallest day_trips first rest in
      match day_trips busiest, day_trips quietest with
      | Some most, Some least =>
          (on_insights
             (with_weekly
                [Lit (day_name busiest); Lit " is the busiest day with ";
                 Locale most; Lit " trips, while ";
                 Lit (day_name quietest); Lit " is quietest with ";
                 Locale least;
                 Lit " trips. This shows clear weekday vs weekend patterns in urban mobility."])
             s,
           Returns)
      | _, _ => (s, Throws)
      end
  end.

(** *** initDashboard and the click handlers *)

(** initDashboard up to [await Promise.all([...])]. *)
Definition initDashboard (s : State) : State :=
  let s := showLoading s in
  let s := loadStats s in
  let s := loadHourlyChart s in
  let s := loadDailyChart s in
  let s := loadSpeedChart s in
  let s := loadDurationChart s in
  let s := loadTrips FromInit noFilters s in
  let s := generateInsights s in
  with_init 7 false s.

(** A member of the [Promise.all] is fulfilled; when the last one is,
    initDashboard resumes after its [await]. *)
Definition memberFulfilled (s : State) : State :=
  if initSettled s then s
  else
    match initOutstanding s with
    | O => s
    | S O =>
        hideLoading
          (console_log "Dashboard loaded successfully!" (with_init 0 true s))
    | S n => with_init n false s
    end.

(** A member of the [Promise.all] is rejected: initDashboard resumes in its
    [catch] block, unless its [await] is already over. *)
Definition memberRejected (s : State) : State :=
  if initSettled s then s
  else
    hideLoading
      (alert "Error loading dashboard data. Please check the console for details."
         (console_log "Error loading dashboard:"
            (with_init (initOutstanding s) true s))).

(** What the end of a turn of a suspended call [k] triggers. *)
Definition conclude (k : Pending) (c : Completion) (s : State) : State :=
  match c, k with
  | Awaits, _ => s
  | Returns, PTrips FromHandler => hideLoading s
  | Throws, PTrips FromHandler => s
  | Returns, _ => memberFulfilled s
  | Throws, _ => memberRejected s
  end.

(** The click listener of [#apply-filters]. *)
Definition clickApplyFilters (s : State) : State :=
  let filters :=
    {| filter_hour := Some (hour_filter (controls (dom s)));
       filter_day := Some (day_filter (controls (dom s)));
       filter_category := Some (category_filter (controls (dom s))) |} in
  loadTrips FromHandler filters (showLoading s).

(** The click listener of [#reset-filters]. *)
Definition clickResetFilters (s : State) : State :=
  let s :=
    with_dom
      (with_controls (mkControls EmptyString EmptyString EmptyString) (dom s))
      s in
  loadTrips FromHandler noFilters (showLoading s).

(** The [DOMContentLoaded] listener. *)
Definition DOMContentLoaded (s : State) : State :=
  initDashboard (console_log "Initializing NYC Taxi Trip Explorer..." s).

(** *** The event loop *)

Inductive FilterControl : Type :=
| CtlHour | CtlDay | CtlCategory.

Definition edit (c : FilterControl) (v : string) (f : FilterControls)
  : FilterControls :=
  match c with
  | CtlHour => mkControls v (day_filter f) (category_filter f)
  | CtlDay => mkControls (hour_filter f) v (category_filter f)
  | CtlCategory => mkControls (hour_filter f) (day_filter f) v
  end.

Inductive Response : Type :=
| StatsResponse (r : Fetched (Envelope Stats))
| HoursResponse (r : Fetched (Envelope (list HourCount)))
| DaysResponse (r : Fetched (Envelope (list DayCount)))
| SpeedsResponse (r : Fetched (Envelope (list HourSpeed)))
| DurationsResponse (r : Fetched (Envelope (list DurationCount)))
| TripsResponse (r : Fetched (Envelope (list Trip))).

Inductive Event : Type :=
| Edits (c : FilterControl) (v : string)
| ClicksApplyFilters
| ClicksResetFilters
| Settles (k : Pending) (r : Response).

Definition pending_eqb (a b : Pending) : bool :=
  match a, b with
  | PStats, PStats | PHourly, PHourly | PDaily, PDaily | PSpeed, PSpeed
  | PDuration, PDuration | PInsightHours, PInsightHours
  | PInsightSpeeds, PInsightSpeeds | PInsightWeek, PInsightWeek => true
  | PTrips FromInit, PTrips FromInit => true
  | PTrips FromHandler, PTrips FromHandler => true
  | _, _ => false
  end.

(** Takes one suspended call [k] out of the list, if there is one.  Calls
    suspended at the same place with the same caller run the same code, so
    which of them is taken does not matter. *)
Fixpoint take (k : Pending) (l : list Pending) : option (list Pending) :=
  match l with
  | [] => None
  | k' :: l' =>
      if pending_eqb k k' then Some l'
      else match take k l' with
           | None => None
           | Some l'' => Some (k' :: l'')
           end
  end.

(** The continuation of a suspended call on the response it waited for;
    [None] when the response is not one for that call. *)
Definition resume (k : Pending) (r : Response) (s : State)
  : option (State * Completion) :=
  match k, r with
  | PStats, StatsResponse r => Some (loadStats_resume r s)
  | PHourly, HoursResponse r => Some (loadHourlyChart_resume r s)
  | PDaily, DaysResponse r => Some (loadDailyChart_resume r s)
  | PSpeed, SpeedsResponse r => Some (loadSpeedChart_resume r s)
  | PDuration, DurationsResponse r => Some (loadDurationChart_resume r s)
  | PTrips _, TripsResponse r => Some (loadTrips_resume r s)
  | PInsightHours, HoursResponse r => Some (generateInsights_hours r s)
  | PInsightSpeeds, SpeedsResponse r => Some (generateInsights_speeds r s)
  | PInsightWeek, DaysResponse r => Some (generateInsights_week r s)
  | _, _ => None
  end.

(** One turn of the event loop; [None] when the event cannot happen. *)
Definition step (e : Event) (s : State) : option State :=
  match e with
  | Edits c v =>
      Some (with_dom (with_controls (edit c v (controls (dom s))) (dom s)) s)
  | ClicksApplyFilters => Some (clickApplyFilters s)
  | ClicksResetFilters => Some (clickResetFilters s)
  | Settles k r =>
      match take k (inflight s) with
      | None => None
      | Some rest =>
          match resume k r (with_inflight rest s) with
          | None => None
          | Some (s', c) => Some (conclude k c s')
          end
      end
  end.

Fixpoint run (es : list Event) (s : State) : option State :=
  match es with
  | [] => Some s
  | e :: es' =>
      match step e s with
      | None => None
      | Some s' => run es' s'
      end
  end.

(** *** Vocabulary of the statements *)

(** The independent loads of the dashboard. *)
Inductive Widget : Type :=
| WStats | WHourly | WDaily | WSpeed | WDuration | WTrips | WInsights.

Definition widget_of (k : Pending) : Widget :=
  match k with
  | PStats => WStats
  | PHourly => WHourly
  | PDaily => WDaily
  | PSpeed => WSpeed
  | PDuration => WDuration
  | PTrips _ => WTrips
  | PInsightHours | PInsightSpeeds | PInsightWeek => WInsights
  end.

Definition widget_eqb (a b : Widget) : bool :=
  match a, b with
  | WStats, WStats | WHourly, WHourly | WDaily, WDaily | WSpeed, WSpeed
  | WDuration, WDuration | WTrips, WTrips | WInsights, WInsights => true
  | _, _ => false
  end.

(** What a load renders into: its target elements, or its chart. *)
Inductive View : Type :=
| VTiles (t : StatTiles)
| VChart (c : ChartSlot)
| VTable (t : TripTable)
| VInsights (i : Insights).

Definition view (w : Widget) (s : State) : View :=
  match w with
  | WStats => VTiles (stat_tiles (dom s))
  | WHourly => VChart (hourlyChart (charts s))
  | WDaily => VChart (dailyChart (charts s))
  | WSpeed => VChart (speedChart (charts s))
  | WDuration => VChart (durationChart (charts s))
  | WTrips => VTable (trip_table (dom s))
  | WInsights => VInsights (insights (dom s))
  end.

(** Everything the loaders render into. *)
Definition rendered (s : State) : StatTiles * Charts * TripTable * Insights :=
  (stat_tiles (dom s), charts s, trip_table (dom s), insights (dom s)).

(** The fetch behind a response failed: the network, or a body that is not
    JSON. *)
Definition fetch_failed {A} (r : Fetched A) : bool :=
  match r with
  | Rejected => true
  | Resolved _ => false
  end.

Definition failed (r : Response) : bool :=
  match r with
  | StatsResponse r => fetch_failed r
  | HoursResponse r => fetch_failed r
  | DaysResponse r => fetch_failed r
  | SpeedsResponse r => fetch_failed r
  | DurationsResponse r => fetch_failed r
  | TripsResponse r => fetch_failed r
  end.

(** The response is a payload with [success: false]. *)
Definition fetch_refused {A} (r : Fetched (Envelope A)) : bool :=
  match r with
  | Rejected => false
  | Resolved e => negb (success e)
  end.

Definition refused (r : Response) : bool :=
  match r with
  | StatsResponse r => fetch_refused r
  | HoursResponse r => fetch_refused r
  | DaysResponse r => fetch_refused r
  | SpeedsResponse r => fetch_refused r
  | DurationsResponse r => fetch_refused r
  | TripsResponse r => fetch_refused r
  end.

Definition dashboard_loaded : string := "Dashboard loaded successfully!".
Definition dashboard_failed : string :=
  "Error loading dashboard data. Please check the console for details.".
Definition connection_failed : string :=
  "Error connecting to backend. Make sure the server is running!".

(** What initDashboard writes on the console when the settlement that leads
    from [s] to [s'] is the last it waited for. *)
Definition success_note (s s' : State) : list string :=
  if negb (initSettled s) && initSettled s' then [dashboard_loaded] else [].

(** The payload that a loader takes from a response: that of an envelope
    that says [success]. *)
Definition accepted {A} (r : Fetched (Envelope A)) : option A :=
  match r with
  | Resolved e => if success e then payload e else None
  | Rejected => None
  end.

(** The four tiles of a payload that has its three numbers. *)
Definition tiles_of (stats : Stats) : option StatTiles :=
  match total_trips stats, avg_duration_minutes stats,
        avg_speed_kmh stats with
  | Some n, Some m, Some v =>
      Some (mkTiles [Locale n] [Fixed 1 m; Lit " min"]
                    [Fixed 1 v; Lit " km/h"]
                    [Int (most_common_passenger_count stats)])
  | _, _, _ => None
  end.

Definition has_speed (trip : Trip) : bool :=
  match trip_speed_kmh trip with
  | Some _ => true
  | None => false
  end.

Definition has_avg_speed (h : HourSpeed) : bool :=
  match avg_speed h with
  | Some _ => true
  | None => false
  end.

(** The data point of the speed chart for a row. *)
Definition speed_point (h : HourSpeed) : Datum :=
  match avg_speed h with
  | Some v => Formatted [Fixed 2 v]
  | None => Undefined
  end.

(** The load of [k] shows in [s'] the payload of the response [r], if [r]
    brings one that the load can render: the tiles hold the numbers of the
    payload, a chart variable holds a chart of the rows of the payload, the
    table holds one row per trip and their count, an insight names the rows
    that its loop has picked. *)
Definition renders (k : Pending) (r : Response) (s' : State) : Prop :=
  match k, r with
  | PStats, StatsResponse r =>
      forall stats t,
        accepted r = Some stats -> tiles_of stats = Some t ->
        stat_tiles (dom s') = t
  | PHourly, HoursResponse r =>
      forall hours,
        accepted r = Some hours ->
        live (hourlyChart (charts s')) =
          Some (mkChart "bar" (map (fun h => hourLabel (hour_of h)) hours)
                        (map (fun h => datum (hour_trips h)) hours))
  | PDaily, DaysResponse r =>
      forall days,
        accepted r = Some days ->
        live (dailyChart (charts s')) =
          Some (mkChart "line" (map (fun d => [Lit (day_name d)]) days)
                        (map (fun d => datum (day_trips d)) days))
  | PSpeed, SpeedsResponse r =>
      forall speeds,
        accepted r = Some speeds -> forallb has_avg_speed speeds = true ->
        live (speedChart (charts s')) =
          Some (mkChart "line"
                        (map (fun h => hourLabel (speed_hour h)) speeds)
                        (map speed_point speeds))
  | PDuration, DurationsResponse r =>
      forall distribution,
        accepted r = Some distribution ->
        live (durationChart (charts s')) =
          Some (mkChart "pie"
                        (map (fun d => [Lit (duration_range d)]) distribution)
                        (map (fun d => Number (duration_trips d))
                             distribution))
  | PTrips _, TripsResponse r =>
      forall trips,
        accepted r = Some trips -> forallb has_speed trips = true ->
        List.length (trips_tbody (trip_table (dom s'))) = List.length trips /\
        Forall2 (fun trip row => renderRow trip = Some row)
                trips (trips_tbody (trip_table (dom s'))) /\
        trips_count (trip_table (dom s'))
          = [Int (Z.of_nat (List.length trips))]
  | PInsightHours, HoursResponse r =>
      forall topHour rest n,
        accepted r = Some (topHour :: rest) -> hour_trips topHour = Some n ->
        insight_peak_hours (insights (dom s')) =
          ([Lit "The busiest hour is "] ++ hourLabel (hour_of topHour)
           ++ [Lit " with "; Locale n;
               Lit " trips. This represents peak demand time in NYC, likely due to commuting patterns or nightlife activity."])%list
  | PInsightSpeeds, SpeedsResponse r =>
      forall first rest high low,
        accepted r = Some (first :: rest) ->
        avg_speed (largest avg_speed first rest) = Some high ->
        avg_speed (smallest avg_speed first rest) = Some low ->
        insight_speed (insights (dom s')) =
          ([Lit "Fastest trips occur at "]
           ++ hourLabel (speed_hour (largest avg_speed first rest))
           ++ [Lit " ("; Fixed 1 high;
               Lit " km/h) with less traffic. Slowest at "]
           ++ hourLabel (speed_hour (smallest avg_speed first rest))
           ++ [Lit " ("; Fixed 1 low;
               Lit " km/h), indicating heavy congestion during rush hours."])%list
  | PInsightWeek, DaysResponse r =>
      forall first rest most least,
        accepted r = Some (first :: rest) ->
        day_trips (largest day_trips first rest) = Some most ->
        day_trips (smallest day_trips first rest) = Some least ->
        insight_weekly (insights (dom s')) =
          [Lit (day_name (largest day_trips first rest));
           Lit " is the busiest day with "; Locale most;
           Lit " trips, while ";
           Lit (day_name (smallest day_trips first rest));
           Lit " is quietest with "; Locale least;
           Lit " trips. This shows clear weekday vs weekend patterns in urban mobility."]
  | _, _ => True
  end.

(** Two events that are the same, or that settle the same suspended call of
    a load other than [w], each with an outcome of its own. *)
Definition same_for (w : Widget) (e e' : Event) : Prop :=
  e = e' \/
  exists k r r',
    e = Settles k r /\ e' = Settles k r' /\ widget_eqb (widget_of k) w = false.



(** *** Sample inputs *)

Definition blank_page : Dom :=
  mkDom (mkTiles [] [] [] []) (mkTable [] []) (mkInsights [] [] [])
        (mkControls EmptyString EmptyString EmptyString) false.

Definition page_loaded : State :=
  Eval vm_compute in DOMContentLoaded (initial blank_page).

Definition sample_hours : list HourCount :=
  [mkHourCount 18 (Some 4200%Q); mkHourCount 0 (Some 350%Q);
   mkHourCount 12 (Some 2100%Q)].

(** The page after its load, once the fetch of [/stats] has failed. *)
Definition stats_failed : State :=
  Eval vm_compute in
  match step (Settles PStats (StatsResponse Rejected)) page_loaded with
  | Some s => s
  | None => page_loaded
  end.

(** At the page load the fetch of [/stats] fails and the hourly chart
    receives its data; and the same with [/stats] answered. *)
Definition stats_down_chart_up : list Event :=
  [Settles PStats (StatsResponse Rejected);
   Settles PHourly
     (HoursResponse (Resolved (mkEnvelope true (Some sample_hours))))].


Definition after_stats_down : State :=
  Eval vm_compute in
  match run stats_down_chart_up page_loaded with
  | Some s => s
  | None => page_loaded
  end.


(** *** Vocabulary of the further properties *)

(** The characters of a text made of literals and integers only. *)
Fixpoint text_string (t : Text) : option string :=
  match t with
  | [] => Some EmptyString
  | Lit s :: t' => option_map (append s) (text_string t')
  | Int n :: t' => option_map (append (string_of_Z n)) (text_string t')
  | _ :: _ => None
  end.

(** The reading of a 12-hour clock at [hour] o'clock. *)
Definition clock_reading (hour : Z) : string :=
  string_of_Z (if hour mod 12 =? 0 then 12 else hour mod 12)
  ++ (if hour <? 12 then " AM" else " PM").

(** The hours of the day. *)
Definition hours_of_day : list Z := map Z.of_nat (seq 0 24).

(** A value that may be missing is under [v] ([strictly] or not); a missing
    value is under every [v].  And the same for over. *)
Definition under (strictly : bool) (v : Q) (o : option Q) : Prop :=
  match o with
  | Some u => if strictly then (u < v)%Q else (u <= v)%Q
  | None => True
  end.

Definition over (strictly : bool) (v : Q) (o : option Q) : Prop :=
  match o with
  | Some u => if strictly then (v < u)%Q else (v <= u)%Q
  | None => True
  end.

(** [m] is the first element of [l] that carries the largest value of [f],
    the elements without value apart; and the same for the smallest. *)
Definition first_largest {A} (f : A -> option Q) (l : list A) (m : A)
  : Prop :=
  exists pre post v,
    l = (pre ++ m :: post)%list /\
    f m = Some v /\
    (forall x, In x pre -> under true v (f x)) /\
    (forall x, In x post -> under false v (f x)).

Definition first_smallest {A} (f : A -> option Q) (l : list A) (m : A)
  : Prop :=
  exists pre post v,
    l = (pre ++ m :: post)%list /\
    f m = Some v /\
    (forall x, In x pre -> over true v (f x)) /\
    (forall x, In x post -> over false v (f x)).

(** The number of times [msg] occurs in a log. *)
Fixpoint occurrences (msg : string) (log : list string) : nat :=
  match log with
  | [] => 0
  | m :: log' =>
      if String.eqb msg m then S (occurrences msg log')
      else occurrences msg log'
  end.

(** The tally of the conclusions that initDashboard has announced. *)
Definition conclusions (s : State) : nat :=
  (occurrences dashboard_loaded (console s)
   + occurrences dashboard_failed (alerts s))%nat.



(** A chart variable is sound: the chart it holds has one label per data
    point and the type [type], and no chart was destroyed before one was
    drawn. *)
Definition slot_sound (type : string) (slot : ChartSlot) : Prop :=
  match live slot with
  | Some c =>
      chart_type c = type /\
      List.length (chart_labels c) = List.length (chart_data c)
  | None => destroyed slot = 0%nat
  end.

(** The four chart variables taken together. *)
Definition charts_sound (s : State) : Prop :=
  slot_sound "bar" (hourlyChart (charts s)) /\
  slot_sound "line" (dailyChart (charts s)) /\
  slot_sound "line" (speedChart (charts s)) /\
  slot_sound "pie" (durationChart (charts s)).

(** The first fetch of generateInsights brought a payload on which it
    raises: the envelope says [success] and the list of hours is absent or
    empty, or its first row lacks its count. *)
Definition first_insight_raises (r : Fetched (Envelope (list HourCount)))
  : bool :=
  match r with
  | Rejected => false
  | Resolved e =>
      success e && match payload e with
                   | None | Some [] => true
                   | Some (topHour :: _) =>
                       match hour_trips topHour with
                       | None => true
                       | Some _ => false
                       end
                   end
  end.

(** loadTrips raises on the payload: the envelope says [success] and the
    trips are absent, or one of them lacks its speed. *)
Definition trips_raise (r : Fetched (Envelope (list Trip))) : bool :=
  match r with
  | Rejected => false
  | Resolved e =>
      success e && match payload e with
                   | None => true
                   | Some trips => negb (forallb has_speed trips)
                   end
  end.

(** The rows of the trips that come before the first one without speed. *)
Fixpoint leading_rows (trips : list Trip) : list Row :=
  match trips with
  | [] => []
  | trip :: rest =>
      match renderRow trip with
      | Some row => row :: leading_rows rest
      | None => []
      end
  end.

(** The trips of a payload, none when they are absent. *)
Definition trips_of (r : Fetched (Envelope (list Trip))) : list Trip :=
  match r with
  | Resolved e => match payload e with
                  | Some trips => trips
                  | None => []
                  end
  | Rejected => []
  end.

(** The states the dashboard can be in. *)
Inductive reachable : State -> Prop :=
| reach_load (page : Dom) : reachable (DOMContentLoaded (initial page))
| reach_step (s s' : State) (e : Event) :
    reachable s -> step e s = Some s' -> reachable s'.

(** *** Further sample inputs *)

(** The user has clicked Apply on the loaded page. *)
Definition apply_clicked : State :=
  Eval vm_compute in clickApplyFilters page_loaded.

(** The answer to that click says [success] and carries no trips. *)
Definition hollow_trips : Fetched (Envelope (list Trip)) :=
  Resolved (mkEnvelope true None).

Definition hollow_trips_settled : State :=
  Eval vm_compute in
  match step (Settles (PTrips FromHandler) (TripsResponse hollow_trips))
             apply_clicked with
  | Some s => s
  | None => apply_clicked
  end.

(** Two trips, the second of which comes without its speed; and the answer
    to the click that carries both, or the first only. *)
Definition sample_trip : Trip :=
  mkTrip 7 "2016-03-14 17:24:55" (Some 455%Q) (Some 15.4%Q) 1 "short".
Definition trip_without_speed : Trip :=
  mkTrip 8 "2016-03-14 17:31:02" None None 2 "medium".

Definition broken_trips : Fetched (Envelope (list Trip)) :=
  Resolved (mkEnvelope true (Some [sample_trip; trip_without_speed])).
Definition sound_trips : Fetched (Envelope (list Trip)) :=
  Resolved (mkEnvelope true (Some [sample_trip])).

Definition broken_trips_settled : State :=
  Eval vm_compute in
  match step (Settles (PTrips FromHandler) (TripsResponse broken_trips))
             apply_clicked with
  | Some s => s
  | None => apply_clicked
  end.

Definition sound_trips_settled : State :=
  Eval vm_compute in
  match step (Settles (PTrips FromHandler) (TripsResponse sound_trips))
             apply_clicked with
  | Some s => s
  | None => apply_clicked
  end.

(** The first fetch of generateInsights brings an empty list of hours. *)
Definition no_hours : Fetched (Envelope (list HourCount)) :=
  Resolved (mkEnvelope true (Some [])).

Definition no_hours_settled : State :=
  Eval vm_compute in
  match step (Settles PInsightHours (HoursResponse no_hours)) page_loaded with
  | Some s => s
  | None => page_loaded
  end.

(** The first fetch of generateInsights brings hours of which the first has
    no count; and the sample hours. *)
Definition uncounted_hours : Fetched (Envelope (list HourCount)) :=
  Resolved (mkEnvelope true
              (Some [mkHourCount 18 None; mkHourCount 0 (Some 350%Q)])).

Definition uncounted_hours_settled : State :=
  Eval vm_compute in
  match step (Settles PInsightHours (HoursResponse uncounted_hours))
             page_loaded with
  | Some s => s
  | None => page_loaded
  end.

Definition counted_hours_settled : State :=
  Eval vm_compute in
  match step (Settles PInsightHours
                (HoursResponse
                   (Resolved (mkEnvelope true (Some sample_hours)))))
             page_loaded with
  | Some s => s
  | None => page_loaded
  end.

(** The page after its load, once [/stats] has answered [success: false]. *)
Definition stats_refused : State :=
  Eval vm_compute in
  match step (Settles PStats
                (StatsResponse (Resolved (mkEnvelope false None))))
             page_loaded with
  | Some s => s
  | None => page_loaded
  end.


(** The suspended call belongs to a load started by initDashboard. *)
Definition is_init_member (k : Pending) : bool :=
  match k with
  | PTrips FromHandler => false
  | _ => true
  end.

(** The number of loads of initDashboard still in flight. *)
Definition init_in_flight (l : list Pending) : nat :=
  List.length (filter is_init_member l).

(** As long as its [await] is not over, initDashboard waits for exactly the
    loads it started that are still in flight, and there is one. *)
Definition init_waits (s : State) : Prop :=
  initSettled s = false ->
  initOutstanding s = init_in_flight (inflight s) /\
  (1 <= initOutstanding s)%nat.

End Dashboard.

(** ** Properties of the page script *)

Module ExplorerProofs.
Import Explorer.

(** *** formatLabel *)

Lemma is_word_toUpperCase (c : ascii) : is_word (toUpperCase c) = is_word c.
Proof.
  destruct c as [b0 b1 b2 b3 b4 b5 b6 b7].
  destruct b0, b1, b2, b3, b4, b5, b6, b7; reflexivity.
Qed.

Lemma toUpperCase_involutive (c : ascii) :
  toUpperCase (toUpperCase c) = toUpperCase c.
Proof.
  destruct c as [b0 b1 b2 b3 b4 b5 b6 b7].
  destruct b0, b1, b2, b3, b4, b5, b6, b7; reflexivity.
Qed.

Lemma toUpperCase_not_underscore (c : ascii) :
  Ascii.eqb c "_"%char = false -> Ascii.eqb (toUpperCase c) "_"%char = false.
Proof.
  destruct c as [b0 b1 b2 b3 b4 b5 b6 b7].
  destruct b0, b1, b2, b3, b4, b5, b6, b7; intro H; try reflexivity;
    discriminate H.
Qed.

Lemma replace_underscores_free (s : string) :
  underscore_free (replace_underscores s).
Proof.
  induction s as [|c s IH]; simpl; [exact I|].
  split; [|exact IH].
  destruct (Ascii.eqb c "_"%char) eqn:E; [reflexivity | exact E].
Qed.

Lemma replace_underscores_fixed (s : string) :
  underscore_free s -> replace_underscores s = s.
Proof.
  induction s as [|c s IH]; simpl; [reflexivity|].
  intros [Hc Hs]. rewrite Hc, (IH Hs). reflexivity.
Qed.

Lemma capitalize_words_free (p : bool) (s : string) :
  underscore_free s -> underscore_free (capitalize_words p s).
Proof.
  revert p. induction s as [|c s IH]; simpl; intros p; [trivial|].
  intros [Hc Hs]. split; [|apply IH; exact Hs].
  destruct (is_word c && negb p);
    [apply toUpperCase_not_underscore; exact Hc | exact Hc].
Qed.

Lemma capitalize_words_idempotent (p : bool) (s : string) :
  capitalize_words p (capitalize_words p s) = capitalize_words p s.
Proof.
  revert p. induction s as [|c s IH]; simpl; intros p; [reflexivity|].
  destruct (is_word c && negb p) eqn:E.
  - rewrite is_word_toUpperCase, E, toUpperCase_involutive, IH. reflexivity.
  - rewrite E, IH. reflexivity.
Qed.

(** C9. Label humanization is idempotent: for every string [s],
    [formatLabel (formatLabel s) = formatLabel s]. *)
Theorem formatLabel_idempotent (s : string) :
  formatLabel (formatLabel s) = formatLabel s.
Proof.
  unfold formatLabel.
  rewrite (replace_underscores_fixed (capitalize_words false _)).
  - apply capitalize_words_idempotent.
  - apply capitalize_words_free, replace_underscores_free.
Qed.

Example formatLabel_early_morning :
  formatLabel "early_morning" = "Early Morning".
Proof. reflexivity. Qed.

Example formatLabel_mixed :
  formatLabel "very_fast-lane 2x_speed" = "Very Fast-Lane 2x Speed".
Proof. reflexivity. Qed.

(** *** createBarChart *)

Lemma below_le (m m' : Q) (x : JsNumber) :
  (m <= m')%Q -> below m x -> below m' x.
Proof.
  intros Hm. destruct x as [v| | |]; simpl; try tauto.
  intros Hv. eapply Qle_trans; eassumption.
Qed.

Lemma js_max_finite (x y : JsNumber) (m : Q) :
  js_max x y = Finite m ->
  below m x /\ below m y /\ (x = Finite m \/ y = Finite m \/
                             exists a b, x = Finite a /\ y = Finite b).
Proof.
  destruct x as [a| | |], y as [b| | |]; simpl; intros H;
    try discriminate H; injection H as H.
  - split; [|split].
    + rewrite <- H. apply Q.le_max_l.
    + rewrite <- H. apply Q.le_max_r.
    + right. right. exists a, b. split; reflexivity.
  - subst. split; [apply Qle_refl|]. split; [exact I|]. left. reflexivity.
  - subst. split; [exact I|]. split; [apply Qle_refl|].
    right. left. reflexivity.
Qed.

Lemma fold_js_max_finite (xs : list JsNumber) (acc : JsNumber) (m : Q) :
  fold_left js_max xs acc = Finite m ->
  below m acc /\ Forall (below m) xs.
Proof.
  revert acc. induction xs as [|x xs IH]; simpl; intros acc H.
  - subst acc. split; [apply Qle_refl | constructor].
  - destruct (IH _ H) as [Hacc Hxs].
    destruct (js_max acc x) as [k| | |] eqn:E; simpl in Hacc;
      try contradiction.
    + destruct (js_max_finite acc x k E) as [Ha [Hx _]].
      split; [exact (below_le k m acc Hacc Ha)|].
      constructor; [exact (below_le k m x Hacc Hx) | exact Hxs].
    + destruct acc as [a| | |], x as [b| | |]; try discriminate E.
      split; [exact I|]. constructor; [exact I | exact Hxs].
Qed.

Lemma fold_js_max_infinite (xs : list JsNumber) (acc : JsNumber) :
  fold_left js_max xs acc = PosInfinity ->
  acc = PosInfinity \/ In PosInfinity xs.
Proof.
  revert acc. induction xs as [|x xs IH]; simpl; intros acc H.
  - left. exact H.
  - destruct (IH _ H) as [E | Hin]; [|right; right; exact Hin].
    destruct acc as [a| | |], x as [b| | |]; simpl in E;
      try discriminate E; auto.
Qed.

(** [Math.max] over finite numbers is their largest. *)
Lemma fold_js_max_Finite (qs : list Q) (a : Q) :
  fold_left js_max (map Finite qs) (Finite a) = Finite (fold_left Qmax qs a).
Proof.
  revert a. induction qs as [|q qs IH]; intros a; simpl; [reflexivity|].
  apply IH.
Qed.

Lemma fold_Qmax_ge_first (x : Q) (xs : list Q) : (x <= fold_left Qmax xs x)%Q.
Proof.
  revert x. induction xs as [|y ys IH]; intros x; simpl; [apply Qle_refl|].
  eapply Qle_trans; [apply Q.le_max_l | apply IH].
Qed.

Lemma fold_Qmax_ge_rest (x y : Q) (xs : list Q) :
  In y xs -> (y <= fold_left Qmax xs x)%Q.
Proof.
  revert x. induction xs as [|z zs IH]; intros x Hin; simpl; [destruct Hin|].
  destruct Hin as [-> | Hin].
  - eapply Qle_trans; [apply Q.le_max_r | apply fold_Qmax_ge_first].
  - apply IH; exact Hin.
Qed.

Lemma fold_Qmax_le (b x : Q) (xs : list Q) :
  (x <= b)%Q -> (forall y, In y xs -> (y <= b)%Q) ->
  (fold_left Qmax xs x <= b)%Q.
Proof.
  revert x. induction xs as [|z zs IH]; intros x Hx Hall; simpl; [exact Hx|].
  apply IH.
  - apply Q.max_lub; [exact Hx | apply Hall; left; reflexivity].
  - intros y Hy. apply Hall. right. exact Hy.
Qed.

Lemma finite_row_value (item : BarItem) :
  finite_row item = true ->
  to_number (item_value item) = Finite (value_of item) /\
  exists label, item_label item = Some label /\
                item_value item = Some (Finite (value_of item)).
Proof.
  unfold finite_row, value_of.
  destruct (item_label item) as [l|]; [|discriminate].
  destruct (item_value item) as [[v| | |]|]; try discriminate.
  intros _. split; [reflexivity|]. exists l. split; reflexivity.
Qed.

Lemma finite_rows_values (data : list BarItem) :
  forallb finite_row data = true ->
  map (fun d => to_number (item_value d)) data
    = map Finite (map value_of data).
Proof.
  induction data as [|d ds IH]; simpl; intros H; [reflexivity|].
  apply andb_prop in H. destruct H as [Hd Hds].
  rewrite (proj1 (finite_row_value d Hd)), (IH Hds). reflexivity.
Qed.

(** [Math.max] over the values of a series of finite rows is the value of
    any row that carries the largest one. *)
Lemma Math_max_is_maximum (data : list BarItem) (item : BarItem) :
  forallb finite_row data = true ->
  is_maximum item data ->
  exists m, Math_max (map (fun d => to_number (item_value d)) data)
              = Finite m /\ (m == value_of item)%Q.
Proof.
  intros Hfin [Hin Hmax]. rewrite (finite_rows_values data Hfin).
  destruct data as [|d ds]; [destruct Hin|].
  unfold Math_max. cbn [map fold_left js_max].
  rewrite fold_js_max_Finite. eexists. split; [reflexivity|].
  apply Qle_antisym.
  - apply fold_Qmax_le.
    + apply Hmax. left. reflexivity.
    + intros y Hy. apply in_map_iff in Hy. destruct Hy as [o [<- Ho]].
      apply Hmax. right. exact Ho.
  - destruct Hin as [-> | Hin].
    + apply fold_Qmax_ge_first.
    + apply fold_Qmax_ge_rest. apply in_map. exact Hin.
Qed.

Lemma js_positive_finite (q : Q) :
  js_positive (Finite q) = true <-> (0 < q)%Q.
Proof.
  simpl. split.
  - destruct (q ?= 0)%Q eqn:E; try discriminate. intros _.
    apply Qgt_alt. exact E.
  - intros H. apply Qgt_alt in H. rewrite H. reflexivity.
Qed.

Lemma positive_not_zero (q : Q) : (0 < q)%Q -> Qeq_bool q 0 = false.
Proof.
  intros H. destruct (Qeq_bool q 0) eqn:B; [|reflexivity].
  apply Qeq_bool_iff in B. rewrite B in H. destruct (Qlt_irrefl 0 H).
Qed.

(** The guard [maxValue > 0] keeps the divisor away from zero. *)
Lemma heightPercent_defined (maxValue : JsNumber) (item : BarItem) :
  exists h, heightPercent maxValue item = Value h.
Proof.
  unfold heightPercent, js_div.
  destruct (js_positive maxValue) eqn:P; [|eexists; reflexivity].
  destruct maxValue as [q| | |]; try discriminate P;
    [|eexists; reflexivity].
  apply js_positive_finite in P. rewrite (positive_not_zero q P).
  eexists; reflexivity.
Qed.

Lemma renderBar_height (maxValue : JsNumber) (item : BarItem) (bar : Bar) :
  renderBar maxValue item = Done bar ->
  bar_height bar =
    arith_bind (heightPercent maxValue item)
               (fun h => Value (js_max h (Finite 1))).
Proof.
  unfold renderBar.
  destruct (item_label item), (item_value item); intros H;
    try discriminate H.
  injection H as <-. reflexivity.
Qed.

(** The bars of a drawn series are those of its rows, in order. *)
Lemma renderBars_done (maxValue : JsNumber) (data : list BarItem)
  (bars : list Bar) :
  renderBars maxValue data = Done bars ->
  Forall2 (fun item bar => renderBar maxValue item = Done bar) data bars.
Proof.
  revert bars. induction data as [|d ds IH]; simpl; intros bars H.
  - injection H as <-. constructor.
  - destruct (renderBar maxValue d) as [bar|e] eqn:E; [|discriminate H].
    destruct (renderBars maxValue ds) as [rest|e]; [|discriminate H].
    injection H as <-. constructor; [exact E | apply IH; reflexivity].
Qed.

Lemma renderBars_finite (maxValue : JsNumber) (data : list BarItem) :
  forallb finite_row data = true ->
  exists bars, renderBars maxValue data = Done bars.
Proof.
  induction data as [|d ds IH]; simpl; intros H; [eexists; reflexivity|].
  apply andb_prop in H. destruct H as [Hd Hds].
  destruct (finite_row_value d Hd) as [_ [label [El Ev]]].
  destruct (IH Hds) as [bars ->].
  unfold renderBar. rewrite El, Ev. eexists; reflexivity.
Qed.

(** What createBarChart draws for a series: nothing when it raises, and
    otherwise the bars of its rows, in order. *)
Lemma createBarChart_drawn (limit : Z) (data : list BarItem) :
  bars_drawn (createBarChart limit (Some data)) = [] \/
  Forall2 (fun item bar =>
             renderBar (Math_max (map (fun d => to_number (item_value d))
                                      data)) item = Done bar)
          data (bars_drawn (createBarChart limit (Some data))).
Proof.
  unfold createBarChart.
  destruct data as [|d ds]; [left; reflexivity|].
  set (data := d :: ds).
  set (m := Math_max _).
  destruct (limit <? _); [left; reflexivity|].
  destruct (renderBars m data) as [bars|e] eqn:E; [|left; reflexivity].
  right. exact (renderBars_done m data bars E).
Qed.

Lemma Forall2_In_right {A B : Type} (R : A -> B -> Prop) (l : list A)
  (l' : list B) (y : B) :
  Forall2 R l l' -> In y l' -> exists x, In x l /\ R x y.
Proof.
  induction 1 as [|x b l l' Hb _ IH]; intros Hin; [destruct Hin|].
  destruct Hin as [<- | Hin].
  - exists x. split; [left; reflexivity | exact Hb].
  - destruct (IH Hin) as [z [Hz Hr]]. exists z. split; [right|]; assumption.
Qed.

Lemma drawn_bar (limit : Z) (data : list BarItem) (bar : Bar) :
  In bar (bars_drawn (createBarChart limit (Some data))) ->
  exists item,
    In item data /\
    renderBar (Math_max (map (fun d => to_number (item_value d)) data)) item
      = Done bar.
Proof.
  intros Hin.
  destruct (createBarChart_drawn limit data) as [E | H];
    [rewrite E in Hin; destruct Hin|].
  exact (Forall2_In_right _ _ _ bar H Hin).
Qed.

(** C8. For every empty or absent input series the bar-chart renderer writes
    the "no data" placeholder instead of a chart, and for every input series
    the height of each bar is computed without dividing by zero: that of
    every bar the renderer draws, and the normalization step on any row
    under any maximum. *)
Theorem createBarChart_placeholder_and_no_zero_division (limit : Z) :
  createBarChart limit None = Done ChartNoData /\
  createBarChart limit (Some []) = Done ChartNoData /\
  (forall data : option (list BarItem),
     Forall (fun bar => exists h, bar_height bar = Value h)
            (bars_drawn (createBarChart limit data))) /\
  (forall (maxValue : JsNumber) (item : BarItem),
     exists h, heightPercent maxValue item = Value h).
Proof.
  split; [reflexivity|]. split; [reflexivity|].
  split; [|exact heightPercent_defined].
  intros [data|]; [|constructor].
  apply Forall_forall. intros bar Hbar.
  destruct (drawn_bar limit data bar Hbar) as [item [_ Hb]].
  rewrite (renderBar_height _ item bar Hb).
  destruct (heightPercent_defined
              (Math_max (map (fun d => to_number (item_value d)) data)) item)
    as [h ->].
  eexists; reflexivity.
Qed.

Lemma Forall2_nth_error {A B : Type} (R : A -> B -> Prop) (l : list A)
  (l' : list B) (i : nat) (x : A) (y : B) :
  Forall2 R l l' -> nth_error l i = Some x -> nth_error l' i = Some y ->
  R x y.
Proof.
  intros H. revert i.
  induction H as [|a b l l' Hab _ IH]; intros [|i] Hx Hy;
    try discriminate Hx.
  - simpl in Hx, Hy. injection Hx as <-. injection Hy as <-. exact Hab.
  - simpl in Hx, Hy. exact (IH i Hx Hy).
Qed.

(** The height of the bar of a finite value under a finite maximum. *)
Lemma finite_height (m v : Q) (item : BarItem) :
  to_number (item_value item) = Finite v ->
  arith_bind (heightPercent (Finite m) item)
             (fun h => Value (js_max h (Finite 1)))
  = Value (Finite (Qmax (match (m ?= 0)%Q with
                         | Gt => v / m * 100
                         | _ => 0
                         end) 1)).
Proof.
  intros Hv. unfold heightPercent, js_positive, js_div. rewrite Hv.
  destruct (m ?= 0)%Q eqn:E; try reflexivity.
  apply Qgt_alt in E. rewrite (positive_not_zero m E). reflexivity.
Qed.

Lemma Math_max_finite_rows (data : list BarItem) :
  data <> [] ->
  forallb finite_row data = true ->
  exists m, Math_max (map (fun d => to_number (item_value d)) data)
            = Finite m.
Proof.
  intros Hne Hfin. rewrite (finite_rows_values data Hfin).
  destruct data as [|d ds]; [contradiction|].
  unfold Math_max. cbn [map fold_left js_max].
  rewrite fold_js_max_Finite. eexists; reflexivity.
Qed.

(** C4, amended. For every non-empty input series whose rows carry a label
    and a finite value, and which is short enough to be spread into one
    call, a chart with one bar per row is drawn and every bar is at least 1%
    high; when the maximum value of the series is positive, the bar of a row
    that carries it is 100% high. *)
Theorem bar_heights_normalized (limit : Z) (data : list BarItem) :
  data <> [] ->
  forallb finite_row data = true ->
  Z.of_nat (List.length data) <= limit ->
  exists bars,
    createBarChart limit (Some data) = Done (ChartBars bars) /\
    List.length bars = List.length data /\
    Forall (height_is (fun h => 1 <= h)%Q) bars /\
    forall i item bar,
      nth_error data i = Some item ->
      nth_error bars i = Some bar ->
      is_maximum item data ->
      (0 < value_of item)%Q ->
      height_is (fun h => h == 100)%Q bar.
Proof.
  intros Hne Hfin Hlen.
  destruct (Math_max_finite_rows data Hne Hfin) as [m Hm].
  destruct (renderBars_finite (Finite m) data Hfin) as [bars Hbars].
  pose proof (renderBars_done (Finite m) data bars Hbars) as H2.
  exists bars. split; [|split; [|split]].
  - unfold createBarChart. destruct data as [|d ds]; [contradiction|].
    rewrite length_map.
    replace (limit <? Z.of_nat (List.length (d :: ds))) with false
      by (symmetry; apply Z.ltb_ge; exact Hlen).
    rewrite Hm, Hbars. reflexivity.
  - symmetry. exact (Forall2_length H2).
  - apply Forall_forall. intros bar Hbar.
    destruct (Forall2_In_right _ _ _ bar H2 Hbar) as [item [Hin Hb]].
    assert (Hrow : finite_row item = true)
      by (rewrite forallb_forall in Hfin; apply Hfin; exact Hin).
    destruct (finite_row_value item Hrow) as [Hv _].
    eexists. split.
    + rewrite (renderBar_height _ item bar Hb).
      exact (finite_height m (value_of item) item Hv).
    + apply Q.le_max_r.
  - intros i item bar Hi Hb Hmax Hpos.
    pose proof (Forall2_nth_error _ _ _ i item bar H2 Hi Hb) as Hr.
    assert (Hrow : finite_row item = true).
    { rewrite forallb_forall in Hfin. apply Hfin.
      exact (nth_error_In data i Hi). }
    destruct (finite_row_value item Hrow) as [Hv _].
    destruct (Math_max_is_maximum data item Hfin Hmax) as [m' [Hm' Heq]].
    rewrite Hm in Hm'. injection Hm' as <-.
    assert (Hmpos : (0 < m)%Q) by (rewrite Heq; exact Hpos).
    assert (Hne0 : ~ (m == 0)%Q).
    { intro H0. rewrite H0 in Hmpos. exact (Qlt_irrefl 0 Hmpos). }
    eexists. split.
    + rewrite (renderBar_height _ item bar Hr).
      exact (finite_height m (value_of item) item Hv).
    + assert (E : (m ?= 0)%Q = Gt) by (apply Qgt_alt; exact Hmpos).
      rewrite E.
      assert (H100 : (value_of item / m * 100 == 100)%Q).
      { rewrite <- Heq. field. exact Hne0. }
      rewrite Q.max_l; [exact H100|].
      rewrite H100. discriminate.
Qed.

Lemma bar_heights_normalized_witness :
  exists bars,
    createBarChart 65535 (Some sample_series) = Done (ChartBars bars) /\
    List.length bars = List.length sample_series /\
    Forall (height_is (fun h => 1 <= h)%Q) bars /\
    forall i item bar,
      nth_error sample_series i = Some item ->
      nth_error bars i = Some bar ->
      is_maximum item sample_series ->
      (0 < value_of item)%Q ->
      height_is (fun h => h == 100)%Q bar.
Proof.
  apply (bar_heights_normalized 65535 sample_series).
  - discriminate.
  - reflexivity.
  - vm_compute. discriminate.
Defined.

(** C4 as stated fails: in a series whose largest value is zero, the bar of
    that value is 1% high, not 100%. *)
Lemma tallest_bar_of_zero_series :
  createBarChart 65535 (Some [bar_item "night" 0]) =
    Done (ChartBars
            [mkBar (Value (Finite (Qmax 0 1))) "Night" [Locale (Finite 0)]]) /\
  (Qmax 0 1 == 1)%Q /\
  ~ tallest_bars_full 65535 [bar_item "night" 0].
Proof.
  split; [reflexivity|]. split; [reflexivity|].
  intros H.
  destruct (H 0%nat (bar_item "night" 0)
              (mkBar (Value (Finite (Qmax 0 1))) "Night" [Locale (Finite 0)])
              eq_refl eq_refl) as [h [Hh H100]].
  - split; [left; reflexivity|].
    intros other [<- | []]. apply Qle_refl.
  - simpl in Hh. injection Hh as <-. discriminate H100.
Qed.

(** Two more series on which C4 as stated fails.  A value too large for a
    double is parsed to [Infinity]: its bar gets the height [NaN%], which is
    no height at all.  And a series longer than the engine accepts
    arguments is not drawn: the container shows the failure message. *)
Example infinite_value_has_no_height :
  createBarChart 65535
    (Some [mkBarItem (Some "rush_hour") (Some PosInfinity);
           bar_item "night" 5]) =
  Done (ChartBars
          [mkBar (Value NaN) "Rush Hour" [Locale PosInfinity];
           mkBar (Value (Finite (Qmax (0 * 100) 1))) "Night"
                 [Locale (Finite 5)]]).
Proof. reflexivity. Qed.

Example long_series_is_not_drawn :
  createBarChart 2 (Some sample_series) = Raises RangeError /\
  chartContent 2 (Resolved (Some sample_series)) = ChartFailed /\
  bars_of (chartContent 65535 (Resolved (Some sample_series)))
    = bars_drawn (createBarChart 65535 (Some sample_series)).
Proof. repeat split; reflexivity. Qed.

Example row_without_label_is_not_drawn :
  createBarChart 65535
    (Some [bar_item "night" 5; mkBarItem None (Some (Finite 7))])
    = Raises TypeError.
Proof. reflexivity. Qed.

(** *** The view state *)

Ltac split_cases :=
  repeat match goal with
         | |- context [match ?x with _ => _ end] => destruct x eqn:?
         | |- context [if ?b then _ else _] => destruct b eqn:?
         end.

Lemma run_reachable (es : list Event) (s s' : State) :
  reachable s -> run es s = Some s' -> reachable s'.
Proof.
  revert s. induction es as [|e es IH]; simpl; intros s Hs Hrun.
  - injection Hrun as <-. exact Hs.
  - destruct (step e s) as [s1|] eqn:E; [|discriminate].
    apply (IH s1); [|exact Hrun].
    apply (reach_step s s1 e); assumption.
Qed.

Lemma idle_state_reachable : reachable idle_state.
Proof.
  apply (run_reachable charts_settled (DOMContentLoaded (initial blank_page))).
  - apply reach_load.
  - vm_compute. reflexivity.
Qed.

(** loadTrips and the continuations leave the page number and the filters
    alone. *)
Lemma loadTrips_control (c : Caller) (s : State) :
  currentPage (loadTrips c s) = currentPage s /\
  currentFilters (loadTrips c s) = currentFilters s.
Proof. unfold loadTrips, afterLoadTrips. split_cases; split; reflexivity. Qed.

Lemma resume_control (k : Pending) (r : Response) (s s' : State) :
  resume k r s = Some s' ->
  currentPage s' = currentPage s /\ currentFilters s' = currentFilters s.
Proof.
  unfold resume. intros H.
  destruct k, r; try discriminate; injection H as <-.
  - unfold loadStatistics_resume. split_cases; split; reflexivity.
  - unfold loadTimeChart_resume, chartSettled. split_cases; split; reflexivity.
  - unfold loadSpeedChart_resume, chartSettled. split_cases; split; reflexivity.
  - unfold loadTrips_resume, afterLoadTrips, showTrips.
    split_cases; split; reflexivity.
Qed.

Lemma resume_requests (k : Pending) (r : Response) (s s' : State) :
  resume k r s = Some s' -> requests s' = requests s.
Proof.
  unfold resume. intros H.
  destruct k, r; try discriminate; injection H as <-.
  - unfold loadStatistics_resume. split_cases; reflexivity.
  - unfold loadTimeChart_resume, chartSettled. split_cases; reflexivity.
  - unfold loadSpeedChart_resume, chartSettled. split_cases; reflexivity.
  - unfold loadTrips_resume, afterLoadTrips, showTrips.
    split_cases; reflexivity.
Qed.

Lemma loadTrips_requests (c : Caller) (s : State) :
  requests (loadTrips c s) =
    if isLoading s then requests s else (requests s ++ [tripsRequest s])%list.
Proof. unfold loadTrips, afterLoadTrips. split_cases; reflexivity. Qed.

(** What applyFilters stores is the list of the controls that hold a
    value. *)
Lemma readFilters_non_empty (f : FilterForm) :
  readFilters f = non_empty_entries (filter_entries f).
Proof.
  destruct f as [[|a1 t1] [|a2 t2] [|a3 t3] [|a4 t4] d x]; reflexivity.
Qed.

(** The filters of a reachable state never shadow [limit] or [offset], so
    the spread puts them after the two. *)
Lemma spread_readFilters (lim off : string) (f : FilterForm) :
  obj_spread [("limit", lim); ("offset", off)] (readFilters f) =
    ([("limit", lim); ("offset", off)] ++ readFilters f)%list.
Proof.
  destruct f as [[|a1 t1] [|a2 t2] [|a3 t3] [|a4 t4] d x]; reflexivity.
Qed.

Lemma params_explicit (s : State) :
  (exists f, currentFilters s = readFilters f) ->
  params s =
    ([("limit", "50"); ("offset", string_of_Z (offset s))]
     ++ currentFilters s)%list.
Proof.
  intros [f Hf]. unfold params. rewrite Hf.
  apply spread_readFilters.
Qed.

Lemma tripsRequest_offset (s : State) :
  1 <= currentPage s ->
  (exists f, currentFilters s = readFilters f) ->
  offset_not_negative (tripsRequest s).
Proof.
  intros Hp Hf _. exists (offset s). split.
  - unfold offset, itemsPerPage. lia.
  - unfold tripsRequest. cbn [req_params]. rewrite (params_explicit s Hf).
    reflexivity.
Qed.

Lemma loadTrips_ok (c : Caller) (s : State) :
  view_state_ok s -> view_state_ok (loadTrips c s).
Proof.
  intros [Hp [Hf Hr]]. unfold view_state_ok.
  destruct (loadTrips_control c s) as [-> ->].
  rewrite loadTrips_requests.
  split; [exact Hp|]. split; [exact Hf|].
  destruct (isLoading s); [exact Hr|].
  apply Forall_app. split; [exact Hr|].
  constructor; [|constructor]. apply tripsRequest_offset; assumption.
Qed.

Lemma page_load_ok (page : Dom) :
  view_state_ok (DOMContentLoaded (initial page)).
Proof.
  unfold view_state_ok. cbn. split; [lia|]. split.
  - exists (clear_controls (form blank_page)). reflexivity.
  - repeat constructor; intros H; discriminate H.
Qed.

Lemma step_ok (e : Event) (s s' : State) :
  view_state_ok s -> step e s = Some s' -> view_state_ok s'.
Proof.
  intros Hok Hstep. destruct e; simpl in Hstep.
  - injection Hstep as <-. exact Hok.
  - injection Hstep as <-. unfold applyFilters.
    destruct (isLoading s); [exact Hok|].
    apply loadTrips_ok. destruct Hok as [_ [_ Hr]].
    split; [cbn; lia|]. split; [|exact Hr].
    eexists. reflexivity.
  - injection Hstep as <-. unfold resetFilters.
    apply loadTrips_ok. destruct Hok as [_ [_ Hr]].
    split; [cbn; lia|]. split; [|exact Hr].
    exists (clear_controls (form blank_page)). reflexivity.
  - injection Hstep as <-. unfold nextPage.
    destruct (negb (isLoading s)); [|exact Hok].
    apply loadTrips_ok. destruct Hok as [Hp [Hf Hr]].
    split; [cbn; lia|]. split; assumption.
  - injection Hstep as <-. unfold previousPage.
    destruct ((1 <? currentPage s) && negb (isLoading s)) eqn:E;
      [|exact Hok].
    apply andb_prop in E. destruct E as [E _]. apply Z.ltb_lt in E.
    apply loadTrips_ok. destruct Hok as [Hp [Hf Hr]].
    split; [cbn; lia|]. split; assumption.
  - destruct (take k (inflight s)) as [rest|]; [|discriminate].
    destruct Hok as [Hp [Hf Hr]].
    destruct (resume_control _ _ _ _ Hstep) as [Ep Ef].
    pose proof (resume_requests _ _ _ _ Hstep) as Er.
    unfold view_state_ok. rewrite Ep, Ef, Er. cbn.
    split; [exact Hp|]. split; assumption.
Qed.

Lemma reachable_ok (s : State) : reachable s -> view_state_ok s.
Proof.
  induction 1 as [page | s s' e _ IH Hstep].
  - apply page_load_ok.
  - exact (step_ok e s s' IH Hstep).
Qed.

(** C10. The page number is at least 1 in every state the page can reach
    (it is 1 at the start, and no operation brings it below 1), so the offset
    computed for a fetch, and the offset of every request sent, is never
    negative. *)
Theorem currentPage_at_least_one (s : State) :
  reachable s ->
  1 <= currentPage s /\
  0 <= offset s /\
  Forall offset_not_negative (requests s).
Proof.
  intros Hs. destruct (reachable_ok s Hs) as [Hp [_ Hr]].
  split; [exact Hp|]. split; [|exact Hr].
  unfold offset, itemsPerPage. lia.
Qed.

Lemma currentPage_at_least_one_witness :
  1 <= currentPage idle_state /\
  0 <= offset idle_state /\
  Forall offset_not_negative (requests idle_state).
Proof.
  apply (currentPage_at_least_one idle_state). exact idle_state_reachable.
Defined.

(** The operations that change the page number, one by one. *)
Lemma initial_page_is_one (page : Dom) : currentPage (initial page) = 1.
Proof. reflexivity. Qed.

Lemma nextPage_increments (s : State) :
  currentPage (nextPage s) =
    if isLoading s then currentPage s else currentPage s + 1.
Proof.
  unfold nextPage. destruct (isLoading s); [reflexivity|]. cbn [negb].
  destruct (loadTrips_control Detached
              (with_currentPage (currentPage s + 1) s)) as [-> _].
  reflexivity.
Qed.

Lemma previousPage_decrements (s : State) :
  currentPage (previousPage s) =
    if (1 <? currentPage s) && negb (isLoading s)
    then currentPage s - 1 else currentPage s.
Proof.
  unfold previousPage.
  destruct ((1 <? currentPage s) && negb (isLoading s)); [|reflexivity].
  destruct (loadTrips_control Detached
              (with_currentPage (currentPage s - 1) s)) as [-> _].
  reflexivity.
Qed.


Lemma page_two_shown_reachable : reachable page_two_shown.
Proof.
  apply (run_reachable second_page_shown
           (DOMContentLoaded (initial blank_page))).
  - apply reach_load.
  - vm_compute. reflexivity.
Qed.



Example first_page_query :
  req_params (tripsRequest idle_state) = [("limit", "50"); ("offset", "0")].
Proof. reflexivity. Qed.

Example third_page_query :
  req_params
    (tripsRequest (with_currentFilters [("time_of_day", "morning")]
                     (with_currentPage 3 idle_state))) =
    [("limit", "50"); ("offset", "100"); ("time_of_day", "morning")].
Proof. reflexivity. Qed.

(** C7, amended. With no load in flight, applying the filters sets the page
    to 1 and issues one trip fetch whose query holds the page parameters of
    page 1 and exactly the filter controls that hold a non-empty value;
    resetting the filters empties the controls and the stored filters, sets
    the page to 1 and issues one trip fetch with the page parameters of page
    1 only.  While a load is in flight, applying the filters does nothing at
    all, and resetting them empties the controls and the stored filters and
    sets the page to 1 but issues no fetch. *)
Theorem filters_applied_and_reset (s : State) :
  (isLoading s = false ->
   currentPage (applyFilters s) = 1 /\
   currentFilters (applyFilters s) =
     non_empty_entries (filter_entries (form (dom s))) /\
   requests (applyFilters s) =
     (requests s ++
      [mkRequest (API_BASE_URL ++ "/api/trips")
         ([("limit", "50"); ("offset", "0")]
          ++ non_empty_entries (filter_entries (form (dom s))))])%list) /\
  (isLoading s = true -> applyFilters s = s) /\
  (currentPage (resetFilters s) = 1 /\
   currentFilters (resetFilters s) = [] /\
   filter_entries (form (dom (resetFilters s))) =
     [("time_of_day", EmptyString); ("speed_category", EmptyString);
      ("min_distance", EmptyString); ("max_distance", EmptyString)]) /\
  (isLoading s = false ->
   requests (resetFilters s) =
     (requests s ++
      [mkRequest (API_BASE_URL ++ "/api/trips")
         [("limit", "50"); ("offset", "0")]])%list) /\
  (isLoading s = true -> requests (resetFilters s) = requests s).
Proof.
  split; [|split; [|split; [|split]]].
  - intros Hidle. unfold applyFilters. rewrite Hidle.
    set (s1 := with_currentPage 1 _).
    destruct (loadTrips_control AwaitedByApply s1) as [-> ->].
    rewrite loadTrips_requests.
    assert (Hf : currentFilters s1 = readFilters (form (dom s)))
      by (subst s1; cbn; destruct (dom s); reflexivity).
    assert (E : isLoading s1 = false) by (subst s1; cbn; exact Hidle).
    rewrite E. unfold tripsRequest.
    rewrite (params_explicit s1 (ex_intro _ _ Hf)), Hf.
    rewrite <- readFilters_non_empty.
    split; [reflexivity|]. split; reflexivity.
  - intros Hl. unfold applyFilters. rewrite Hl. reflexivity.
  - unfold resetFilters.
    set (s1 := with_currentPage 1 _).
    destruct (loadTrips_control Detached s1) as [-> ->].
    split; [reflexivity|]. split; [reflexivity|].
    unfold loadTrips. destruct (isLoading s1); reflexivity.
  - intros Hidle. unfold resetFilters. rewrite loadTrips_requests.
    cbn [isLoading with_currentPage with_currentFilters on_form with_dom].
    rewrite Hidle. reflexivity.
  - intros Hl. unfold resetFilters. rewrite loadTrips_requests.
    cbn [isLoading with_currentPage with_currentFilters on_form with_dom].
    rewrite Hl. reflexivity.
Qed.

(** On page 2 of the morning trips, with no load in flight and a largest
    distance typed since: applying sends both filters for page 1, resetting
    sends none. *)
Lemma filters_applied_and_reset_witness :
  (currentPage page_two_shown = 2 /\
   currentFilters page_two_shown = [("time_of_day", "morning")] /\
   isLoading page_two_shown = false) /\
  (currentPage (applyFilters page_two_shown) = 1 /\
   currentFilters (applyFilters page_two_shown) =
     [("time_of_day", "morning"); ("max_distance", "7.5")] /\
   requests (applyFilters page_two_shown) =
     (requests page_two_shown ++
      [mkRequest "http://localhost:8000/api/trips"
         [("limit", "50"); ("offset", "0"); ("time_of_day", "morning");
          ("max_distance", "7.5")]])%list) /\
  (currentPage (resetFilters page_two_shown) = 1 /\
   currentFilters (resetFilters page_two_shown) = [] /\
   filter_entries (form (dom (resetFilters page_two_shown))) =
     [("time_of_day", EmptyString); ("speed_category", EmptyString);
      ("min_distance", EmptyString); ("max_distance", EmptyString)]) /\
  requests (resetFilters page_two_shown) =
    (requests page_two_shown ++
     [mkRequest "http://localhost:8000/api/trips"
        [("limit", "50"); ("offset", "0")]])%list.
Proof.
  destruct (filters_applied_and_reset page_two_shown)
    as [Happly [_ [Hreset [Hsent _]]]].
  split; [repeat split; reflexivity|].
  split; [|split; [exact Hreset | rewrite (Hsent eq_refl); reflexivity]].
  destruct (Happly eq_refl) as [H1 [H2 H3]].
  split; [exact H1|]. split; [rewrite H2 | rewrite H3]; reflexivity.
Defined.

(** C7 as stated fails: while the load of page 2 is in flight, applying the
    filters leaves the page at 2 and sends nothing, and resetting them sends
    nothing either, so that the trip list is not reloaded. *)
Lemma filters_ignored_while_loading :
  isLoading page_two_loading = true /\
  currentPage page_two_loading = 2 /\
  currentPage (applyFilters page_two_loading) = 2 /\
  requests (applyFilters page_two_loading) = requests page_two_loading /\
  requests (resetFilters page_two_loading) = requests page_two_loading /\
  inflight (resetFilters page_two_loading) = inflight page_two_loading.
Proof. repeat split; reflexivity. Qed.

Example morning_filter_applied :
  requests
    (applyFilters
       (on_form (edit CtlMaxDistance "7.5")
          (on_form (edit CtlTimeOfDay "morning")
             (with_currentPage 4 idle_state)))) =
  (requests idle_state ++
   [mkRequest "http://localhost:8000/api/trips"
      [("limit", "50"); ("offset", "0"); ("time_of_day", "morning");
       ("max_distance", "7.5")]])%list.
Proof. reflexivity. Qed.

(** *** The guard flag *)

(** The three guarded actions do nothing while a load is in flight. *)
Lemma guarded_actions_while_loading (s : State) :
  isLoading s = true ->
  nextPage s = s /\ previousPage s = s /\ applyFilters s = s /\
  loadTrips Detached s = s.
Proof.
  intros H. unfold nextPage, previousPage, applyFilters, loadTrips.
  rewrite H, andb_false_r. repeat split; reflexivity.
Qed.

(** resetFilters sends nothing while a load is in flight either, but it has
    no guard of its own and rewrites the view state. *)
Lemma resetFilters_while_loading (s : State) :
  isLoading s = true ->
  requests (resetFilters s) = requests s /\
  inflight (resetFilters s) = inflight s /\
  currentPage (resetFilters s) = 1 /\
  currentFilters (resetFilters s) = [].
Proof.
  intros H. unfold resetFilters, loadTrips. cbn. rewrite H.
  repeat split; reflexivity.
Qed.

(** C1, at the input where the script departs from it: while the load of
    page 2 of the morning trips is in flight, resetFilters sends no request
    but sets the page number back to 1 and empties the filters. *)
Theorem resetFilters_ignores_load_in_flight :
  exists s,
    run second_page_loading (DOMContentLoaded (initial blank_page)) = Some s /\
    isLoading s = true /\
    currentPage s = 2 /\
    currentFilters s = [("time_of_day", "morning")] /\
    currentPage (resetFilters s) = 1 /\
    currentFilters (resetFilters s) = [] /\
    requests (resetFilters s) = requests s.
Proof.
  eexists. split; [vm_compute; reflexivity|].
  vm_compute. repeat split; reflexivity.
Qed.

(** What follows: the rows fetched for page 2 of the morning trips are
    shown under page number 1, with "previous" disabled, and the unfiltered
    first page is never asked for. *)
Example reset_during_load_mislabels_page :
  exists s,
    run (second_page_loading ++
         [CallsResetFilters;
          Settles (PTrips Detached) (TripsResponse (Resolved [sample_trip]))])
        (DOMContentLoaded (initial blank_page)) = Some s /\
    map req_params (filter (fun r => String.eqb (req_url r)
                                       "http://localhost:8000/api/trips")
                           (requests s)) =
      [[("limit", "50"); ("offset", "0"); ("time_of_day", "morning")];
       [("limit", "50"); ("offset", "50"); ("time_of_day", "morning")]] /\
    pageLabel (pager (dom s)) = [Int 1] /\
    prevBtn_disabled (pager (dom s)) = true /\
    option_map (@List.length RowMarkup)
      (match tableContainer (pager (dom s)) with
       | TableMarkup rows => Some rows
       | _ => None
       end) = Some 1%nat.
Proof.
  eexists. split; [vm_compute; reflexivity|].
  vm_compute. repeat split; reflexivity.
Qed.

Lemma take_trips_in_flight (k : Pending) (l rest : list Pending) :
  take k l = Some rest ->
  trips_in_flight l =
    match k with
    | PTrips _ => S (trips_in_flight rest)
    | _ => trips_in_flight rest
    end.
Proof.
  revert rest. induction l as [|k' l IH]; simpl; intros rest H;
    [discriminate|].
  destruct (pending_eqb k k') eqn:E.
  - injection H as <-. destruct k, k'; try discriminate E; reflexivity.
  - destruct (take k l) as [l''|]; [|discriminate].
    injection H as <-. specialize (IH l'' eq_refl).
    destruct k, k'; simpl; congruence.
Qed.

Lemma trips_in_flight_app (l l' : list Pending) :
  trips_in_flight (l ++ l') = (trips_in_flight l + trips_in_flight l')%nat.
Proof.
  induction l as [|k l IH]; simpl; [reflexivity|].
  destruct k; simpl; rewrite IH; reflexivity.
Qed.

Lemma single_flight_ext (s s' : State) :
  inflight s' = inflight s ->
  isLoading s' = isLoading s ->
  chartsOutstanding s' = chartsOutstanding s ->
  single_flight s -> single_flight s'.
Proof.
  unfold single_flight. intros -> -> ->. trivial.
Qed.

Lemma loadTrips_single_flight (c : Caller) (s : State) :
  single_flight s -> single_flight (loadTrips c s).
Proof.
  intros Hs. unfold loadTrips.
  destruct (isLoading s) eqn:E.
  - apply (single_flight_ext s); [| | |exact Hs]; destruct c; reflexivity.
  - destruct Hs as [H1 [H2 H3]]. destruct (H2 E) as [E1 E2].
    unfold single_flight. cbn.
    rewrite trips_in_flight_app, E1, E2. cbn.
    repeat split; auto; discriminate.
Qed.

Lemma chartSettled_single_flight (s : State) :
  single_flight s -> single_flight (chartSettled s).
Proof.
  intros Hs. unfold chartSettled.
  destruct (chartsOutstanding s) as [|[|n]] eqn:C; [exact Hs| |];
    destruct Hs as [H1 [H2 H3]]; unfold single_flight; cbn.
  - assert (E : trips_in_flight (inflight s) = 0%nat).
    { destruct (trips_in_flight (inflight s)) as [|[|m]];
        [reflexivity | specialize (H3 eq_refl); congruence | lia]. }
    repeat split; auto.
  - split; [exact H1|]. split.
    + intros L. destruct (H2 L) as [_ ?]. congruence.
    + intros T. specialize (H3 T). congruence.
Qed.

Lemma step_single_flight (e : Event) (s s' : State) :
  single_flight s -> step e s = Some s' -> single_flight s'.
Proof.
  intros Hs Hstep. destruct e; simpl in Hstep.
  - injection Hstep as <-.
    apply (single_flight_ext s); [reflexivity..|exact Hs].
  - injection Hstep as <-. unfold applyFilters.
    destruct (isLoading s) eqn:E; [exact Hs|].
    apply loadTrips_single_flight.
    apply (single_flight_ext s); [reflexivity..|exact Hs].
  - injection Hstep as <-. unfold resetFilters.
    apply loadTrips_single_flight.
    apply (single_flight_ext s); [reflexivity..|exact Hs].
  - injection Hstep as <-. unfold nextPage.
    destruct (negb (isLoading s)); [|exact Hs].
    apply loadTrips_single_flight.
    apply (single_flight_ext s); [reflexivity..|exact Hs].
  - injection Hstep as <-. unfold previousPage.
    destruct ((1 <? currentPage s) && negb (isLoading s)); [|exact Hs].
    apply loadTrips_single_flight.
    apply (single_flight_ext s); [reflexivity..|exact Hs].
  - destruct (take k (inflight s)) as [rest|] eqn:T; [|discriminate].
    pose proof (take_trips_in_flight k _ _ T) as Hn.
    destruct Hs as [H1 [H2 H3]].
    destruct k, r; try discriminate; injection Hstep as <-.
    + apply (single_flight_ext (with_inflight rest s)).
      * unfold loadStatistics_resume. split_cases; reflexivity.
      * unfold loadStatistics_resume. split_cases; reflexivity.
      * unfold loadStatistics_resume. split_cases; reflexivity.
      * unfold single_flight. cbn. rewrite <- Hn. auto.
    + unfold loadTimeChart_resume. apply chartSettled_single_flight.
      apply (single_flight_ext (with_inflight rest s));
        [destruct r; reflexivity..|].
      unfold single_flight. cbn. rewrite <- Hn. auto.
    + unfold loadSpeedChart_resume. apply chartSettled_single_flight.
      apply (single_flight_ext (with_inflight rest s));
        [destruct r; reflexivity..|].
      unfold single_flight. cbn. rewrite <- Hn. auto.
    + assert (E0 : trips_in_flight rest = 0%nat) by lia.
      assert (C0 : chartsOutstanding s = 0%nat) by (apply H3; lia).
      apply (single_flight_ext
               (with_isLoading false (with_inflight rest s))).
      * unfold loadTrips_resume, afterLoadTrips, showTrips, tripsFailed.
        split_cases; reflexivity.
      * unfold loadTrips_resume, afterLoadTrips, showTrips, tripsFailed.
        split_cases; reflexivity.
      * unfold loadTrips_resume, afterLoadTrips, showTrips, tripsFailed.
        split_cases; reflexivity.
      * unfold single_flight. cbn. rewrite E0, C0.
        repeat split; auto.
Qed.

(** X1. The invariant of the data model: in every reachable state at most
    one trip fetch is in flight, and only while the loading flag is set. *)
Lemma at_most_one_trips_fetch (s : State) :
  reachable s ->
  (trips_in_flight (inflight s) <= 1)%nat /\
  (isLoading s = false -> trips_in_flight (inflight s) = 0%nat).
Proof.
  intros Hs.
  assert (H : single_flight s).
  { induction Hs as [page | s s' e _ IH Hstep].
    - unfold single_flight. cbn. repeat split; auto; discriminate.
    - exact (step_single_flight e s s' IH Hstep). }
  destruct H as [H1 [H2 _]]. split; [exact H1|].
  intros E. apply H2. exact E.
Qed.

(** *** The pager *)

(** C2, amended. After a loadTrips call that received an array of rows it
    could render (the empty array included), "next" is disabled exactly when
    fewer than 50 rows came back and "previous" exactly when the page number
    is 1; after a call whose fetch failed, or whose rows could not be
    rendered, both buttons are enabled.  In every case the loading flag is
    cleared. *)
Theorem pager_after_load (c : Caller) (s : State) :
  1 <= currentPage s ->
  (forall trips rows,
     renderRows trips = Some rows ->
     pager_rule (List.length trips) (loadTrips_resume c (Resolved trips) s) /\
     isLoading (loadTrips_resume c (Resolved trips) s) = false) /\
  (forall trips,
     renderRows trips = None ->
     nextBtn_disabled (pager (dom (loadTrips_resume c (Resolved trips) s)))
       = false /\
     prevBtn_disabled (pager (dom (loadTrips_resume c (Resolved trips) s)))
       = false /\
     isLoading (loadTrips_resume c (Resolved trips) s) = false) /\
  nextBtn_disabled (pager (dom (loadTrips_resume c Rejected s))) = false /\
  prevBtn_disabled (pager (dom (loadTrips_resume c Rejected s))) = false /\
  isLoading (loadTrips_resume c Rejected s) = false.
Proof.
  intros Hp.
  assert (Hprev : (currentPage s <=? 1) = (currentPage s =? 1)).
  { destruct (Z.leb_spec (currentPage s) 1), (Z.eqb_spec (currentPage s) 1);
      try reflexivity; lia. }
  split; [|split].
  - intros trips rows Hrows.
    unfold pager_rule, loadTrips_resume, showTrips. rewrite Hrows.
    destruct (Z.of_nat (List.length trips) =? 0) eqn:E0.
    + apply Z.eqb_eq in E0. rewrite E0.
      destruct c; cbn; rewrite Hprev; repeat split; reflexivity.
    + destruct c; cbn; rewrite Hprev; repeat split; reflexivity.
  - intros trips Hnone.
    unfold loadTrips_resume, showTrips. rewrite Hnone.
    destruct trips as [|t ts]; [discriminate Hnone|].
    destruct c; cbn; repeat split; reflexivity.
  - destruct c; cbn; repeat split; reflexivity.
Qed.

Lemma pager_after_load_witness :
  (forall trips rows,
     renderRows trips = Some rows ->
     pager_rule (List.length trips)
       (loadTrips_resume Detached (Resolved trips)
          (loadTrips Detached idle_state)) /\
     isLoading (loadTrips_resume Detached (Resolved trips)
                  (loadTrips Detached idle_state)) = false) /\
  (forall trips,
     renderRows trips = None ->
     nextBtn_disabled
       (pager (dom (loadTrips_resume Detached (Resolved trips)
                      (loadTrips Detached idle_state)))) = false /\
     prevBtn_disabled
       (pager (dom (loadTrips_resume Detached (Resolved trips)
                      (loadTrips Detached idle_state)))) = false /\
     isLoading (loadTrips_resume Detached (Resolved trips)
                  (loadTrips Detached idle_state)) = false) /\
  nextBtn_disabled
    (pager (dom (loadTrips_resume Detached Rejected
                   (loadTrips Detached idle_state)))) = false /\
  prevBtn_disabled
    (pager (dom (loadTrips_resume Detached Rejected
                   (loadTrips Detached idle_state)))) = false /\
  isLoading (loadTrips_resume Detached Rejected
               (loadTrips Detached idle_state)) = false.
Proof.
  apply (pager_after_load Detached (loadTrips Detached idle_state)).
  vm_compute. discriminate.
Defined.

(** C2 as stated fails on a fetch failure: on page 1, with no row returned,
    both buttons end up enabled. *)
Lemma pager_after_failed_load :
  exists s,
    run first_page_failed (DOMContentLoaded (initial blank_page)) = Some s /\
    isLoading s = false /\
    currentPage s = 1 /\
    prevBtn_disabled (pager (dom s)) = false /\
    nextBtn_disabled (pager (dom s)) = false /\
    ~ pager_rule 0 s.
Proof.
  eexists. split; [vm_compute; reflexivity|].
  vm_compute. repeat split; try reflexivity.
  intros [H _]. discriminate H.
Qed.

(** *** Isolation of the loads *)



























(** *** What a load shows of its payload, and what it leaves alone *)





(** ** Further properties of the page script *)

(** *** The loading flag *)

Lemma at_most_one_trips_fetch_witness :
  (trips_in_flight (inflight idle_state) <= 1)%nat /\
  (isLoading idle_state = false ->
   trips_in_flight (inflight idle_state) = 0%nat).
Proof.
  apply (at_most_one_trips_fetch idle_state). exact idle_state_reachable.
Defined.

Lemma take_charts_in_flight (k : Pending) (l rest : list Pending) :
  take k l = Some rest ->
  charts_in_flight l =
    match k with
    | PTimeChart | PSpeedChart => S (charts_in_flight rest)
    | _ => charts_in_flight rest
    end.
Proof.
  revert rest. induction l as [|k' l IH]; simpl; intros rest H;
    [discriminate|].
  destruct (pending_eqb k k') eqn:E.
  - injection H as <-. destruct k, k'; try discriminate E; reflexivity.
  - destruct (take k l) as [l''|]; [|discriminate].
    injection H as <-. specialize (IH l'' eq_refl).
    destruct k, k'; simpl; congruence.
Qed.

Lemma charts_in_flight_app (l l' : list Pending) :
  charts_in_flight (l ++ l') =
    (charts_in_flight l + charts_in_flight l')%nat.
Proof.
  induction l as [|k l IH]; simpl; [reflexivity|].
  destruct k; simpl; rewrite IH; reflexivity.
Qed.

Lemma flag_exact_ext (s s' : State) :
  inflight s' = inflight s ->
  isLoading s' = isLoading s ->
  chartsOutstanding s' = chartsOutstanding s ->
  flag_exact s -> flag_exact s'.
Proof.
  unfold flag_exact. intros -> -> ->. trivial.
Qed.

Lemma loadTrips_flag_exact (c : Caller) (s : State) :
  flag_exact s -> flag_exact (loadTrips c s).
Proof.
  intros Hs. unfold loadTrips.
  destruct (isLoading s) eqn:E.
  - apply (flag_exact_ext s); [| | |exact Hs]; destruct c; reflexivity.
  - destruct Hs as [H1 H2]. rewrite E in H2.
    symmetry in H2. apply Nat.ltb_ge in H2.
    assert (Et : trips_in_flight (inflight s) = 0%nat) by lia.
    assert (Ec : charts_in_flight (inflight s) = 0%nat) by lia.
    unfold flag_exact. cbn [inflight isLoading chartsOutstanding fetch
                            on_pager with_isLoading with_dom].
    rewrite trips_in_flight_app, charts_in_flight_app, Et, Ec, H1, Ec.
    split; reflexivity.
Qed.

Lemma chartSettled_flag_exact (s : State) :
  (trips_in_flight (inflight s) <= 1)%nat ->
  (trips_in_flight (inflight s) = 1%nat -> chartsOutstanding s = 0%nat) ->
  chartsOutstanding s = S (charts_in_flight (inflight s)) ->
  isLoading s = true ->
  flag_exact (chartSettled s).
Proof.
  intros H1 H3 Hc Hl. unfold chartSettled, flag_exact.
  destruct (chartsOutstanding s) as [|[|n]] eqn:C; [discriminate| |]; cbn.
  - assert (E : trips_in_flight (inflight s) = 0%nat).
    { destruct (trips_in_flight (inflight s)) as [|[|m]];
        [reflexivity | specialize (H3 eq_refl); discriminate | lia]. }
    injection Hc as Hc. rewrite E, <- Hc. split; reflexivity.
  - injection Hc as Hc. rewrite <- Hc. split; [reflexivity|].
    rewrite Hl, Nat.add_succ_r. reflexivity.
Qed.

Lemma step_flag_exact (e : Event) (s s' : State) :
  single_flight s -> flag_exact s -> step e s = Some s' -> flag_exact s'.
Proof.
  intros Hsf Hs Hstep. destruct e; simpl in Hstep.
  - injection Hstep as <-.
    apply (flag_exact_ext s); [reflexivity..|exact Hs].
  - injection Hstep as <-. unfold applyFilters.
    destruct (isLoading s) eqn:E; [exact Hs|].
    apply loadTrips_flag_exact.
    apply (flag_exact_ext s); [reflexivity..|exact Hs].
  - injection Hstep as <-. unfold resetFilters.
    apply loadTrips_flag_exact.
    apply (flag_exact_ext s); [reflexivity..|exact Hs].
  - injection Hstep as <-. unfold nextPage.
    destruct (negb (isLoading s)); [|exact Hs].
    apply loadTrips_flag_exact.
    apply (flag_exact_ext s); [reflexivity..|exact Hs].
  - injection Hstep as <-. unfold previousPage.
    destruct ((1 <? currentPage s) && negb (isLoading s)); [|exact Hs].
    apply loadTrips_flag_exact.
    apply (flag_exact_ext s); [reflexivity..|exact Hs].
  - destruct (take k (inflight s)) as [rest|] eqn:T; [|discriminate].
    pose proof (take_trips_in_flight k _ _ T) as Ht.
    pose proof (take_charts_in_flight k _ _ T) as Hc.
    destruct Hsf as [H1 [H2 H3]]. destruct Hs as [F1 F2].
    destruct k, r; try discriminate; injection Hstep as <-.
    + apply (flag_exact_ext (with_inflight rest s)).
      * unfold loadStatistics_resume. split_cases; reflexivity.
      * unfold loadStatistics_resume. split_cases; reflexivity.
      * unfold loadStatistics_resume. split_cases; reflexivity.
      * unfold flag_exact. cbn. rewrite <- Ht, <- Hc. auto.
    + unfold loadTimeChart_resume.
      assert (L : isLoading s = true)
        by (rewrite F2; apply Nat.ltb_lt; lia).
      apply chartSettled_flag_exact; destruct r; cbn;
        rewrite <- ?Ht; auto; congruence.
    + unfold loadSpeedChart_resume.
      assert (L : isLoading s = true)
        by (rewrite F2; apply Nat.ltb_lt; lia).
      apply chartSettled_flag_exact; destruct r; cbn;
        rewrite <- ?Ht; auto; congruence.
    + assert (E0 : trips_in_flight rest = 0%nat) by lia.
      assert (C0 : chartsOutstanding s = 0%nat) by (apply H3; lia).
      apply (flag_exact_ext
               (with_isLoading false (with_inflight rest s))).
      * unfold loadTrips_resume, afterLoadTrips, showTrips, tripsFailed.
        split_cases; reflexivity.
      * unfold loadTrips_resume, afterLoadTrips, showTrips, tripsFailed.
        split_cases; reflexivity.
      * unfold loadTrips_resume, afterLoadTrips, showTrips, tripsFailed.
        split_cases; reflexivity.
      * unfold flag_exact. cbn. rewrite <- Hc, E0, <- F1, C0.
        split; reflexivity.
Qed.

Lemma reachable_flags (s : State) :
  reachable s -> single_flight s /\ flag_exact s.
Proof.
  induction 1 as [page | s s' e _ [IH1 IH2] Hstep].
  - split.
    + unfold single_flight. cbn. repeat split; auto; discriminate.
    + unfold flag_exact. cbn. split; reflexivity.
  - split.
    + exact (step_single_flight e s s' IH1 Hstep).
    + exact (step_flag_exact e s s' IH1 IH2 Hstep).
Qed.

(** X2. In every reachable state the loading flag is set exactly when a
    chart fetch or a trip fetch is in flight, and loadCharts waits for
    exactly the chart fetches in flight: the flag is never left set with
    nothing to clear it, and never cleared under a load. *)
Theorem loading_flag_exact (s : State) :
  reachable s ->
  chartsOutstanding s = charts_in_flight (inflight s) /\
  (isLoading s = true <->
   (0 < trips_in_flight (inflight s) + charts_in_flight (inflight s))%nat).
Proof.
  intros Hs. destruct (reachable_flags s Hs) as [_ [H1 H2]].
  split; [exact H1|]. rewrite H2. apply Nat.ltb_lt.
Qed.

Lemma loading_flag_exact_witness :
  chartsOutstanding idle_state = charts_in_flight (inflight idle_state) /\
  (isLoading idle_state = true <->
   (0 < trips_in_flight (inflight idle_state)
        + charts_in_flight (inflight idle_state))%nat).
Proof.
  apply (loading_flag_exact idle_state). exact idle_state_reachable.
Defined.
(** *** The page load and the pager *)

Lemma chart_resume_keeps_pager (s : State)
  (r : Fetched (option (list BarItem))) :
  pager (dom (loadTimeChart_resume r s)) = pager (dom s) /\
  pager (dom (loadSpeedChart_resume r s)) = pager (dom s) /\
  inflight (loadTimeChart_resume r s) = inflight s /\
  inflight (loadSpeedChart_resume r s) = inflight s.
Proof.
  unfold loadTimeChart_resume, loadSpeedChart_resume, chartSettled.
  destruct r; cbn; destruct (chartsOutstanding s) as [|[|n]];
    repeat split; reflexivity.
Qed.

Lemma statistics_resume_keeps_pager (s : State) (r : Fetched StatsSummary) :
  pager (dom (loadStatistics_resume r s)) = pager (dom s) /\
  inflight (loadStatistics_resume r s) = inflight s.
Proof.
  unfold loadStatistics_resume. split_cases; split; reflexivity.
Qed.

Lemma trips_resume_keeps_inflight (c : Caller) (r : Fetched (list TripRow))
  (s : State) :
  inflight (loadTrips_resume c r s) = inflight s /\
  isLoading (loadTrips_resume c r s) = false.
Proof.
  unfold loadTrips_resume, afterLoadTrips, showTrips, tripsFailed.
  split_cases; split; reflexivity.
Qed.

(** A settlement met on a page with no trip fetch in flight is that of the
    statistics or of a chart, and leaves the request log and the pager as
    they are. *)
Lemma settlement_without_trips (k : Pending) (r : Response) (s s' : State) :
  trips_in_flight (inflight s) = 0%nat ->
  step (Settles k r) s = Some s' ->
  requests s' = requests s /\
  pager (dom s') = pager (dom s) /\
  currentPage s' = currentPage s /\
  trips_in_flight (inflight s') = 0%nat.
Proof.
  intros H0 Hstep. unfold step in Hstep.
  destruct (take k (inflight s)) as [rest|] eqn:T; [|discriminate].
  pose proof (take_trips_in_flight k _ _ T) as Ht.
  pose proof (resume_requests _ _ _ _ Hstep) as Er.
  destruct (resume_control _ _ _ _ Hstep) as [Ep _].
  destruct k, r as [f|f|f]; try discriminate Hstep;
    try (rewrite H0 in Ht; discriminate Ht);
    cbn [resume] in Hstep; injection Hstep as <-.
  - destruct (statistics_resume_keeps_pager (with_inflight rest s) f)
      as [E1 E2].
    rewrite E1, E2, Er, Ep. cbn. repeat split; congruence.
  - destruct (chart_resume_keeps_pager (with_inflight rest s) f)
      as [E1 [_ [E2 _]]].
    rewrite E1, E2, Er, Ep. cbn. repeat split; congruence.
  - destruct (chart_resume_keeps_pager (with_inflight rest s) f)
      as [_ [E1 [_ E2]]].
    rewrite E1, E2, Er, Ep. cbn. repeat split; congruence.
Qed.

(** X3. The page load sends the requests for the statistics and the two
    charts and no trip query: its call of loadTrips is turned away by the
    flag that loadCharts has just set.  Whatever the responses and their
    order, as long as the user does nothing no trip query is ever sent, and
    the trip table, the page label and both pager buttons stay as the page
    shipped them. *)
Theorem page_load_never_loads_trips (page : Dom) (es : list Event)
  (s : State) :
  forallb is_settlement es = true ->
  run es (DOMContentLoaded (initial page)) = Some s ->
  requests s = page_load_requests /\
  pager (dom s) = pager page /\
  currentPage s = 1.
Proof.
  intros Hes Hrun.
  assert (G : forall es s0 s,
             forallb is_settlement es = true ->
             trips_in_flight (inflight s0) = 0%nat ->
             run es s0 = Some s ->
             requests s = requests s0 /\
             pager (dom s) = pager (dom s0) /\
             currentPage s = currentPage s0).
  { clear. induction es as [|e es IH]; simpl; intros s0 s Hes H0 Hrun.
    - injection Hrun as <-. repeat split; reflexivity.
    - apply andb_prop in Hes. destruct Hes as [He Hes].
      destruct e as [| | | | |k r]; try discriminate He.
      destruct (step (Settles k r) s0) as [s1|] eqn:E; [|discriminate].
      destruct (settlement_without_trips k r s0 s1 H0 E)
        as [E1 [E2 [E3 E4]]].
      destruct (IH s1 s Hes E4 Hrun) as [F1 [F2 F3]].
      repeat split; congruence. }
  destruct (G es (DOMContentLoaded (initial page)) s Hes eq_refl Hrun)
    as [E1 [E2 E3]].
  repeat split; assumption.
Qed.

Lemma page_load_never_loads_trips_witness :
  requests idle_state = page_load_requests /\
  pager (dom idle_state) = pager blank_page /\
  currentPage idle_state = 1.
Proof.
  apply (page_load_never_loads_trips blank_page charts_settled idle_state).
  - reflexivity.
  - vm_compute. reflexivity.
Defined.

Lemma pager_locked_ext (s s' : State) :
  pager (dom s') = pager (dom s) -> pager_locked s -> pager_locked s'.
Proof. unfold pager_locked. intros ->. trivial. Qed.

Lemma loadTrips_locks (c : Caller) (s : State) :
  (trips_in_flight (inflight s) = 1%nat -> pager_locked s) ->
  trips_in_flight (inflight (loadTrips c s)) = 1%nat ->
  pager_locked (loadTrips c s).
Proof.
  intros H. unfold loadTrips. destruct (isLoading s).
  - intros H1. apply (pager_locked_ext s).
    + destruct c; reflexivity.
    + apply H. destruct c; exact H1.
  - intros _. unfold pager_locked. cbn. repeat split; reflexivity.
Qed.

Lemma step_locks (e : Event) (s s' : State) :
  single_flight s ->
  (trips_in_flight (inflight s) = 1%nat -> pager_locked s) ->
  step e s = Some s' ->
  trips_in_flight (inflight s') = 1%nat -> pager_locked s'.
Proof.
  intros Hsf H Hstep. destruct e; simpl in Hstep.
  - injection Hstep as <-. intros H1.
    apply (pager_locked_ext s); [reflexivity|]. apply H. exact H1.
  - injection Hstep as <-. unfold applyFilters.
    destruct (isLoading s); [exact H|].
    apply loadTrips_locks. intros H1.
    apply (pager_locked_ext s); [reflexivity|]. apply H. exact H1.
  - injection Hstep as <-. unfold resetFilters.
    apply loadTrips_locks. intros H1.
    apply (pager_locked_ext s); [reflexivity|]. apply H. exact H1.
  - injection Hstep as <-. unfold nextPage.
    destruct (negb (isLoading s)); [|exact H].
    apply loadTrips_locks. intros H1.
    apply (pager_locked_ext s); [reflexivity|]. apply H. exact H1.
  - injection Hstep as <-. unfold previousPage.
    destruct ((1 <? currentPage s) && negb (isLoading s)); [|exact H].
    apply loadTrips_locks. intros H1.
    apply (pager_locked_ext s); [reflexivity|]. apply H. exact H1.
  - destruct (take k (inflight s)) as [rest|] eqn:T; [|discriminate].
    pose proof (take_trips_in_flight k _ _ T) as Ht.
    destruct Hsf as [H1 _].
    destruct k, r as [f|f|f]; try discriminate Hstep;
      cbn [resume] in Hstep; injection Hstep as <-.
    + destruct (statistics_resume_keeps_pager (with_inflight rest s) f)
        as [E1 E2].
      rewrite E2. cbn. intros H2.
      apply (pager_locked_ext s); [rewrite E1; reflexivity|].
      apply H. congruence.
    + destruct (chart_resume_keeps_pager (with_inflight rest s) f)
        as [E1 [_ [E2 _]]].
      rewrite E2. cbn. intros H2.
      apply (pager_locked_ext s); [rewrite E1; reflexivity|].
      apply H. congruence.
    + destruct (chart_resume_keeps_pager (with_inflight rest s) f)
        as [_ [E1 [_ E2]]].
      rewrite E2. cbn. intros H2.
      apply (pager_locked_ext s); [rewrite E1; reflexivity|].
      apply H. congruence.
    + destruct (trips_resume_keeps_inflight caller f (with_inflight rest s))
        as [E1 _].
      rewrite E1. cbn. intros H2. lia.
Qed.

(** X4. In every reachable state, while a trip fetch is in flight the table
    shows the loading placeholder and both pager buttons are disabled: no
    event, settlement or user action, unlocks the pager before the trip
    fetch settles. *)
Theorem pager_locked_while_loading (s : State) :
  reachable s ->
  trips_in_flight (inflight s) = 1%nat ->
  pager_locked s.
Proof.
  induction 1 as [page | s s' e Hs IH Hstep].
  - cbn. discriminate.
  - apply (step_locks e s s'); try assumption.
    apply reachable_flags. exact Hs.
Qed.

Lemma page_two_loading_reachable : reachable page_two_loading.
Proof.
  apply (run_reachable second_page_loading
           (DOMContentLoaded (initial blank_page))).
  - apply reach_load.
  - vm_compute. reflexivity.
Qed.

Lemma pager_locked_while_loading_witness : pager_locked page_two_loading.
Proof.
  apply (pager_locked_while_loading page_two_loading).
  - exact page_two_loading_reachable.
  - reflexivity.
Defined.

(** *** Requests *)

Lemma tripsRequest_well_formed (s : State) :
  view_state_ok s -> well_formed_request (tripsRequest s).
Proof.
  intros [Hp [[f Hf] _]]. right.
  exists (currentPage s - 1), f. split; [lia|].
  unfold tripsRequest.
  rewrite (params_explicit s (ex_intro _ f Hf)), Hf, readFilters_non_empty.
  reflexivity.
Qed.

Lemma loadTrips_well_formed (c : Caller) (s : State) :
  view_state_ok s ->
  Forall well_formed_request (requests s) ->
  Forall well_formed_request (requests (loadTrips c s)).
Proof.
  intros Hok H. rewrite loadTrips_requests.
  destruct (isLoading s); [exact H|].
  apply Forall_app. split; [exact H|].
  constructor; [|constructor]. apply tripsRequest_well_formed. exact Hok.
Qed.

Lemma step_well_formed (e : Event) (s s' : State) :
  view_state_ok s ->
  Forall well_formed_request (requests s) ->
  step e s = Some s' ->
  Forall well_formed_request (requests s').
Proof.
  intros Hok H Hstep. destruct Hok as [Hp [Hf Hr]].
  destruct e; simpl in Hstep.
  - injection Hstep as <-. exact H.
  - injection Hstep as <-. unfold applyFilters.
    destruct (isLoading s); [exact H|].
    apply loadTrips_well_formed; [|exact H].
    split; [cbn; lia|]. split; [|exact Hr]. eexists. reflexivity.
  - injection Hstep as <-. unfold resetFilters.
    apply loadTrips_well_formed; [|exact H].
    split; [cbn; lia|]. split; [|exact Hr].
    exists (clear_controls (form blank_page)). reflexivity.
  - injection Hstep as <-. unfold nextPage.
    destruct (negb (isLoading s)); [|exact H].
    apply loadTrips_well_formed; [|exact H].
    split; [cbn; lia|]. split; assumption.
  - injection Hstep as <-. unfold previousPage.
    destruct ((1 <? currentPage s) && negb (isLoading s)) eqn:E;
      [|exact H].
    apply andb_prop in E. destruct E as [E _]. apply Z.ltb_lt in E.
    apply loadTrips_well_formed; [|exact H].
    split; [cbn; lia|]. split; assumption.
  - destruct (take k (inflight s)) as [rest|]; [|discriminate].
    rewrite (resume_requests _ _ _ _ Hstep). exact H.
Qed.

(** X5. Every request the page ever sends is one of the three of the page
    load or a trip query made of [limit=50], an [offset] that is a
    non-negative multiple of 50, and then only filters among [time_of_day],
    [speed_category], [min_distance] and [max_distance], in this order, each
    with the non-empty value of its control: an empty filter value or a
    parameter of another name is never sent. *)
Theorem requests_well_formed (s : State) :
  reachable s -> Forall well_formed_request (requests s).
Proof.
  induction 1 as [page | s s' e Hs IH Hstep].
  - cbn. repeat constructor; left; cbn; tauto.
  - apply (step_well_formed e s s'); try assumption.
    apply reachable_ok. exact Hs.
Qed.

Lemma requests_well_formed_witness :
  Forall well_formed_request (requests page_two_loading).
Proof.
  apply (requests_well_formed page_two_loading).
  exact page_two_loading_reachable.
Defined.

(** *** Going forth and back *)

Lemma take_last_trips (c : Caller) (l : list Pending) :
  trips_in_flight l = 0%nat ->
  take (PTrips c) (l ++ [PTrips c]) = Some l.
Proof.
  induction l as [|k l IH]; simpl; intros H.
  - destruct c; reflexivity.
  - destruct k; try discriminate H; rewrite (IH H); reflexivity.
Qed.

Lemma tripsRequest_ext (s s' : State) :
  currentPage s' = currentPage s ->
  currentFilters s' = currentFilters s ->
  tripsRequest s' = tripsRequest s.
Proof.
  unfold tripsRequest, params, offset. intros -> ->. reflexivity.
Qed.

Lemma loadTrips_idle (c : Caller) (s : State) :
  isLoading s = false ->
  isLoading (loadTrips c s) = true /\
  inflight (loadTrips c s) = (inflight s ++ [PTrips c])%list /\
  requests (loadTrips c s) = (requests s ++ [tripsRequest s])%list /\
  form (dom (loadTrips c s)) = form (dom s).
Proof.
  intros H. unfold loadTrips. rewrite H. repeat split; reflexivity.
Qed.

(** X6. From a reachable state with no load in flight, going to the next
    page, letting that load settle (with any response) and going back to the
    previous page brings the page number back to where it was, keeps the
    filters, and asks again for exactly the trip query of the page the user
    started from, after the query of the page after it. *)
Theorem next_then_previous (s : State) (r : Fetched (list TripRow)) :
  reachable s ->
  isLoading s = false ->
  exists s',
    run [CallsNextPage;
         Settles (PTrips Detached) (TripsResponse r);
         CallsPreviousPage] s = Some s' /\
    currentPage s' = currentPage s /\
    currentFilters s' = currentFilters s /\
    requests s' =
      (requests s ++
       [tripsRequest (with_currentPage (currentPage s + 1) s);
        tripsRequest s])%list.
Proof.
  intros Hs Hidle.
  destruct (reachable_ok s Hs) as [Hp _].
  destruct (reachable_flags s Hs) as [[_ [H0 _]] _].
  destruct (H0 Hidle) as [H0' _]. clear H0. rename H0' into H0.
  set (s0 := with_currentPage (currentPage s + 1) s).
  assert (I0 : isLoading s0 = false) by exact Hidle.
  destruct (loadTrips_idle Detached s0 I0) as [L1 [F1 [R1 _]]].
  destruct (loadTrips_control Detached s0) as [P1 C1].
  set (s1 := loadTrips Detached s0) in *.
  set (s2 := loadTrips_resume Detached r (with_inflight (inflight s) s1)).
  assert (E2 : step (Settles (PTrips Detached) (TripsResponse r)) s1
               = Some s2).
  { unfold step. rewrite F1. change (inflight s0) with (inflight s).
    rewrite (take_last_trips Detached (inflight s) H0). reflexivity. }
  assert (P2 : currentPage s2 = currentPage s1)
    by exact (proj1 (resume_control (PTrips Detached) (TripsResponse r)
                       (with_inflight (inflight s) s1) s2 eq_refl)).
  assert (C2 : currentFilters s2 = currentFilters s1)
    by exact (proj2 (resume_control (PTrips Detached) (TripsResponse r)
                       (with_inflight (inflight s) s1) s2 eq_refl)).
  assert (R2 : requests s2 = requests s1)
    by exact (resume_requests (PTrips Detached) (TripsResponse r)
                (with_inflight (inflight s) s1) s2 eq_refl).
  assert (I2 : isLoading s2 = false)
    by exact (proj2 (trips_resume_keeps_inflight Detached r
                       (with_inflight (inflight s) s1))).
  set (s3 := with_currentPage (currentPage s2 - 1) s2).
  assert (I3 : isLoading s3 = false) by exact I2.
  destruct (loadTrips_idle Detached s3 I3) as [_ [_ [R3 _]]].
  destruct (loadTrips_control Detached s3) as [P3 C3].
  exists (loadTrips Detached s3). split.
  - unfold run. unfold step at 1. unfold nextPage. rewrite Hidle. cbn [negb].
    fold s0. fold s1. rewrite E2. unfold step, previousPage.
    rewrite I2, P2, P1. cbn [currentPage s0 with_currentPage negb].
    replace (1 <? currentPage s + 1) with true
      by (symmetry; apply Z.ltb_lt; lia).
    cbn [andb]. subst s3. rewrite P2, P1. reflexivity.
  - rewrite P3, C3, R3.
    assert (P : currentPage s3 = currentPage s)
      by (unfold s3; cbn [currentPage with_currentPage]; rewrite P2, P1;
          unfold s0; cbn [currentPage with_currentPage]; lia).
    assert (C : currentFilters s3 = currentFilters s)
      by (unfold s3; cbn [currentFilters with_currentPage];
          rewrite C2, C1; reflexivity).
    rewrite (tripsRequest_ext s s3 P C).
    split; [exact P|]. split; [exact C|].
    unfold s3. cbn [requests with_currentPage]. rewrite R2, R1.
    rewrite <- app_assoc. reflexivity.
Qed.

Lemma next_then_previous_witness :
  exists s',
    run [CallsNextPage;
         Settles (PTrips Detached) (TripsResponse (Resolved [sample_trip]));
         CallsPreviousPage] idle_state = Some s' /\
    currentPage s' = currentPage idle_state /\
    currentFilters s' = currentFilters idle_state /\
    requests s' =
      (requests idle_state ++
       [tripsRequest (with_currentPage (currentPage idle_state + 1)
                        idle_state);
        tripsRequest idle_state])%list.
Proof.
  apply (next_then_previous idle_state (Resolved [sample_trip])).
  - exact idle_state_reachable.
  - reflexivity.
Defined.

(** X7. From a reachable state with no load in flight, applying the filters
    disables the Apply button under the text "Applying..." until the trip
    fetch settles; whatever the response (rows, no rows, rows that cannot be
    rendered, a failure), the button is then enabled again under "Apply
    Filters", the loading flag is cleared, no call is left suspended, and the
    filter controls still hold what the user typed. *)
Theorem apply_button_round_trip (s : State) (r : Fetched (list TripRow)) :
  reachable s ->
  isLoading s = false ->
  applyBtn_disabled (form (dom (applyFilters s))) = true /\
  applyBtn_text (form (dom (applyFilters s))) = "Applying..." /\
  exists s',
    run [CallsApplyFilters;
         Settles (PTrips AwaitedByApply) (TripsResponse r)] s = Some s' /\
    applyBtn_disabled (form (dom s')) = false /\
    applyBtn_text (form (dom s')) = "Apply Filters" /\
    isLoading s' = false /\
    inflight s' = inflight s /\
    filter_entries (form (dom s')) = filter_entries (form (dom s)).
Proof.
  intros Hs Hidle.
  destruct (reachable_flags s Hs) as [[_ [H0 _]] _].
  destruct (H0 Hidle) as [H0' _]. clear H0. rename H0' into H0.
  unfold run, step, applyFilters. rewrite Hidle. cbv zeta.
  set (s0 := with_currentPage 1 _).
  assert (I0 : isLoading s0 = false) by exact Hidle.
  destruct (loadTrips_idle AwaitedByApply s0 I0) as [_ [F1 [_ D1]]].
  rewrite F1, D1. change (inflight s0) with (inflight s).
  rewrite (take_last_trips AwaitedByApply (inflight s) H0).
  split; [reflexivity|]. split; [reflexivity|].
  eexists. split; [reflexivity|].
  unfold loadTrips_resume, afterLoadTrips, showTrips, tripsFailed.
  unfold loadTrips. rewrite I0.
  split_cases; cbn; repeat split; reflexivity.
Qed.

Lemma apply_button_round_trip_witness :
  applyBtn_disabled (form (dom (applyFilters idle_state))) = true /\
  applyBtn_text (form (dom (applyFilters idle_state))) = "Applying..." /\
  exists s',
    run [CallsApplyFilters;
         Settles (PTrips AwaitedByApply) (TripsResponse Rejected)]
        idle_state = Some s' /\
    applyBtn_disabled (form (dom s')) = false /\
    applyBtn_text (form (dom s')) = "Apply Filters" /\
    isLoading s' = false /\
    inflight s' = inflight idle_state /\
    filter_entries (form (dom s')) = filter_entries (form (dom idle_state)).
Proof.
  apply (apply_button_round_trip idle_state Rejected).
  - exact idle_state_reachable.
  - reflexivity.
Defined.
(** *** formatLabel, again *)

Lemma capitalize_words_touched (p : bool) (s : string) :
  Forall2 touched (list_ascii_of_string s)
          (list_ascii_of_string (capitalize_words p s)).
Proof.
  revert p. induction s as [|c s IH]; intros p; simpl; constructor.
  - destruct (is_word c && negb p); [right; right|left]; reflexivity.
  - apply IH.
Qed.

Lemma toUpperCase_space : toUpperCase " "%char = " "%char.
Proof. reflexivity. Qed.

Lemma formatLabel_touched (p : bool) (s : string) :
  Forall2 touched (list_ascii_of_string s)
          (list_ascii_of_string
             (capitalize_words p (replace_underscores s))).
Proof.
  revert p. induction s as [|c s IH]; intros p; simpl; constructor.
  - destruct (Ascii.eqb_spec c "_"%char) as [->|Hc].
    + right; left. split; [reflexivity|].
      destruct (is_word " " && negb p); reflexivity.
    + destruct (is_word c && negb p); [right; right|left]; reflexivity.
  - apply IH.
Qed.

(** X8. formatLabel keeps the length of the label and leaves no underscore
    in it; character by character, it only turns an underscore into a space
    or a letter into its capital, and leaves every other character (digits,
    punctuation, non-ASCII bytes) as it is. *)
Theorem formatLabel_shape (s : string) :
  String.length (formatLabel s) = String.length s /\
  underscore_free (formatLabel s) /\
  Forall2 touched (list_ascii_of_string s)
          (list_ascii_of_string (formatLabel s)).
Proof.
  assert (H := formatLabel_touched false s). fold (formatLabel s) in H.
  split; [|split; [|exact H]].
  - apply Forall2_length in H.
    assert (L : forall t, List.length (list_ascii_of_string t)
                          = String.length t)
      by (induction t as [|c t IHt]; simpl; congruence).
    rewrite !L in H. symmetry. exact H.
  - apply capitalize_words_free, replace_underscores_free.
Qed.

Lemma lower_is_word (c : ascii) :
  in_range 97 122 c = true -> is_word c = true.
Proof.
  unfold is_word. intros ->. rewrite orb_true_r. reflexivity.
Qed.

Lemma toUpperCase_not_lower (c : ascii) :
  in_range 97 122 (toUpperCase c) = false.
Proof.
  destruct c as [b0 b1 b2 b3 b4 b5 b6 b7].
  destruct b0, b1, b2, b3, b4, b5, b6, b7; reflexivity.
Qed.

Lemma capitalize_words_capitalized (p : bool) (s : string) :
  words_capitalized p (capitalize_words p s).
Proof.
  revert p. induction s as [|c s IH]; intros p; simpl; [exact I|].
  destruct (is_word c) eqn:W; cbn [andb].
  - destruct p; cbn [negb].
    + split; [discriminate|]. rewrite W. apply IH.
    + split; [intros _; apply toUpperCase_not_lower|].
      rewrite is_word_toUpperCase, W. apply IH.
  - split; [|rewrite W; apply IH].
    intros _. destruct (in_range 97 122 c) eqn:L; [|reflexivity].
    rewrite (lower_is_word c L) in W. discriminate W.
Qed.

(** X9. In the result of formatLabel every word opens with a capital or a
    non-letter: no lower-case ASCII letter stands at the start of the label
    or right after a character that is not a letter, a digit or an
    underscore. *)
Theorem formatLabel_capitalizes (s : string) :
  words_capitalized false (formatLabel s).
Proof. apply capitalize_words_capitalized. Qed.

(** *** createBarChart, again *)

(** Under a maximum that [Math.max] found to be finite, or that is not
    positive, the bar of any row it looked at is between 1% and 100%
    high. *)
Lemma height_bounded (m : Q) (item : BarItem) :
  below m (to_number (item_value item)) ->
  exists h : Q,
    arith_bind (heightPercent (Finite m) item)
               (fun h => Value (js_max h (Finite 1))) = Value (Finite h) /\
    (1 <= h)%Q /\ (h <= 100)%Q.
Proof.
  intros Hb.
  destruct (to_number (item_value item)) as [v| | |] eqn:Ev;
    simpl in Hb; try contradiction.
  - eexists. split; [exact (finite_height m v item Ev)|].
    split; [apply Q.le_max_r|].
    apply Q.max_lub; [|discriminate].
    destruct (m ?= 0)%Q eqn:E; try discriminate.
    apply Qgt_alt in E.
    setoid_replace 100%Q with (1 * 100)%Q by reflexivity.
    apply Qmult_le_compat_r; [|discriminate].
    apply Qle_shift_div_r; [exact E|].
    rewrite Qmult_1_l. exact Hb.
  - unfold heightPercent, js_positive, js_div. rewrite Ev.
    destruct (m ?= 0)%Q eqn:E.
    + exists (Qmax 0 1). repeat split; discriminate.
    + exists (Qmax 0 1). repeat split; discriminate.
    + pose proof E as E'. apply Qgt_alt in E'.
      rewrite (positive_not_zero m E'). simpl. rewrite E. simpl.
      exists 1%Q. repeat split; discriminate.
Qed.

Lemma height_without_maximum (maxValue : JsNumber) (item : BarItem) :
  js_positive maxValue = false ->
  arith_bind (heightPercent maxValue item)
             (fun h => Value (js_max h (Finite 1)))
  = Value (Finite (Qmax 0 1)).
Proof. intros H. unfold heightPercent. rewrite H. reflexivity. Qed.

Lemma Math_max_not_infinite (data : list BarItem) :
  no_infinity data ->
  Math_max (map (fun d => to_number (item_value d)) data) <> PosInfinity.
Proof.
  intros Hno E. unfold Math_max in E.
  destruct (fold_js_max_infinite _ _ E) as [E0 | Hin]; [discriminate E0|].
  apply in_map_iff in Hin. destruct Hin as [item [Ev Hin]].
  apply (Hno item Hin).
  destruct (item_value item) as [x|]; [|discriminate Ev].
  simpl in Ev. rewrite Ev. reflexivity.
Qed.

(** X10. For every input series in which no row carries [Infinity] (no
    value was too large for a double), every bar that createBarChart draws
    is between 1% and 100% high: a bar never overflows its container,
    whatever the values, negative ones included. *)
Theorem bar_heights_within_container (limit : Z) (data : list BarItem) :
  no_infinity data ->
  Forall (height_is (fun h => 1 <= h /\ h <= 100)%Q)
         (bars_drawn (createBarChart limit (Some data))).
Proof.
  intros Hno. apply Forall_forall. intros bar Hbar.
  destruct (drawn_bar limit data bar Hbar) as [item [Hin Hb]].
  unfold height_is. rewrite (renderBar_height _ item bar Hb).
  pose proof (Math_max_not_infinite data Hno) as Hinf.
  destruct (Math_max (map (fun d => to_number (item_value d)) data))
    as [m| | |] eqn:Em.
  - unfold Math_max in Em.
    destruct (fold_js_max_finite _ _ m Em) as [_ Hall].
    rewrite Forall_forall in Hall.
    apply (height_bounded m item). apply Hall.
    apply in_map_iff. exists item. split; [reflexivity | exact Hin].
  - contradiction.
  - rewrite height_without_maximum by reflexivity.
    eexists. split; [reflexivity|]. split; discriminate.
  - rewrite height_without_maximum by reflexivity.
    eexists. split; [reflexivity|]. split; discriminate.
Qed.

Lemma bar_heights_within_container_witness :
  Forall (height_is (fun h => 1 <= h /\ h <= 100)%Q)
         (bars_drawn (createBarChart 65535 (Some rough_series))).
Proof.
  apply (bar_heights_within_container 65535 rough_series).
  intros item [<- | [<- | [<- | []]]]; discriminate.
Defined.

Example rough_series_drawn :
  List.length (bars_drawn (createBarChart 65535 (Some rough_series)))
    = 3%nat /\
  map bar_height (bars_drawn (createBarChart 65535 (Some rough_series))) =
    [Value (Finite (Qmax (12 / 12 * 100) 1)); Value (Finite 1);
     Value (Finite (Qmax (-3 / 12 * 100) 1))].
Proof. split; reflexivity. Qed.

(** The heights of the bars of two finite values, under any maximum, are in
    the order of the values. *)
Lemma heights_monotone (maxValue : JsNumber) (a b : BarItem) (va vb : Q) :
  item_value a = Some (Finite va) ->
  item_value b = Some (Finite vb) ->
  (va <= vb)%Q ->
  exists ha hb : Q,
    arith_bind (heightPercent maxValue a)
               (fun h => Value (js_max h (Finite 1))) = Value (Finite ha) /\
    arith_bind (heightPercent maxValue b)
               (fun h => Value (js_max h (Finite 1))) = Value (Finite hb) /\
    (ha <= hb)%Q.
Proof.
  intros Ea Eb Hle.
  destruct maxValue as [m| | |].
  - assert (Ta : to_number (item_value a) = Finite va)
      by (rewrite Ea; reflexivity).
    assert (Tb : to_number (item_value b) = Finite vb)
      by (rewrite Eb; reflexivity).
    eexists _, _. split; [exact (finite_height m va a Ta)|].
    split; [exact (finite_height m vb b Tb)|].
    apply Q.max_le_compat_r.
    destruct (m ?= 0)%Q eqn:E; try apply Qle_refl.
    apply Qgt_alt in E.
    apply Qmult_le_compat_r; [|discriminate].
    unfold Qdiv. apply Qmult_le_compat_r; [exact Hle|].
    apply Qinv_le_0_compat. apply Qlt_le_weak. exact E.
  - unfold heightPercent, js_div. rewrite Ea, Eb. simpl.
    eexists _, _. split; [reflexivity|]. split; [reflexivity|].
    apply Qle_refl.
  - rewrite !height_without_maximum by reflexivity.
    eexists _, _. split; [reflexivity|]. split; [reflexivity|].
    apply Qle_refl.
  - rewrite !height_without_maximum by reflexivity.
    eexists _, _. split; [reflexivity|]. split; [reflexivity|].
    apply Qle_refl.
Qed.

(** X11. The bars keep the order of the finite values: in every series that
    is drawn, of two rows that carry finite values, the one whose value is
    not larger gets a bar that is not higher (whatever the other rows
    carry). *)
Theorem bar_heights_monotone (limit : Z) (data : list BarItem) (i j : nat)
  (a b : BarItem) (x y : Bar) (va vb : Q) :
  nth_error data i = Some a ->
  nth_error data j = Some b ->
  nth_error (bars_drawn (createBarChart limit (Some data))) i = Some x ->
  nth_error (bars_drawn (createBarChart limit (Some data))) j = Some y ->
  item_value a = Some (Finite va) ->
  item_value b = Some (Finite vb) ->
  (va <= vb)%Q ->
  exists hx hy : Q,
    bar_height x = Value (Finite hx) /\
    bar_height y = Value (Finite hy) /\ (hx <= hy)%Q.
Proof.
  intros Ha Hb Hx Hy Ea Eb Hle.
  destruct (createBarChart_drawn limit data) as [E | H].
  - rewrite E in Hx. destruct i; discriminate Hx.
  - pose proof (Forall2_nth_error _ _ _ i a x H Ha Hx) as Rx.
    pose proof (Forall2_nth_error _ _ _ j b y H Hb Hy) as Ry.
    rewrite (renderBar_height _ a x Rx), (renderBar_height _ b y Ry).
    exact (heights_monotone _ a b va vb Ea Eb Hle).
Qed.

Lemma bar_heights_monotone_witness :
  exists hx hy : Q,
    bar_height (mkBar (Value (Finite (Qmax (3 / 12 * 100) 1))) "Late Night"
                      [Locale (Finite 3)]) = Value (Finite hx) /\
    bar_height (mkBar (Value (Finite (Qmax (12 / 12 * 100) 1))) "Morning"
                      [Locale (Finite 12)]) = Value (Finite hy) /\
    (hx <= hy)%Q.
Proof.
  apply (bar_heights_monotone 65535 sample_series 1 0
           (bar_item "late_night" 3) (bar_item "morning" 12)
           _ _ 3 12);
    try reflexivity.
  discriminate.
Defined.

(** *** Rows and tiles that cannot be rendered *)

Lemma renderRow_complete (trip : TripRow) :
  (exists row, renderRow trip = Some row) <-> trip_complete trip = true.
Proof.
  unfold renderRow, trip_complete.
  destruct (trip_duration_minutes trip), (trip_distance_miles trip),
    (trip_avg_speed_mph trip); split;
    try (intros _; reflexivity); try (intros _; eexists; reflexivity);
    try (intros H; discriminate H); intros [row H]; discriminate H.
Qed.

Lemma renderRows_complete (trips : list TripRow) :
  forallb trip_complete trips = true ->
  exists rows,
    renderRows trips = Some rows /\
    Forall2 (fun trip row => renderRow trip = Some row) trips rows.
Proof.
  induction trips as [|t ts IH]; simpl; intros H.
  - exists []. split; [reflexivity | constructor].
  - apply andb_prop in H. destruct H as [Ht Hts].
    apply renderRow_complete in Ht. destruct Ht as [row Hrow].
    destruct (IH Hts) as [rows [-> L]]. rewrite Hrow.
    exists (row :: rows). split; [reflexivity|].
    constructor; assumption.
Qed.

Lemma renderRows_incomplete (trips : list TripRow) :
  forallb trip_complete trips = false -> renderRows trips = None.
Proof.
  induction trips as [|t ts IH]; simpl; intros H; [discriminate|].
  destruct (renderRow t) as [row|] eqn:R; [|reflexivity].
  assert (Ht : trip_complete t = true)
    by (apply renderRow_complete; exists row; exact R).
  rewrite Ht in H. rewrite (IH H). reflexivity.
Qed.

(** X12. The trip table is all or nothing.  When every trip of a non-empty
    response carries its duration, distance and speed, the table is replaced
    by markup that holds one instance of the row template per trip, in the
    order of the response, the page label shows the current page and nothing
    is logged; when a single trip lacks one of the three, nothing of the
    response is shown, not even the trips before it: the table shows the
    error message, the page label keeps its text, both pager buttons are
    enabled and the error is logged. *)
Theorem trip_table_all_or_nothing (trips : list TripRow) (s : State) :
  trips <> [] ->
  if forallb trip_complete trips
  then exists rows,
         Forall2 (fun trip row => renderRow trip = Some row) trips rows /\
         tableContainer (pager (dom (showTrips (Resolved trips) s)))
           = TableMarkup rows /\
         pageLabel (pager (dom (showTrips (Resolved trips) s)))
           = [Int (currentPage s)] /\
         console (showTrips (Resolved trips) s) = console s
  else showTrips (Resolved trips) s = tripsFailed s /\
       tableContainer (pager (dom (showTrips (Resolved trips) s)))
         = TableError /\
       pageLabel (pager (dom (showTrips (Resolved trips) s)))
         = pageLabel (pager (dom s)) /\
       prevBtn_disabled (pager (dom (showTrips (Resolved trips) s)))
         = false /\
       nextBtn_disabled (pager (dom (showTrips (Resolved trips) s)))
         = false /\
       console (showTrips (Resolved trips) s)
         = (console s ++ ["Error loading trips:"])%list.
Proof.
  intros Hne.
  assert (E0 : (Z.of_nat (List.length trips) =? 0) = false).
  { destruct trips; [contradiction|]. reflexivity. }
  unfold showTrips. rewrite E0.
  destruct (forallb trip_complete trips) eqn:H.
  - destruct (renderRows_complete trips H) as [rows [-> L]].
    exists rows. repeat split; try reflexivity. exact L.
  - rewrite (renderRows_incomplete trips H). repeat split; reflexivity.
Qed.

(** A response of one complete trip, and a response in which a complete
    trip is followed by one without its speed. *)
Lemma trip_table_all_or_nothing_witness :
  (exists rows,
     Forall2 (fun trip row => renderRow trip = Some row) [sample_trip] rows /\
     tableContainer
       (pager (dom (showTrips (Resolved [sample_trip]) idle_state)))
       = TableMarkup rows /\
     pageLabel (pager (dom (showTrips (Resolved [sample_trip]) idle_state)))
       = [Int (currentPage idle_state)] /\
     console (showTrips (Resolved [sample_trip]) idle_state)
       = console idle_state) /\
  (showTrips (Resolved [sample_trip; trip_without_speed]) idle_state
     = tripsFailed idle_state /\
   tableContainer
     (pager (dom (showTrips (Resolved [sample_trip; trip_without_speed])
                    idle_state)))
     = TableError /\
   pageLabel
     (pager (dom (showTrips (Resolved [sample_trip; trip_without_speed])
                    idle_state)))
     = pageLabel (pager (dom idle_state)) /\
   prevBtn_disabled
     (pager (dom (showTrips (Resolved [sample_trip; trip_without_speed])
                    idle_state))) = false /\
   nextBtn_disabled
     (pager (dom (showTrips (Resolved [sample_trip; trip_without_speed])
                    idle_state))) = false /\
   console (showTrips (Resolved [sample_trip; trip_without_speed]) idle_state)
     = (console idle_state ++ ["Error loading trips:"])%list).
Proof.
  split.
  - apply (trip_table_all_or_nothing [sample_trip] idle_state). discriminate.
  - apply (trip_table_all_or_nothing [sample_trip; trip_without_speed]
             idle_state).
    discriminate.
Defined.

(** X13. loadStatistics shows its error banner exactly when the fetch fails
    or the payload lacks one of its four fields (one banner, after one
    console message); otherwise it writes the four tiles from the payload
    and shows nothing else.  A failed fetch, or a payload without
    [total_trips], leaves all four tiles as they were. *)
Theorem statistics_banner_iff_failure (r : Fetched StatsSummary)
  (s : State) :
  match r with
  | Resolved data =>
      match tiles_of data with
      | Some t =>
          tiles (dom (loadStatistics_resume r s)) = t /\
          banners (dom (loadStatistics_resume r s)) = banners (dom s) /\
          console (loadStatistics_resume r s) = console s
      | None =>
          banners (dom (loadStatistics_resume r s))
            = (banners (dom s) ++ ["Failed to load statistics"])%list /\
          console (loadStatistics_resume r s)
            = (console s ++ ["Error loading statistics:"])%list /\
          (total_trips data = None ->
           tiles (dom (loadStatistics_resume r s)) = tiles (dom s))
      end
  | Rejected =>
      banners (dom (loadStatistics_resume r s))
        = (banners (dom s) ++ ["Failed to load statistics"])%list /\
      console (loadStatistics_resume r s)
        = (console s ++ ["Error loading statistics:"])%list /\
      tiles (dom (loadStatistics_resume r s)) = tiles (dom s)
  end.
Proof.
  destruct r as [|data]; [repeat split; reflexivity|].
  unfold tiles_of, loadStatistics_resume.
  destruct (total_trips data), (avg_duration_minutes data),
    (avg_distance_miles data), (avg_speed_mph data);
    cbn; repeat split; try reflexivity; intros H; discriminate H.
Qed.
(** *** The chart containers *)

Lemma pending_eqb_true (a b : Pending) : pending_eqb a b = true -> a = b.
Proof.
  destruct a as [| | |[|]], b as [| | |[|]]; intros H;
    try reflexivity; discriminate H.
Qed.

Lemma pending_eqb_same (a : Pending) : pending_eqb a a = true.
Proof. destruct a as [| | |[|]]; reflexivity. Qed.

Lemma take_count_same (k : Pending) (l rest : list Pending) :
  take k l = Some rest ->
  count_pending k l = S (count_pending k rest).
Proof.
  unfold count_pending. revert rest.
  induction l as [|k' l IH]; simpl; intros rest H; [discriminate|].
  destruct (pending_eqb k k') eqn:E.
  - injection H as <-. reflexivity.
  - destruct (take k l) as [l''|]; [|discriminate].
    injection H as <-. simpl. rewrite E. apply IH. reflexivity.
Qed.

Lemma take_count_other (k k' : Pending) (l rest : list Pending) :
  pending_eqb k' k = false ->
  take k l = Some rest ->
  count_pending k' rest = count_pending k' l.
Proof.
  unfold count_pending. intros Hk. revert rest.
  induction l as [|x l IH]; simpl; intros rest H; [discriminate|].
  destruct (pending_eqb k x) eqn:E.
  - injection H as <-. apply pending_eqb_true in E. subst x.
    rewrite Hk. reflexivity.
  - destruct (take k l) as [l''|]; [|discriminate].
    injection H as <-. simpl.
    destruct (pending_eqb k' x); simpl; rewrite (IH l'' eq_refl);
      reflexivity.
Qed.

Lemma loadTrips_keeps_charts (c : Caller) (k : Pending) (s : State) :
  pending_eqb k (PTrips c) = false ->
  timeChart (dom (loadTrips c s)) = timeChart (dom s) /\
  speedChart (dom (loadTrips c s)) = speedChart (dom s) /\
  count_pending k (inflight (loadTrips c s)) = count_pending k (inflight s).
Proof.
  intros Hk. unfold loadTrips, afterLoadTrips, count_pending.
  destruct (isLoading s); [destruct c; repeat split; reflexivity|].
  cbn [inflight fetch]. rewrite filter_app. cbn [filter]. rewrite Hk.
  rewrite app_nil_r. repeat split; reflexivity.
Qed.

Lemma chart_follows_ext (k : Pending) (c : ChartContainer) (s s' : State) :
  count_pending k (inflight s') = count_pending k (inflight s) ->
  chart_follows k c s -> chart_follows k c s'.
Proof. unfold chart_follows. intros ->. trivial. Qed.

Lemma chartContent_settled (limit : Z)
  (r : Fetched (option (list BarItem))) :
  chart_settled (chartContent limit r).
Proof.
  unfold chartContent, createBarChart.
  destruct r as [|[[|d ds]|]]; try exact I.
  destruct (limit <? _); [exact I|].
  destruct (renderBars _ _); exact I.
Qed.

Lemma loadTrips_sends (c : Caller) (s : State) :
  requests (loadTrips c s) = requests s \/
  requests (loadTrips c s) = (requests s ++ [tripsRequest s])%list.
Proof.
  rewrite loadTrips_requests. destruct (isLoading s); [left|right];
    reflexivity.
Qed.

(** An event sends at most one request, and then a trip query. *)
Lemma step_sends (e : Event) (s s' : State) :
  step e s = Some s' ->
  requests s' = requests s \/
  exists s0, requests s' = (requests s ++ [tripsRequest s0])%list.
Proof.
  intros Hstep. destruct e as [ctl v| | | | |k r]; simpl in Hstep.
  - injection Hstep as <-. left. reflexivity.
  - injection Hstep as <-. unfold applyFilters.
    destruct (isLoading s); [left; reflexivity|].
    match goal with
    | |- context [loadTrips ?c ?s0] =>
        destruct (loadTrips_sends c s0) as [-> | ->];
          [left; reflexivity | right; exists s0; reflexivity]
    end.
  - injection Hstep as <-. unfold resetFilters.
    match goal with
    | |- context [loadTrips ?c ?s0] =>
        destruct (loadTrips_sends c s0) as [-> | ->];
          [left; reflexivity | right; exists s0; reflexivity]
    end.
  - injection Hstep as <-. unfold nextPage.
    destruct (negb (isLoading s)); [|left; reflexivity].
    match goal with
    | |- context [loadTrips ?c ?s0] =>
        destruct (loadTrips_sends c s0) as [-> | ->];
          [left; reflexivity | right; exists s0; reflexivity]
    end.
  - injection Hstep as <-. unfold previousPage.
    destruct ((1 <? currentPage s) && negb (isLoading s));
      [|left; reflexivity].
    match goal with
    | |- context [loadTrips ?c ?s0] =>
        destruct (loadTrips_sends c s0) as [-> | ->];
          [left; reflexivity | right; exists s0; reflexivity]
    end.
  - destruct (take k (inflight s)) as [rest|]; [|discriminate].
    left. exact (resume_requests _ _ _ _ Hstep).
Qed.

Lemma step_times_requested (url : string) (e : Event) (s s' : State) :
  String.eqb "http://localhost:8000/api/trips" url = false ->
  step e s = Some s' ->
  times_requested url s' = times_requested url s.
Proof.
  intros Hurl Hstep. unfold times_requested.
  destruct (step_sends e s s' Hstep) as [-> | [s0 ->]]; [reflexivity|].
  rewrite filter_app, length_app.
  cbn [filter req_url tripsRequest].
  change (API_BASE_URL ++ "/api/trips")
    with "http://localhost:8000/api/trips".
  rewrite Hurl. cbn. apply Nat.add_0_r.
Qed.

Lemma step_chart_follows (e : Event) (s s' : State) :
  chart_follows PTimeChart (timeChart (dom s)) s /\
  chart_follows PSpeedChart (speedChart (dom s)) s ->
  step e s = Some s' ->
  chart_follows PTimeChart (timeChart (dom s')) s' /\
  chart_follows PSpeedChart (speedChart (dom s')) s'.
Proof.
  intros [HT HS] Hstep.
  assert (L : forall c s0,
             timeChart (dom s0) = timeChart (dom s) ->
             speedChart (dom s0) = speedChart (dom s) ->
             inflight s0 = inflight s ->
             chart_follows PTimeChart (timeChart (dom (loadTrips c s0)))
               (loadTrips c s0) /\
             chart_follows PSpeedChart (speedChart (dom (loadTrips c s0)))
               (loadTrips c s0)).
  { intros c s0 E1 E2 E3.
    destruct (loadTrips_keeps_charts c PTimeChart s0 eq_refl)
      as [A1 [A2 A3]].
    destruct (loadTrips_keeps_charts c PSpeedChart s0 eq_refl)
      as [_ [_ B3]].
    rewrite A1, A2, E1, E2. split.
    - apply (chart_follows_ext _ _ s); [rewrite A3, E3; reflexivity|].
      exact HT.
    - apply (chart_follows_ext _ _ s); [rewrite B3, E3; reflexivity|].
      exact HS. }
  destruct e as [ctl v| | | | |k r]; simpl in Hstep.
  - injection Hstep as <-. split; [exact HT | exact HS].
  - injection Hstep as <-. unfold applyFilters.
    destruct (isLoading s); [split; assumption|].
    apply L; reflexivity.
  - injection Hstep as <-. unfold resetFilters. apply L; reflexivity.
  - injection Hstep as <-. unfold nextPage.
    destruct (negb (isLoading s)); [|split; assumption].
    apply L; reflexivity.
  - injection Hstep as <-. unfold previousPage.
    destruct ((1 <? currentPage s) && negb (isLoading s));
      [|split; assumption].
    apply L; reflexivity.
  - destruct (take k (inflight s)) as [rest|] eqn:T; [|discriminate].
    destruct k, r as [f|f|f]; try discriminate Hstep;
      cbn [resume] in Hstep; injection Hstep as <-.
    + assert (E : timeChart (dom (loadStatistics_resume f
                                    (with_inflight rest s)))
                  = timeChart (dom s) /\
                  speedChart (dom (loadStatistics_resume f
                                     (with_inflight rest s)))
                  = speedChart (dom s))
        by (unfold loadStatistics_resume; split_cases; split; reflexivity).
      destruct E as [-> ->].
      destruct (statistics_resume_keeps_pager (with_inflight rest s) f)
        as [_ Ei].
      split.
      * apply (chart_follows_ext _ _ s); [|exact HT].
        rewrite Ei.
        exact (take_count_other PStatistics PTimeChart _ _ eq_refl T).
      * apply (chart_follows_ext _ _ s); [|exact HS].
        rewrite Ei.
        exact (take_count_other PStatistics PSpeedChart _ _ eq_refl T).
    + destruct (chart_resume_keeps_pager (with_inflight rest s) f)
        as [_ [_ [Ei _]]].
      pose proof (take_count_same _ _ _ T) as Hn.
      destruct HT as [T1 _].
      assert (Z0 : count_pending PTimeChart rest = 0%nat) by lia.
      split.
      * unfold chart_follows. rewrite Ei. cbn [inflight with_inflight].
        rewrite Z0.
        split; [lia|]. split; [discriminate|]. intros _.
        unfold loadTimeChart_resume, chartSettled.
        split_cases; apply chartContent_settled.
      * assert (E : speedChart (dom (loadTimeChart_resume f
                                       (with_inflight rest s)))
                    = speedChart (dom s))
          by (unfold loadTimeChart_resume, chartSettled;
              destruct f; split_cases; reflexivity).
        rewrite E. apply (chart_follows_ext _ _ s); [|exact HS].
        rewrite Ei.
        exact (take_count_other PTimeChart PSpeedChart _ _ eq_refl T).
    + destruct (chart_resume_keeps_pager (with_inflight rest s) f)
        as [_ [_ [_ Ei]]].
      pose proof (take_count_same _ _ _ T) as Hn.
      destruct HS as [S1 _].
      assert (Z0 : count_pending PSpeedChart rest = 0%nat) by lia.
      split.
      * assert (E : timeChart (dom (loadSpeedChart_resume f
                                      (with_inflight rest s)))
                    = timeChart (dom s))
          by (unfold loadSpeedChart_resume, chartSettled;
              destruct f; split_cases; reflexivity).
        rewrite E. apply (chart_follows_ext _ _ s); [|exact HT].
        rewrite Ei.
        exact (take_count_other PSpeedChart PTimeChart _ _ eq_refl T).
      * unfold chart_follows. rewrite Ei. cbn [inflight with_inflight].
        rewrite Z0.
        split; [lia|]. split; [discriminate|]. intros _.
        unfold loadSpeedChart_resume, chartSettled.
        split_cases; apply chartContent_settled.
    + destruct (trips_resume_keeps_inflight caller f (with_inflight rest s))
        as [Ei _].
      assert (E : timeChart (dom (loadTrips_resume caller f
                                    (with_inflight rest s)))
                  = timeChart (dom s) /\
                  speedChart (dom (loadTrips_resume caller f
                                     (with_inflight rest s)))
                  = speedChart (dom s))
        by (unfold loadTrips_resume, afterLoadTrips, showTrips, tripsFailed;
            split_cases; split; reflexivity).
      destruct E as [-> ->].
      split.
      * apply (chart_follows_ext _ _ s); [|exact HT].
        rewrite Ei.
        exact (take_count_other (PTrips caller) PTimeChart _ _ eq_refl T).
      * apply (chart_follows_ext _ _ s); [|exact HS].
        rewrite Ei.
        exact (take_count_other (PTrips caller) PSpeedChart _ _ eq_refl T).
Qed.

(** X14. In every reachable state each of the two chart containers follows
    its own fetch: it shows "Loading" as long as the fetch is in flight, and
    once the fetch has settled it shows the failure message, the "no data"
    placeholder or bars, and never "Loading" again.  Each chart is fetched
    once: the log of the requests holds one request for each of the two
    series, that of the page load, whatever the user does. *)
Theorem charts_follow_their_fetch (s : State) :
  reachable s ->
  chart_follows PTimeChart (timeChart (dom s)) s /\
  chart_follows PSpeedChart (speedChart (dom s)) s /\
  times_requested "http://localhost:8000/api/patterns/time" s = 1%nat /\
  times_requested "http://localhost:8000/api/patterns/speed" s = 1%nat.
Proof.
  induction 1 as [page | s s' e _ [IH1 [IH2 [IH3 IH4]]] Hstep].
  - unfold chart_follows. cbn.
    repeat split; try reflexivity; try lia; discriminate.
  - destruct (step_chart_follows e s s' (conj IH1 IH2) Hstep) as [H1 H2].
    split; [exact H1|]. split; [exact H2|].
    rewrite !(step_times_requested _ e s s') by (reflexivity || exact Hstep).
    split; assumption.
Qed.

(** After the user has filtered, paged and typed. *)
Lemma charts_follow_their_fetch_witness :
  chart_follows PTimeChart (timeChart (dom page_two_shown)) page_two_shown /\
  chart_follows PSpeedChart (speedChart (dom page_two_shown))
    page_two_shown /\
  times_requested "http://localhost:8000/api/patterns/time" page_two_shown
    = 1%nat /\
  times_requested "http://localhost:8000/api/patterns/speed" page_two_shown
    = 1%nat.
Proof.
  apply (charts_follow_their_fetch page_two_shown).
  exact page_two_shown_reachable.
Defined.

End ExplorerProofs.

(** ** Properties of frontend/script.js *)

Module DashboardProofs.
Import Dashboard.

Ltac split_cases :=
  repeat match goal with
         | |- context [match ?x with _ => _ end] => destruct x eqn:?
         | |- context [if ?b then _ else _] => destruct b eqn:?
         end.

(** *** The rows of the trip table *)

(** The loop over the trips appends the rows of the trips that come before
    the first one without speed, and raises on that one. *)
Lemma appendRows_spec (trips : list Trip) (s : State) :
  appendRows trips s =
    (on_trip_table
       (fun t => mkTable (trips_tbody t ++ leading_rows trips)
                         (trips_count t)) s,
     if forallb has_speed trips then Returns else Throws).
Proof.
  revert s. induction trips as [|trip rest IH]; intros s.
  - destruct s as [[? [? ?] ? ? ?] ? ? ? ? ? ? ?].
    unfold on_trip_table, with_dom, with_trip_table. cbn.
    rewrite app_nil_r. reflexivity.
  - cbn [appendRows leading_rows forallb]. unfold has_speed at 1.
    unfold renderRow.
    destruct (trip_speed_kmh trip) as [speed|].
    + rewrite IH. cbn [andb].
      destruct s as [[? [? ?] ? ? ?] ? ? ? ? ? ? ?].
      unfold on_trip_table, with_dom, with_trip_table, appendChild. cbn.
      rewrite <- app_assoc. reflexivity.
    + destruct s as [[? [? ?] ? ? ?] ? ? ? ? ? ? ?].
      unfold on_trip_table, with_dom, with_trip_table. cbn.
      rewrite app_nil_r. reflexivity.
Qed.


Ltac unfold_resume H :=
  unfold resume, loadStats_resume, loadHourlyChart_resume,
    loadDailyChart_resume, loadSpeedChart_resume, loadDurationChart_resume,
    loadTrips_resume, generateInsights_hours, generateInsights_speeds,
    generateInsights_week, fetchData_resume, accept in H.

(** Unfolds a continuation in [H] and opens its cases. *)
Ltac break_resume H :=
  unfold_resume H; revert H; split_cases; intros H;
  rewrite ?appendRows_spec in H; revert H; split_cases; intros H.

Ltac split_cases_in H :=
  repeat match type of H with
         | context [match ?x with _ => _ end] => destruct x eqn:?
         | context [if ?b then _ else _] => destruct b eqn:?
         end.

(** *** Failures and refusals *)

(** The end of a turn never raises an alert unless the turn threw. *)
Lemma conclude_quiet (k : Pending) (c : Completion) (s : State) :
  c <> Throws ->
  rendered (conclude k c s) = rendered s /\
  alerts (conclude k c s) = alerts s /\
  console (conclude k c s) = (console s ++ success_note s (conclude k c s))%list.
Proof.
  intros Hc. unfold conclude, memberFulfilled, success_note.
  destruct c; [| contradiction |];
    destruct k as [| | | | |[|]| | |];
    destruct (initSettled s) eqn:Es;
    try destruct (initOutstanding s) as [|[|n]];
    cbn; rewrite ?Es; cbn; rewrite ?app_nil_r; repeat split; reflexivity.
Qed.

(** C5, amended. For every loader and every state: a network or non-JSON
    failure and a payload with [success: false] both leave every target
    element and chart as it was.  The failure is reported by one error
    message on the console and one alert; the payload with
    [success: false] is reported by nothing, neither on the console nor by
    an alert.  (In both cases the console gets the success message of
    initDashboard when the settlement is the last that it waited for.) *)
Theorem failure_and_refusal_handling (k : Pending) (r : Response)
  (s s' : State) :
  step (Settles k r) s = Some s' ->
  (failed r = true ->
   rendered s' = rendered s /\
   alerts s' = (alerts s ++ [connection_failed])%list /\
   console s' =
     (console s ++ ["Error fetching data:"] ++ success_note s s')%list) /\
  (refused r = true ->
   rendered s' = rendered s /\
   alerts s' = alerts s /\
   console s' = (console s ++ success_note s s')%list).
Proof.
  unfold step. intros Hstep.
  destruct (take k (inflight s)) as [rest|]; [|discriminate].
  destruct (resume k r (with_inflight rest s)) as [[s1 c]|] eqn:R;
    [|discriminate].
  injection Hstep as <-.
  split; intros H; destruct k, r as [f|f|f|f|f|f];
    try discriminate R; destruct f as [|e]; try discriminate H;
    cbn in H; try apply negb_true_iff in H;
    unfold resume, loadStats_resume, loadHourlyChart_resume,
      loadDailyChart_resume, loadSpeedChart_resume, loadDurationChart_resume,
      loadTrips_resume, generateInsights_hours, generateInsights_speeds,
      generateInsights_week, fetchData_resume, accept in R;
    rewrite ?H in R; injection R as <- <-;
    try (destruct caller); unfold success_note, conclude, memberFulfilled;
    cbn; destruct (initSettled s) eqn:Es;
    try destruct (initOutstanding s) as [|[|n]];
    cbn; rewrite ?Es; cbn; rewrite ?app_nil_r, <- ?app_assoc;
    repeat split; reflexivity.
Qed.

(** The fetch of [/stats] fails; and [/stats] answers [success: false]. *)
Lemma failure_and_refusal_handling_witness :
  (rendered stats_failed = rendered page_loaded /\
   alerts stats_failed = (alerts page_loaded ++ [connection_failed])%list /\
   console stats_failed =
     (console page_loaded ++ ["Error fetching data:"]
      ++ success_note page_loaded stats_failed)%list) /\
  (rendered stats_refused = rendered page_loaded /\
   alerts stats_refused = alerts page_loaded /\
   console stats_refused =
     (console page_loaded ++ success_note page_loaded stats_refused)%list).
Proof.
  split.
  - apply (failure_and_refusal_handling PStats (StatsResponse Rejected)
             page_loaded stats_failed); reflexivity.
  - apply (failure_and_refusal_handling PStats
             (StatsResponse (Resolved (mkEnvelope false None)))
             page_loaded stats_refused); reflexivity.
Defined.

(** C5 as stated fails: loadStats reports a failed fetch with an alert, and
    lets a payload with [success: false] pass without any message. *)
Lemma refusal_is_silent :
  step (Settles PStats (StatsResponse (Resolved (mkEnvelope false None))))
       page_loaded = Some stats_refused /\
  step (Settles PStats (StatsResponse Rejected)) page_loaded
    = Some stats_failed /\
  rendered stats_refused = rendered page_loaded /\
  alerts stats_refused = [] /\
  console stats_refused = console page_loaded /\
  alerts stats_failed = [connection_failed] /\
  console stats_failed = (console page_loaded ++ ["Error fetching data:"])%list.
Proof. repeat split; reflexivity. Qed.

(** *** Isolation of the loads *)

Lemma pending_eqb_eq (a b : Pending) : pending_eqb a b = true -> a = b.
Proof.
  destruct a as [| | | | |[|]| | |], b as [| | | | |[|]| | |];
    intros H; try reflexivity; discriminate H.
Qed.











(** *** What a load shows of its payload *)










(** The example of the specification: the fetch of [/stats] fails, and the
    hourly chart is drawn all the same. *)
Example hourly_chart_survives_stats_failure :
  run stats_down_chart_up (DOMContentLoaded (initial blank_page))
    = Some after_stats_down /\
  alerts after_stats_down = [connection_failed] /\
  stat_tiles (dom after_stats_down) = stat_tiles blank_page /\
  live (hourlyChart (charts after_stats_down)) =
    Some (mkChart "bar"
            [[Int 6; Lit " PM"]; [Lit "12 AM"]; [Lit "12 PM"]]
            [Number 4200; Number 350; Number 2100]).
Proof. vm_compute. repeat split; reflexivity. Qed.

(** The same on the page script: the statistics fail with a banner, the time
    chart is drawn, and the trip list is not loaded by the page load at all,
    its call being turned away by the flag that loadCharts has just set. *)
Example time_chart_survives_stats_failure :
  Explorer.run Explorer.stats_down_chart_up
    (Explorer.DOMContentLoaded (Explorer.initial Explorer.blank_page))
    = Some Explorer.after_stats_down /\
  Explorer.banners (Explorer.dom Explorer.after_stats_down)
    = ["Failed to load statistics"] /\
  Explorer.tableContainer
    (Explorer.pager (Explorer.dom Explorer.after_stats_down))
    = Explorer.TableBlank /\
  map Explorer.req_url (Explorer.requests Explorer.after_stats_down) =
    ["http://localhost:8000/api/stats";
     "http://localhost:8000/api/patterns/time";
     "http://localhost:8000/api/patterns/speed"].
Proof. repeat split; reflexivity. Qed.

(** ** Further properties of frontend/script.js *)

(** *** Hour labels *)

Lemma hour_of_day (h : Z) : 0 <= h <= 23 -> In h hours_of_day.
Proof.
  intros H. unfold hours_of_day.
  replace h with (Z.of_nat (Z.to_nat h)) by lia.
  apply in_map. apply in_seq. lia.
Qed.

Lemma hourLabel_readings :
  forallb (fun h => match text_string (hourLabel h) with
                    | Some l => String.eqb l (clock_reading h)
                    | None => false
                    end) hours_of_day = true.
Proof. vm_compute. reflexivity. Qed.

Lemma clock_readings_differ :
  forallb (fun h1 =>
             forallb (fun h2 =>
                        implb (String.eqb (clock_reading h1)
                                          (clock_reading h2))
                              (h1 =? h2))
                     hours_of_day)
          hours_of_day = true.
Proof. vm_compute. reflexivity. Qed.

(** X15. For every hour of the day, 0 to 23, the label computed for the
    hourly charts and insights reads as the 12-hour clock does (12 AM, 1 AM,
    ..., 11 AM, 12 PM, 1 PM, ..., 11 PM), and two different hours never get
    the same label. *)
Theorem hourLabel_is_the_clock (h : Z) :
  0 <= h <= 23 ->
  text_string (hourLabel h) = Some (clock_reading h) /\
  forall h', 0 <= h' <= 23 ->
    text_string (hourLabel h') = text_string (hourLabel h) -> h' = h.
Proof.
  intros Hh.
  assert (R : forall x, 0 <= x <= 23 ->
                        text_string (hourLabel x) = Some (clock_reading x)).
  { intros x Hx. pose proof hourLabel_readings as A.
    rewrite forallb_forall in A. specialize (A x (hour_of_day x Hx)).
    destruct (text_string (hourLabel x)) as [l|]; [|discriminate A].
    apply String.eqb_eq in A. rewrite A. reflexivity. }
  split; [exact (R h Hh)|].
  intros h' Hh' E. rewrite (R h Hh), (R h' Hh') in E. injection E as E.
  pose proof clock_readings_differ as B.
  rewrite forallb_forall in B. specialize (B h' (hour_of_day h' Hh')).
  rewrite forallb_forall in B. specialize (B h (hour_of_day h Hh)).
  rewrite E, String.eqb_refl in B. apply Z.eqb_eq. exact B.
Qed.

Lemma hourLabel_is_the_clock_witness :
  text_string (hourLabel 13) = Some (clock_reading 13) /\
  forall h', 0 <= h' <= 23 ->
    text_string (hourLabel h') = text_string (hourLabel 13) -> h' = 13.
Proof.
  apply (hourLabel_is_the_clock 13). lia.
Defined.

Example hour_labels :
  map (fun h => text_string (hourLabel h)) [0; 1; 11; 12; 13; 23] =
  [Some "12 AM"; Some "1 AM"; Some "11 AM"; Some "12 PM"; Some "1 PM";
   Some "11 PM"].
Proof. reflexivity. Qed.

(** *** The extremes of the insights *)

Lemma js_gt_true (a b : option Q) :
  js_gt a b = true -> exists u v, a = Some u /\ b = Some v /\ (v < u)%Q.
Proof.
  destruct a as [u|], b as [v|]; simpl; try discriminate.
  destruct (u ?= v)%Q eqn:E; try discriminate. intros _.
  exists u, v. repeat split. apply Qgt_alt. exact E.
Qed.

Lemma js_gt_false (a : option Q) (v : Q) :
  js_gt a (Some v) = false -> under false v a.
Proof.
  destruct a as [u|]; simpl; [|trivial].
  destruct (u ?= v)%Q eqn:E; try discriminate; intros _.
  - apply Qeq_alt in E. rewrite E. apply Qle_refl.
  - apply Qlt_le_weak. apply Qlt_alt. exact E.
Qed.

Lemma js_lt_true (a b : option Q) :
  js_lt a b = true -> exists u v, a = Some u /\ b = Some v /\ (u < v)%Q.
Proof.
  destruct a as [u|], b as [v|]; simpl; try discriminate.
  destruct (u ?= v)%Q eqn:E; try discriminate. intros _.
  exists u, v. repeat split. apply Qlt_alt. exact E.
Qed.

Lemma js_lt_false (a : option Q) (v : Q) :
  js_lt a (Some v) = false -> over false v a.
Proof.
  destruct a as [u|]; simpl; [|trivial].
  destruct (u ?= v)%Q eqn:E; try discriminate; intros _.
  - apply Qeq_alt in E. rewrite E. apply Qle_refl.
  - apply Qlt_le_weak. apply Qgt_alt. exact E.
Qed.

Lemma under_below (strictly : bool) (v u : Q) (o : option Q) :
  (v < u)%Q -> under strictly v o -> under true u o.
Proof.
  intros Hvu. destruct o as [w|]; simpl; [|trivial].
  destruct strictly; intros H.
  - eapply Qlt_trans; eassumption.
  - eapply Qle_lt_trans; eassumption.
Qed.

Lemma over_above (strictly : bool) (v u : Q) (o : option Q) :
  (u < v)%Q -> over strictly v o -> over true u o.
Proof.
  intros Huv. destruct o as [w|]; simpl; [|trivial].
  destruct strictly; intros H.
  - eapply Qlt_trans; eassumption.
  - eapply Qlt_le_trans; eassumption.
Qed.

Lemma largest_step {A} (f : A -> option Q) (l : list A) (best x : A) :
  first_largest f l best ->
  first_largest f (l ++ [x]) (if js_gt (f x) (f best) then x else best).
Proof.
  intros [pre [post [v [-> [Hv [Hpre Hpost]]]]]].
  destruct (js_gt (f x) (f best)) eqn:E.
  - destruct (js_gt_true _ _ E) as [u [v' [Hu [Hv' Hlt]]]].
    rewrite Hv in Hv'. injection Hv' as <-.
    exists (pre ++ best :: post)%list, [], u. rewrite <- app_assoc. simpl.
    split; [reflexivity|]. split; [exact Hu|]. split; [|intros y []].
    intros y Hy. apply in_app_or in Hy. destruct Hy as [Hy | [<- | Hy]].
    + exact (under_below true v u _ Hlt (Hpre y Hy)).
    + rewrite Hv. exact Hlt.
    + exact (under_below false v u _ Hlt (Hpost y Hy)).
  - exists pre, (post ++ [x])%list, v. rewrite <- app_assoc. simpl.
    split; [reflexivity|]. split; [exact Hv|]. split; [exact Hpre|].
    intros y Hy. apply in_app_or in Hy. destruct Hy as [Hy | [<- | []]].
    + apply Hpost. exact Hy.
    + rewrite Hv in E. exact (js_gt_false _ v E).
Qed.

Lemma smallest_step {A} (f : A -> option Q) (l : list A) (best x : A) :
  first_smallest f l best ->
  first_smallest f (l ++ [x]) (if js_lt (f x) (f best) then x else best).
Proof.
  intros [pre [post [v [-> [Hv [Hpre Hpost]]]]]].
  destruct (js_lt (f x) (f best)) eqn:E.
  - destruct (js_lt_true _ _ E) as [u [v' [Hu [Hv' Hlt]]]].
    rewrite Hv in Hv'. injection Hv' as <-.
    exists (pre ++ best :: post)%list, [], u. rewrite <- app_assoc. simpl.
    split; [reflexivity|]. split; [exact Hu|]. split; [|intros y []].
    intros y Hy. apply in_app_or in Hy. destruct Hy as [Hy | [<- | Hy]].
    + exact (over_above true v u _ Hlt (Hpre y Hy)).
    + rewrite Hv. exact Hlt.
    + exact (over_above false v u _ Hlt (Hpost y Hy)).
  - exists pre, (post ++ [x])%list, v. rewrite <- app_assoc. simpl.
    split; [reflexivity|]. split; [exact Hv|]. split; [exact Hpre|].
    intros y Hy. apply in_app_or in Hy. destruct Hy as [Hy | [<- | []]].
    + apply Hpost. exact Hy.
    + rewrite Hv in E. exact (js_lt_false _ v E).
Qed.

Lemma largest_from {A} (f : A -> option Q) (rest seen : list A) (best : A) :
  first_largest f seen best ->
  first_largest f (seen ++ rest)
    (fold_left (fun best x => if js_gt (f x) (f best) then x else best)
               rest best).
Proof.
  revert seen best. induction rest as [|x rest IH]; intros seen best H; simpl.
  - rewrite app_nil_r. exact H.
  - replace (seen ++ x :: rest)%list with ((seen ++ [x]) ++ rest)%list
      by (rewrite <- app_assoc; reflexivity).
    apply IH. apply largest_step. exact H.
Qed.

Lemma smallest_from {A} (f : A -> option Q) (rest seen : list A) (best : A) :
  first_smallest f seen best ->
  first_smallest f (seen ++ rest)
    (fold_left (fun best x => if js_lt (f x) (f best) then x else best)
               rest best).
Proof.
  revert seen best. induction rest as [|x rest IH]; intros seen best H; simpl.
  - rewrite app_nil_r. exact H.
  - replace (seen ++ x :: rest)%list with ((seen ++ [x]) ++ rest)%list
      by (rewrite <- app_assoc; reflexivity).
    apply IH. apply smallest_step. exact H.
Qed.

(** A first row without value is never replaced: every comparison with
    [undefined] is false. *)
Lemma extremes_without_value {A} (f : A -> option Q) (first : A)
  (rest : list A) :
  f first = None ->
  largest f first rest = first /\ smallest f first rest = first.
Proof.
  intros Hf. unfold largest, smallest.
  induction rest as [|x rest [IH1 IH2]]; simpl; [split; reflexivity|].
  rewrite Hf.
  replace (js_gt (f x) None) with false by (destruct (f x); reflexivity).
  replace (js_lt (f x) None) with false by (destruct (f x); reflexivity).
  split; assumption.
Qed.

(** X16. The two loops of generateInsights find the extremes.  When the
    first row of a non-empty list carries a value, the row they call fastest
    (busiest) carries the largest value and the one they call slowest
    (quietest) the smallest, the rows without value being passed over; of
    several rows with that value, the first in the list is taken.  When the
    first row carries no value, both loops end on the first row. *)
Theorem insight_extremes {A : Type} (f : A -> option Q) (first : A)
  (rest : list A) :
  match f first with
  | Some _ =>
      first_largest f (first :: rest) (largest f first rest) /\
      first_smallest f (first :: rest) (smallest f first rest)
  | None => largest f first rest = first /\ smallest f first rest = first
  end.
Proof.
  destruct (f first) as [v|] eqn:Hf;
    [|exact (extremes_without_value f first rest Hf)].
  split.
  - apply (largest_from f rest [first] first).
    exists [], [], v. split; [reflexivity|]. split; [exact Hf|].
    split; intros x [].
  - apply (smallest_from f rest [first] first).
    exists [], [], v. split; [reflexivity|]. split; [exact Hf|].
    split; intros x [].
Qed.

Example fastest_and_slowest_hours :
  let speeds := [mkHourSpeed 8 (Some 11%Q); mkHourSpeed 3 (Some 31%Q);
                 mkHourSpeed 17 (Some 9%Q); mkHourSpeed 2 None;
                 mkHourSpeed 4 (Some 31%Q); mkHourSpeed 18 (Some 9%Q)] in
  speed_hour (largest avg_speed (hd (mkHourSpeed 0 None) speeds) (tl speeds))
    = 3 /\
  speed_hour (smallest avg_speed (hd (mkHourSpeed 0 None) speeds)
                (tl speeds))
    = 17.
Proof. split; reflexivity. Qed.

(** *** initDashboard concludes once *)

Lemma occurrences_app (msg : string) (l l' : list string) :
  occurrences msg (l ++ l') = (occurrences msg l + occurrences msg l')%nat.
Proof.
  induction l as [|m l IH]; simpl; [reflexivity|].
  destruct (String.eqb msg m); rewrite IH; reflexivity.
Qed.

Lemma resume_conclusions (k : Pending) (r : Response) (s s1 : State)
  (c : Completion) :
  resume k r s = Some (s1, c) ->
  conclusions s1 = conclusions s /\
  initSettled s1 = initSettled s /\
  initOutstanding s1 = initOutstanding s.
Proof.
  intros R. unfold conclusions.
  destruct k, r as [f|f|f|f|f|f]; try discriminate R;
    destruct f as [|e]; break_resume R;
    injection R as <- <-; cbn; rewrite ?occurrences_app; cbn;
    repeat split; lia.
Qed.

Lemma conclude_conclusions (k : Pending) (c : Completion) (s : State) :
  conclusions s = (if initSettled s then 1 else 0)%nat ->
  conclusions (conclude k c s)
    = (if initSettled (conclude k c s) then 1 else 0)%nat.
Proof.
  unfold conclude, memberFulfilled, memberRejected, conclusions.
  intros H.
  destruct c, k as [| | | | |[|]| | |]; try exact H;
    destruct (initSettled s) eqn:E; try exact H;
    try (destruct (initOutstanding s) as [|[|n]]; cbn; rewrite ?E;
         try exact H);
    cbn; rewrite ?occurrences_app; cbn; rewrite ?E; cbn in H |- *; lia.
Qed.

Lemma step_conclusions (e : Event) (s s' : State) :
  conclusions s = (if initSettled s then 1 else 0)%nat ->
  step e s = Some s' ->
  conclusions s' = (if initSettled s' then 1 else 0)%nat.
Proof.
  intros H Hstep. destruct e as [ctl v| | |k r]; cbn in Hstep.
  - injection Hstep as <-. exact H.
  - injection Hstep as <-. exact H.
  - injection Hstep as <-. exact H.
  - destruct (take k (inflight s)) as [rest|]; [|discriminate].
    destruct (resume k r (with_inflight rest s)) as [[s1 c]|] eqn:R;
      [|discriminate].
    injection Hstep as <-.
    destruct (resume_conclusions k r _ s1 c R) as [E1 [E2 _]].
    apply conclude_conclusions. rewrite E1, E2. exact H.
Qed.

(** X17. initDashboard announces its conclusion once, and one conclusion
    only: in every reachable state, the success message on the console and
    the error alert of the dashboard have been issued once between them when
    the [await] of initDashboard is over, and not at all before; so never
    both, and neither of them twice, however many loads fail afterwards. *)
Theorem initDashboard_concludes_once (s : State) :
  reachable s ->
  (occurrences dashboard_loaded (console s)
   + occurrences dashboard_failed (alerts s))%nat
  = (if initSettled s then 1 else 0)%nat.
Proof.
  induction 1 as [page | s s' e _ IH Hstep].
  - reflexivity.
  - exact (step_conclusions e s s' IH Hstep).
Qed.

Lemma dashboard_run_reachable (es : list Event) (s s' : State) :
  reachable s -> run es s = Some s' -> reachable s'.
Proof.
  revert s. induction es as [|e es IH]; simpl; intros s Hs Hrun.
  - injection Hrun as <-. exact Hs.
  - destruct (step e s) as [s1|] eqn:E; [|discriminate].
    apply (IH s1); [|exact Hrun].
    apply (reach_step s s1 e); assumption.
Qed.

Lemma after_stats_down_reachable : reachable after_stats_down.
Proof.
  apply (dashboard_run_reachable stats_down_chart_up
           (DOMContentLoaded (initial blank_page))).
  - apply reach_load.
  - vm_compute. reflexivity.
Qed.

Lemma no_hours_settled_reachable : reachable no_hours_settled.
Proof.
  apply (reach_step (DOMContentLoaded (initial blank_page)) no_hours_settled
           (Settles PInsightHours (HoursResponse no_hours))).
  - apply reach_load.
  - vm_compute. reflexivity.
Qed.

Lemma initDashboard_concludes_once_witness :
  (occurrences dashboard_loaded (console no_hours_settled)
   + occurrences dashboard_failed (alerts no_hours_settled))%nat
  = (if initSettled no_hours_settled then 1 else 0)%nat.
Proof.
  apply (initDashboard_concludes_once no_hours_settled).
  exact no_hours_settled_reachable.
Defined.

Example dashboard_failed_once :
  initSettled no_hours_settled = true /\
  occurrences dashboard_failed (alerts no_hours_settled) = 1%nat /\
  occurrences dashboard_loaded (console no_hours_settled) = 0%nat.
Proof. repeat split; reflexivity. Qed.

(** *** The loading overlay of the click handlers *)

(** X18. When the trip fetch started by a click on Apply or Reset settles,
    the loading overlay is hidden after a failed fetch, after a payload with
    [success: false] and after a payload whose trips all carry their speed.
    But when the payload says [success] and its trips are absent, or one of
    them lacks its speed, loadTrips raises: the chained hideLoading is
    skipped and the overlay is left as it was, with no alert, over a table
    body that holds the rows of the trips that came before the one without
    speed. *)
Theorem handler_overlay (r : Fetched (Envelope (list Trip)))
  (s s' : State) :
  step (Settles (PTrips FromHandler) (TripsResponse r)) s = Some s' ->
  if trips_raise r
  then overlay_hidden (dom s') = overlay_hidden (dom s) /\
       alerts s' = alerts s /\
       trips_tbody (trip_table (dom s')) = leading_rows (trips_of r)
  else overlay_hidden (dom s') = true.
Proof.
  unfold step. intros Hstep.
  destruct (take (PTrips FromHandler) (inflight s)) as [rest|];
    [|discriminate].
  destruct r as [|[[|] [trips|]]]; cbn in Hstep;
    rewrite ?appendRows_spec in Hstep; cbn [trips_raise success payload andb];
    try destruct (forallb has_speed trips);
    injection Hstep as <-; cbn; repeat split; reflexivity.
Qed.

(** The answer to a click on Apply carries a trip without its speed after a
    sound one; and it carries the sound one only. *)
Lemma handler_overlay_witness :
  (overlay_hidden (dom broken_trips_settled)
     = overlay_hidden (dom apply_clicked) /\
   alerts broken_trips_settled = alerts apply_clicked /\
   trips_tbody (trip_table (dom broken_trips_settled))
     = leading_rows [sample_trip; trip_without_speed]) /\
  overlay_hidden (dom sound_trips_settled) = true.
Proof.
  split.
  - apply (handler_overlay broken_trips apply_clicked broken_trips_settled).
    reflexivity.
  - apply (handler_overlay sound_trips apply_clicked sound_trips_settled).
    reflexivity.
Defined.

Example overlay_left_up :
  overlay_hidden (dom page_loaded) = false /\
  overlay_hidden (dom apply_clicked) = false /\
  overlay_hidden (dom hollow_trips_settled) = false /\
  alerts hollow_trips_settled = [] /\
  overlay_hidden (dom broken_trips_settled) = false /\
  List.length (trips_tbody (trip_table (dom broken_trips_settled))) = 1%nat /\
  trips_count (trip_table (dom broken_trips_settled)) = [Int 2].
Proof. repeat split; reflexivity. Qed.

(** *** generateInsights from fetch to fetch *)

(** X19. generateInsights goes from its first fetch to its second whenever
    the first settles with a failure, a payload with [success: false] or a
    list of hours whose first row carries its count: one request for the
    speeds is then sent.  When the payload says [success] and its list of
    hours is absent or empty, or its first row has no count, generateInsights
    raises instead: nothing more is fetched, no insight is written, and if
    initDashboard was still waiting it raises its error alert. *)
Theorem insights_after_first_fetch (r : Fetched (Envelope (list HourCount)))
  (s s' : State) :
  step (Settles PInsightHours (HoursResponse r)) s = Some s' ->
  if first_insight_raises r
  then requests s' = requests s /\
       insights (dom s') = insights (dom s) /\
       (forall rest, take PInsightHours (inflight s) = Some rest ->
                     inflight s' = rest) /\
       (initSettled s = false ->
        alerts s' = (alerts s ++ [dashboard_failed])%list)
  else requests s' =
         (requests s ++
          ["http://localhost:5000/api/analytics/speed-by-hour"])%list /\
       (forall rest, take PInsightHours (inflight s) = Some rest ->
                     inflight s' = (rest ++ [PInsightSpeeds])%list).
Proof.
  unfold step. intros Hstep.
  destruct (take PInsightHours (inflight s)) as [rest|]; [|discriminate].
  destruct r as [|[[|] [[|h hs]|]]]; cbn in Hstep;
    cbn [first_insight_raises success payload andb];
    try destruct (hour_trips h);
    injection Hstep as <-;
    unfold memberRejected; cbn; destruct (initSettled s) eqn:Es; cbn;
    repeat split; try reflexivity;
    try (intros rest' E; injection E as <-; reflexivity);
    intros E; discriminate E.
Qed.

(** The first row of the hours has no count; and the hours are sound. *)
Lemma insights_after_first_fetch_witness :
  (requests uncounted_hours_settled = requests page_loaded /\
   insights (dom uncounted_hours_settled) = insights (dom page_loaded) /\
   (forall rest, take PInsightHours (inflight page_loaded) = Some rest ->
                 inflight uncounted_hours_settled = rest) /\
   (initSettled page_loaded = false ->
    alerts uncounted_hours_settled
      = (alerts page_loaded ++ [dashboard_failed])%list)) /\
  (requests counted_hours_settled =
     (requests page_loaded ++
      ["http://localhost:5000/api/analytics/speed-by-hour"])%list /\
   (forall rest, take PInsightHours (inflight page_loaded) = Some rest ->
                 inflight counted_hours_settled
                   = (rest ++ [PInsightSpeeds])%list)).
Proof.
  split.
  - apply (insights_after_first_fetch uncounted_hours page_loaded
             uncounted_hours_settled).
    reflexivity.
  - apply (insights_after_first_fetch
             (Resolved (mkEnvelope true (Some sample_hours)))
             page_loaded counted_hours_settled).
    reflexivity.
Defined.

(** *** The charts *)

Lemma redraw_sound (type : string) (labels : list Text)
  (data : list Datum) (slot : ChartSlot) :
  List.length labels = List.length data ->
  slot_sound type (redraw (mkChart type labels data) slot).
Proof. intros H. split; [reflexivity | exact H]. Qed.

Lemma conclude_charts (k : Pending) (c : Completion) (s : State) :
  charts (conclude k c s) = charts s.
Proof.
  unfold conclude, memberFulfilled, memberRejected.
  split_cases; reflexivity.
Qed.

Lemma formatSpeeds_length (speeds : list HourSpeed) (l : list Datum) :
  formatSpeeds speeds = Some l -> List.length l = List.length speeds.
Proof.
  revert l. induction speeds as [|h rest IH]; simpl; intros l H.
  - injection H as <-. reflexivity.
  - destruct (avg_speed h); [|discriminate H].
    destruct (formatSpeeds rest) as [l'|]; [|discriminate H].
    injection H as <-. simpl. rewrite (IH l' eq_refl). reflexivity.
Qed.

Lemma resume_charts_sound (k : Pending) (r : Response) (s s1 : State)
  (c : Completion) :
  charts_sound s ->
  resume k r s = Some (s1, c) ->
  charts_sound s1.
Proof.
  intros [H1 [H2 [H3 H4]]] R. unfold charts_sound.
  destruct k, r as [f|f|f|f|f|f]; try discriminate R;
    destruct f as [|e]; break_resume R;
    injection R as <- <-; cbn; repeat split; try assumption;
    rewrite ?length_map; try reflexivity;
    symmetry; apply formatSpeeds_length; assumption.
Qed.

(** X20. In every reachable state each of the four chart variables is
    either still empty, with no chart destroyed, or holds a chart of its own
    type (bar for the hours, line for the days and the speeds, pie for the
    durations) that has exactly one label per data point. *)
Theorem charts_stay_sound (s : State) :
  reachable s ->
  slot_sound "bar" (hourlyChart (charts s)) /\
  slot_sound "line" (dailyChart (charts s)) /\
  slot_sound "line" (speedChart (charts s)) /\
  slot_sound "pie" (durationChart (charts s)).
Proof.
  induction 1 as [page | s s' e _ IH Hstep].
  - repeat split; reflexivity.
  - destruct e as [ctl v| | |k r]; cbn in Hstep.
    + injection Hstep as <-. exact IH.
    + injection Hstep as <-. exact IH.
    + injection Hstep as <-. exact IH.
    + destruct (take k (inflight s)) as [rest|]; [|discriminate].
      destruct (resume k r (with_inflight rest s)) as [[s1 c]|] eqn:R;
        [|discriminate].
      injection Hstep as <-. rewrite conclude_charts.
      exact (resume_charts_sound k r (with_inflight rest s) s1 c IH R).
Qed.

Lemma charts_stay_sound_witness :
  slot_sound "bar" (hourlyChart (charts after_stats_down)) /\
  slot_sound "line" (dailyChart (charts after_stats_down)) /\
  slot_sound "line" (speedChart (charts after_stats_down)) /\
  slot_sound "pie" (durationChart (charts after_stats_down)).
Proof.
  apply (charts_stay_sound after_stats_down).
  exact after_stats_down_reachable.
Defined.

(** *** Requests *)











(** *** initDashboard cannot hang *)

Lemma take_init_in_flight (k : Pending) (l rest : list Pending) :
  take k l = Some rest ->
  init_in_flight l =
    (if is_init_member k then S (init_in_flight rest)
     else init_in_flight rest).
Proof.
  unfold init_in_flight. revert rest.
  induction l as [|k' l IH]; simpl; intros rest H; [discriminate|].
  destruct (pending_eqb k k') eqn:E.
  - injection H as <-. apply pending_eqb_eq in E. subst k'.
    destruct (is_init_member k); reflexivity.
  - destruct (take k l) as [l''|]; [|discriminate].
    injection H as <-. specialize (IH l'' eq_refl). simpl.
    destruct (is_init_member k'), (is_init_member k); simpl; lia.
Qed.

(** A continuation either ends, leaving the suspended calls as they are, or
    suspends its own load again on one more fetch. *)
Lemma resume_inflight (k : Pending) (r : Response) (s s1 : State)
  (c : Completion) :
  resume k r s = Some (s1, c) ->
  match c with
  | Awaits =>
      is_init_member k = true /\
      init_in_flight (inflight s1) = S (init_in_flight (inflight s))
  | _ => inflight s1 = inflight s
  end.
Proof.
  intros R. unfold init_in_flight.
  destruct k, r as [f|f|f|f|f|f]; try discriminate R;
    destruct f as [|e]; unfold_resume R;
    split_cases_in R; rewrite ?appendRows_spec in R; split_cases_in R;
    injection R as <- <-; cbn [inflight fetchData alert console_log
                               on_insights with_dom with_charts
                               on_hourlyChart on_dailyChart on_speedChart
                               on_durationChart on_trip_table on_stat_tiles];
    try reflexivity;
    (split; [reflexivity|]);
    rewrite filter_app, length_app; cbn; lia.
Qed.

Lemma conclude_inflight (k : Pending) (c : Completion) (s : State) :
  inflight (conclude k c s) = inflight s.
Proof.
  unfold conclude, memberFulfilled, memberRejected.
  split_cases; reflexivity.
Qed.

Lemma conclude_init_waits (k : Pending) (c : Completion) (s : State)
  (n : nat) :
  (initSettled s = false -> initOutstanding s = n /\ (1 <= n)%nat) ->
  init_in_flight (inflight s) =
    match c with
    | Awaits => n
    | _ => if is_init_member k then pred n else n
    end ->
  init_waits (conclude k c s).
Proof.
  intros H Hn. unfold init_waits. rewrite conclude_inflight, Hn.
  unfold conclude, memberFulfilled, memberRejected.
  destruct (initSettled s) eqn:Es;
    [destruct c, k as [| | | | |[|]| | |]; cbn; rewrite ?Es;
     intros X; discriminate X|].
  destruct (H eq_refl) as [H1 H2].
  destruct c, k as [| | | | |[|]| | |]; cbn [is_init_member];
    try (destruct (initOutstanding s) as [|[|m]] eqn:Eo; [lia| |]);
    cbn; rewrite ?Es, ?Eo; intros X; try discriminate X; split; lia.
Qed.

Lemma step_init_waits (e : Event) (s s' : State) :
  init_waits s -> step e s = Some s' -> init_waits s'.
Proof.
  intros H Hstep. destruct e as [ctl v| | |k r]; cbn in Hstep.
  - injection Hstep as <-. exact H.
  - injection Hstep as <-. unfold init_waits, init_in_flight in *. cbn.
    rewrite filter_app, length_app. cbn. rewrite Nat.add_0_r. exact H.
  - injection Hstep as <-. unfold init_waits, init_in_flight in *. cbn.
    rewrite filter_app, length_app. cbn. rewrite Nat.add_0_r. exact H.
  - destruct (take k (inflight s)) as [rest|] eqn:T; [|discriminate].
    destruct (resume k r (with_inflight rest s)) as [[s1 c]|] eqn:R;
      [|discriminate].
    injection Hstep as <-.
    pose proof (take_init_in_flight k _ _ T) as Hn.
    destruct (resume_conclusions k r _ s1 c R) as [_ [E2 E3]].
    pose proof (resume_inflight k r _ s1 c R) as Hi.
    cbn [initSettled initOutstanding inflight with_inflight] in E2, E3, Hi.
    apply (conclude_init_waits k c s1 (init_in_flight (inflight s))).
    + rewrite E2, E3. intros X. destruct (H X) as [H1 H2].
      split; [exact H1 | lia].
    + destruct c.
      * rewrite Hi, Hn. destruct (is_init_member k); reflexivity.
      * rewrite Hi, Hn. destruct (is_init_member k); reflexivity.
      * destruct Hi as [Hm Hi]. rewrite Hi, Hn, Hm. reflexivity.
Qed.

Lemma reachable_init_waits (s : State) : reachable s -> init_waits s.
Proof.
  induction 1 as [page | s s' e _ IH Hstep].
  - intros _. split; [reflexivity | cbn; lia].
  - exact (step_init_waits e s s' IH Hstep).
Qed.

(** X22. initDashboard cannot hang: in every reachable state, once none of
    the loads it started is in flight any more (the fetches that
    generateInsights chains included), its [await] is over, so that its
    conclusion has been announced; and as long as the [await] is not over,
    the number of loads it still waits for is the number of its loads in
    flight. *)
Theorem initDashboard_settles (s : State) :
  reachable s ->
  (init_in_flight (inflight s) = 0%nat -> initSettled s = true) /\
  (initSettled s = false ->
   initOutstanding s = init_in_flight (inflight s)).
Proof.
  intros Hs. pose proof (reachable_init_waits s Hs) as H.
  unfold init_waits in H. split.
  - intros E. destruct (initSettled s); [reflexivity|].
    destruct (H eq_refl) as [H1 H2]. lia.
  - intros E. apply H. exact E.
Qed.

Lemma initDashboard_settles_witness :
  (init_in_flight (inflight after_stats_down) = 0%nat ->
   initSettled after_stats_down = true) /\
  (initSettled after_stats_down = false ->
   initOutstanding after_stats_down
     = init_in_flight (inflight after_stats_down)).
Proof.
  apply (initDashboard_settles after_stats_down).
  exact after_stats_down_reachable.
Defined.

End DashboardProofs.
